(** * Mechinweb: purchase, invoicing and webhook reconciliation

    A shallow embedding of the purchase-to-settlement pipeline:
    - [ServiceManager] and [PaymentService] (lib/services.ts, lib/payments.ts),
    - the order validation trigger [validate_order_data] (SQL migration),
    - [createZohoCustomer] / [findZohoCustomer] (netlify/functions/zohoIntegration.js),
    - the webhook receiver (netlify/functions/zohoWebhook.js),
    - the health checks and [syncOrderStatus] of the two classes, the handler
      of the invoicing function with its configuration, token and invoice
      steps, the log buffer [ProductionLogger] (lib/productionLogger.ts) and
      the pricing check [validate_service_pricing] (SQL migration).

    Asynchronous functions are run-to-completion computations over a [World]
    (datastore tables, process-wide caches) that may throw and write to the console.  What the
    outside answers (auth service, datastore failures, exchange rates, the
    invoicing endpoint, the mail function) is read from an environment record,
    one field per call site.  JavaScript numbers are modelled by rationals
    (finite values only), strings by [string] restricted to ASCII case folding. *)

From Stdlib Require Import ZArith QArith Qround String Ascii List Lia Bool.
From stdpp Require Import base option strings gmap.
Import ListNotations.

Local Open Scope string_scope.
Local Open Scope list_scope.

(** ** JavaScript values and helpers *)

Module Js.

(** [String.prototype.includes]. *)
Fixpoint includes (s sub : string) : bool :=
  if String.prefix sub s then true
  else match s with
       | EmptyString => false
       | String _ s' => includes s' sub
       end.

Definition lower_ascii (c : ascii) : ascii :=
  let n := nat_of_ascii c in
  if andb (Nat.leb 65 n) (Nat.leb n 90) then ascii_of_nat (n + 32) else c.

(** [String.prototype.toLowerCase], on ASCII. *)
Fixpoint toLowerCase (s : string) : string :=
  match s with
  | EmptyString => EmptyString
  | String c s' => String (lower_ascii c) (toLowerCase s')
  end.

(** Truthiness of a string: every string but the empty one. *)
Definition truthy_string (s : string) : bool :=
  match s with EmptyString => false | _ => true end.

(** Truthiness of a (finite) number: every number but zero. *)
Definition truthy_number (q : Q) : bool := negb (Qeq_bool q 0).

(** The double quote character, for messages that quote a value. *)
Definition dquote : string := String (ascii_of_nat 34) EmptyString.

(** The names every plain object inherits from [Object.prototype]. *)
Definition object_prototype_keys : list string :=
  [ "constructor"; "toString"; "toLocaleString"; "valueOf"; "hasOwnProperty";
    "isPrototypeOf"; "propertyIsEnumerable"; "__proto__";
    "__defineGetter__"; "__defineSetter__"; "__lookupGetter__"; "__lookupSetter__" ].

(** The result of the property read [o[k]] on a plain object whose own
    properties are the entries of a finite map. *)
Inductive Prop_read (A : Type) : Type :=
  | Own (a : A)
  | Inherited (k : string)
  | Undefined.
Arguments Own {A} a.
Arguments Inherited {A} k.
Arguments Undefined {A}.

Definition get {A : Type} (o : gmap string A) (k : string) : Prop_read A :=
  match o !! k with
  | Some a => Own a
  | None => if bool_decide (k ∈ object_prototype_keys) then Inherited k else Undefined
  end.

(** [Number.prototype.toFixed(2)] followed by [parseFloat]: the nearest
    multiple of 1/100, ties away from zero. *)
Definition toFixed2 (x : Q) : Q :=
  if Qle_bool 0 x
  then (inject_Z (Qfloor (x * 100 + (1 # 2))) / 100)%Q
  else (- (inject_Z (Qfloor ((- x) * 100 + (1 # 2))) / 100))%Q.

(** Thrown values: [new Error(message)], or an error object handed back by
    the datastore client and re-thrown as it is. *)
Inductive Exn : Type :=
  | Error (message : string)
  | PostgrestError (message : string).

Definition message_of (e : Exn) : string :=
  match e with Error m => m | PostgrestError m => m end.

Inductive outcome (A : Type) : Type :=
  | Ret (a : A)
  | Throw (e : Exn).
Arguments Ret {A} a.
Arguments Throw {A} e.

End Js.
Export Js.

(** ** Datastore rows *)

(** Row of table [services] (interface [ServiceData]); [pricing] and
    [features] are JSON objects, possibly null. *)
Module ServiceData.
Record t : Type := {
  id : string;
  name : string;
  description : string;
  category : string;
  pricing : option (gmap string Q);
  features : option (gmap string (list string))
}.
End ServiceData.

(** Row of table [clients]. *)
Module Client.
Record t : Type := {
  id : string;
  name : string;
  email : string;
  phone : option string;
  company : option string
}.
End Client.

Inductive OrderStatus : Type := pending | paid | cancelled.

#[global] Instance OrderStatus_eq_dec : EqDecision OrderStatus.
Proof. solve_decision. Defined.

(** Row of table [orders] (interface [OrderData]). *)
Module Order.
Record t : Type := {
  id : nat;
  client_id : string;
  service_id : string;
  package_type : string;
  amount_usd : Q;
  amount_inr : Q;
  amount_aud : Q;
  currency : string;
  status : OrderStatus;
  payment_gateway : string;
  zoho_invoice_id : option string;
  zoho_customer_id : option string;
  updated_at : option Z
}.

(** [update({ status, updated_at })] on one row. *)
Definition set_status (st : OrderStatus) (ts : Z) (o : t) : t :=
  {| id := id o; client_id := client_id o; service_id := service_id o;
     package_type := package_type o; amount_usd := amount_usd o;
     amount_inr := amount_inr o; amount_aud := amount_aud o;
     currency := currency o; status := st;
     payment_gateway := payment_gateway o;
     zoho_invoice_id := zoho_invoice_id o;
     zoho_customer_id := zoho_customer_id o; updated_at := Some ts |}.

(** [update({ zoho_invoice_id, zoho_customer_id, updated_at })] on one row. *)
Definition set_zoho (inv cust : string) (ts : Z) (o : t) : t :=
  {| id := id o; client_id := client_id o; service_id := service_id o;
     package_type := package_type o; amount_usd := amount_usd o;
     amount_inr := amount_inr o; amount_aud := amount_aud o;
     currency := currency o; status := status o;
     payment_gateway := payment_gateway o;
     zoho_invoice_id := Some inv;
     zoho_customer_id := Some cust; updated_at := Some ts |}.
End Order.

(** Row of table [invoices]: the receipt written when a payment arrives. *)
Module Invoice.
Record t : Type := {
  order_id : nat;
  client_id : string;
  invoice_number : option string;
  amount_usd : Q;
  amount_inr : Q;
  amount_aud : Q;
  currency : string;
  total_amount : option Q;
  status : OrderStatus;
  due_date : Z
}.
End Invoice.

(** Row of table [notifications]. *)
Module Notification.
Record t : Type := {
  client_id : string;
  title : string;
  message : string;
  type : string;
  read : bool
}.
End Notification.

(** Row of table [purchase_audit_log]. *)
Module Audit.
Record t : Type := {
  client_id : option string;
  action : string;
  transaction_id : string;
  order_id : option nat;
  success : bool;
  error_message : option string
}.
End Audit.

(** Body of the request to the mail function. *)
Module EmailData.
Record t : Type := {
  clientName : string;
  clientEmail : string;
  serviceName : string;
  packageType : string;
  orderId : nat;
  amount : option Q
}.
End EmailData.

(** A number that a division may leave non-finite. *)
Inductive Number : Type :=
  | Finite (q : Q)
  | NonFinite.

(** [a / b] on numbers: non-finite when the divisor is zero. *)
Definition div (a b : Q) : Number :=
  if Qeq_bool b 0 then NonFinite else Finite (a / b)%Q.

(** Body of the request to the invoicing function. *)
Module CustomerData.
Record t : Type := {
  name : string;
  email : string;
  phone : string;
  company : string
}.
End CustomerData.

Module ServiceItem.
Record t : Type := {
  serviceId : string;
  serviceName : string;
  packageType : string;
  quantity : Z;
  unitPrice : Number;
  totalPrice : Q
}.
End ServiceItem.

(** The note attached to the invoice, field by field. *)
Module Notes.
Record t : Type := {
  order_id : nat;
  transaction_id : string;
  service : string;
  package : string;
  quantity : Z
}.
End Notes.

Module ZohoRequest.
Record t : Type := {
  customerData : CustomerData.t;
  serviceItems : list ServiceItem.t;
  currency : string;
  notes : Notes.t
}.
End ZohoRequest.

(** Console levels of [log(level, message, data)]. *)
Module Level.
Inductive t : Type := info | warn | warning | error.
End Level.

(** ** The world: tables, process-wide caches and the console *)

Record World : Type := {
  services : list ServiceData.t;
  clients : list Client.t;
  orders : list Order.t;
  invoices : list Invoice.t;
  notifications : list Notification.t;
  purchase_audit_log : list Audit.t;
  serviceCache : gmap string ServiceData.t;
  serviceMappingCache : option (gmap string string);
  emails : list EmailData.t;
  zoho_requests : list ZohoRequest.t
}.

Definition set_orders (f : list Order.t -> list Order.t)
    (w : World) : World :=
  {| services := services w; clients := clients w; orders := f (orders w);
     invoices := invoices w; notifications := notifications w;
     purchase_audit_log := purchase_audit_log w;
     serviceCache := serviceCache w;
     serviceMappingCache := serviceMappingCache w; emails := emails w;
     zoho_requests := zoho_requests w |}.

Definition set_invoices (f : list Invoice.t -> list Invoice.t)
    (w : World) : World :=
  {| services := services w; clients := clients w; orders := orders w;
     invoices := f (invoices w); notifications := notifications w;
     purchase_audit_log := purchase_audit_log w;
     serviceCache := serviceCache w;
     serviceMappingCache := serviceMappingCache w; emails := emails w;
     zoho_requests := zoho_requests w |}.

Definition set_notifications (f : list Notification.t -> list Notification.t)
    (w : World) : World :=
  {| services := services w; clients := clients w; orders := orders w;
     invoices := invoices w; notifications := f (notifications w);
     purchase_audit_log := purchase_audit_log w;
     serviceCache := serviceCache w;
     serviceMappingCache := serviceMappingCache w; emails := emails w;
     zoho_requests := zoho_requests w |}.

Definition set_purchase_audit_log (f : list Audit.t -> list Audit.t)
    (w : World) : World :=
  {| services := services w; clients := clients w; orders := orders w;
     invoices := invoices w; notifications := notifications w;
     purchase_audit_log := f (purchase_audit_log w);
     serviceCache := serviceCache w;
     serviceMappingCache := serviceMappingCache w; emails := emails w;
     zoho_requests := zoho_requests w |}.

Definition set_serviceCache (f : gmap string ServiceData.t -> gmap string ServiceData.t)
    (w : World) : World :=
  {| services := services w; clients := clients w; orders := orders w;
     invoices := invoices w; notifications := notifications w;
     purchase_audit_log := purchase_audit_log w;
     serviceCache := f (serviceCache w);
     serviceMappingCache := serviceMappingCache w; emails := emails w;
     zoho_requests := zoho_requests w |}.

Definition set_serviceMappingCache (c : option (gmap string string)) (w : World) : World :=
  {| services := services w; clients := clients w; orders := orders w;
     invoices := invoices w; notifications := notifications w;
     purchase_audit_log := purchase_audit_log w;
     serviceCache := serviceCache w; serviceMappingCache := c;
     emails := emails w; zoho_requests := zoho_requests w |}.

Definition set_emails (f : list EmailData.t -> list EmailData.t)
    (w : World) : World :=
  {| services := services w; clients := clients w; orders := orders w;
     invoices := invoices w; notifications := notifications w;
     purchase_audit_log := purchase_audit_log w;
     serviceCache := serviceCache w;
     serviceMappingCache := serviceMappingCache w; emails := f (emails w);
     zoho_requests := zoho_requests w |}.

Definition set_zoho_requests (f : list ZohoRequest.t -> list ZohoRequest.t)
    (w : World) : World :=
  {| services := services w; clients := clients w; orders := orders w;
     invoices := invoices w; notifications := notifications w;
     purchase_audit_log := purchase_audit_log w;
     serviceCache := serviceCache w;
     serviceMappingCache := serviceMappingCache w; emails := emails w;
     zoho_requests := f (zoho_requests w) |}.

(** ** Computations: state passing over the world, with exceptions

    A computation runs from a world to a result (a value or a thrown
    exception), the world it leaves and the lines it wrote to the console.
    A thrown exception keeps the effects made before it, as in JavaScript. *)

Record Run (A : Type) : Type := {
  result : outcome A;
  world : World;
  console : list (Level.t * string)
}.
Arguments result {A} _.
Arguments world {A} _.
Arguments console {A} _.

Definition M (A : Type) : Type := World -> Run A.

(** A step that writes nothing to the console. *)
Definition quiet {A : Type} (o : outcome A) (w : World) : Run A :=
  {| result := o; world := w; console := [] |}.

(** [r], after the lines [c] were written. *)
Definition says {A : Type} (c : list (Level.t * string)) (r : Run A) : Run A :=
  {| result := result r; world := world r; console := c ++ console r |}.

#[global] Instance M_ret : MRet M := fun A a w => quiet (Ret a) w.

#[global] Instance M_bind : MBind M := fun A B k m w =>
  let r := m w in
  match result r with
  | Ret a => says (console r) (k a (world r))
  | Throw e => {| result := Throw e; world := world r; console := console r |}
  end.

Definition throw {A : Type} (e : Exn) : M A := fun w => quiet (Throw e) w.

(** [try { m } catch (e) { h e }]. *)
Definition try_catch {A : Type} (m : M A) (h : Exn -> M A) : M A :=
  fun w =>
    let r := m w in
    match result r with
    | Ret a => r
    | Throw e => says (console r) (h e (world r))
    end.

Definition gets {A : Type} (f : World -> A) : M A := fun w => quiet (Ret (f w)) w.

Definition modify (f : World -> World) : M unit := fun w => quiet (Ret tt) (f w).

(** [log(level, message, data)]: the message is recorded, the data is not. *)
Definition log (l : Level.t) (msg : string) : M unit :=
  fun w => {| result := Ret tt; world := w; console := [(l, msg)] |}.

(** What a computation keeps: [m] respects [R] when every run of [m] from a
    world [w] leaves a world related to [w] by [R]. *)
Definition respects (R : World -> World -> Prop) {A : Type} (m : M A) : Prop :=
  forall w, R w (world (m w)).

(** The world is as before, the two service caches apart. *)
Definition caches_only (w w' : World) : Prop :=
  services w' = services w /\ clients w' = clients w /\ orders w' = orders w
  /\ invoices w' = invoices w /\ notifications w' = notifications w
  /\ purchase_audit_log w' = purchase_audit_log w
  /\ emails w' = emails w /\ zoho_requests w' = zoho_requests w.

(** What a datastore query hands back: [{ data, error }]. *)
Module Response.
Record t (A : Type) : Type := { data : option A; error : option string }.
Arguments data {A} _.
Arguments error {A} _.
End Response.

(** [.single()]: exactly one row, anything else is an error. *)
Definition single {A : Type} (rows : list A) : Response.t A :=
  match rows with
  | [r] => {| Response.data := Some r; Response.error := None |}
  | _ => {| Response.data := None;
            Response.error := Some "JSON object requested, multiple (or no) rows returned" |}
  end.

(** [.maybeSingle()]: no row is [null] data without an error. *)
Definition maybeSingle {A : Type} (rows : list A) : Response.t A :=
  match rows with
  | [] => {| Response.data := None; Response.error := None |}
  | [r] => {| Response.data := Some r; Response.error := None |}
  | _ => {| Response.data := None;
            Response.error := Some "JSON object requested, multiple (or no) rows returned" |}
  end.

(** Equality on a [uuid] column: the text form is compared up to the case of
    its hexadecimal digits. *)
Definition uuid_eqb (a b : string) : bool :=
  String.eqb (toLowerCase a) (toLowerCase b).

(** [services.id] is the primary key of its table: no two rows share it. *)
Definition services_pkey (w : World) : Prop :=
  NoDup (map (fun s => toLowerCase (ServiceData.id s)) (services w)).

(** ** The order validation trigger

    [validate_order_data()], run BEFORE INSERT OR UPDATE, FOR EACH ROW, on
    table [orders].  [RETURN_NEW] lets the row through, [RAISE_EXCEPTION]
    aborts the statement. *)

Inductive TriggerResult : Type :=
  | RETURN_NEW (row : Order.t)
  | RAISE_EXCEPTION (msg : string).

Definition validate_order_data (w : World) (NEW : Order.t) : TriggerResult :=
  if negb (existsb (fun s => uuid_eqb (ServiceData.id s) (Order.service_id NEW)) (services w))
  then RAISE_EXCEPTION ("Service with ID " ++ Order.service_id NEW ++ " does not exist")
  else if negb (existsb (fun c => uuid_eqb (Client.id c) (Order.client_id NEW)) (clients w))
  then RAISE_EXCEPTION ("Client with ID " ++ Order.client_id NEW ++ " does not exist")
  else if negb (bool_decide (Order.package_type NEW ∈ ["basic"; "standard"; "enterprise"]))
  then RAISE_EXCEPTION ("Invalid package type: " ++ Order.package_type NEW)
  else if Qle_bool (Order.amount_usd NEW) 0 || Qle_bool (Order.amount_inr NEW) 0
  then RAISE_EXCEPTION "Order amounts must be positive"
  else RETURN_NEW NEW.

(** The first exception the trigger raises over the rows of a statement. *)
Fixpoint first_exception (w : World) (rows : list Order.t) : option string :=
  match rows with
  | [] => None
  | r :: rows' =>
      match validate_order_data w r with
      | RAISE_EXCEPTION msg => Some msg
      | RETURN_NEW _ => first_exception w rows'
      end
  end.

(** ** Datastore statements

    Each statement takes the failure the environment injects at its call
    site ([Some message]: the statement fails before touching the tables). *)

Definition fresh_order_id (w : World) : nat :=
  S (fold_right Nat.max 0%nat (map Order.id (orders w))).

(** [from('orders').insert([row]).select(...).single()]; the row is given
    without its key, which the table generates. *)
Definition orders_insert (fault : option string) (row : nat -> Order.t) : M (Response.t Order.t) :=
  fun w =>
    match fault with
    | Some msg => quiet (Ret {| Response.data := None; Response.error := Some msg |}) w
    | None =>
        let NEW := row (fresh_order_id w) in
        match validate_order_data w NEW with
        | RAISE_EXCEPTION msg => quiet (Ret {| Response.data := None; Response.error := Some msg |}) w
        | RETURN_NEW r =>
            quiet (Ret (single [r])) (set_orders (fun os => os ++ [r]) w)
        end
    end.

(** [from('orders').update(f).eq(...)], the filter given as [p]: the rows
    that match are rewritten, unless the trigger refuses one of them.
    Returns the error, if any, and the rewritten rows. *)
Definition orders_update (fault : option string) (p : Order.t -> bool)
    (f : Order.t -> Order.t) : M (option string * list Order.t) :=
  fun w =>
    match fault with
    | Some msg => quiet (Ret (Some msg, [])) w
    | None =>
        let changed := map f (filter (fun o => p o) (orders w)) in
        match first_exception w changed with
        | Some msg => quiet (Ret (Some msg, [])) w
        | None =>
            quiet (Ret (None, changed))
              (set_orders (map (fun o => if p o then f o else o)) w)
        end
    end.

(** [from('orders').update(f).eq(...).select(...).single()]: when the
    statement does not rewrite exactly one row, the datastore reports an
    error and keeps the table as it was. *)
Definition orders_update_single (fault : option string) (p : Order.t -> bool)
    (f : Order.t -> Order.t) : M (Response.t Order.t) :=
  fun w =>
    match fault with
    | Some msg => quiet (Ret {| Response.data := None; Response.error := Some msg |}) w
    | None =>
        let changed := map f (filter (fun o => p o) (orders w)) in
        match first_exception w changed with
        | Some msg => quiet (Ret {| Response.data := None; Response.error := Some msg |}) w
        | None =>
            match changed with
            | [r] => quiet (Ret (single [r]))
                       (set_orders (map (fun o => if p o then f o else o)) w)
            | _ => quiet (Ret (single changed)) w
            end
        end
    end.

(** [from('services').select(...).eq('id', ident).maybeSingle()]. *)
Definition services_eq_id (fault : option string) (ident : string) : M (Response.t ServiceData.t) :=
  fun w =>
    match fault with
    | Some msg => quiet (Ret {| Response.data := None; Response.error := Some msg |}) w
    | None =>
        quiet (Ret (maybeSingle
                      (filter (fun s => uuid_eqb (ServiceData.id s) ident) (services w)))) w
    end.

(** [from('services').select(...)], with or without the ordering. *)
Definition services_select (fault : option string) : M (Response.t (list ServiceData.t)) :=
  fun w =>
    match fault with
    | Some msg => quiet (Ret {| Response.data := None; Response.error := Some msg |}) w
    | None => quiet (Ret {| Response.data := Some (services w); Response.error := None |}) w
    end.

(** [from('clients').select('*').eq('id', ident).maybeSingle()]. *)
Definition clients_eq_id (fault : option string) (ident : string) : M (Response.t Client.t) :=
  fun w =>
    match fault with
    | Some msg => quiet (Ret {| Response.data := None; Response.error := Some msg |}) w
    | None =>
        quiet (Ret (maybeSingle
                      (filter (fun c => uuid_eqb (Client.id c) ident) (clients w)))) w
    end.

(** ** Service resolution (class [ServiceManager]) *)

Module ServiceManager.

(** What the environment answers to one resolution or lookup. *)
Record Env : Type := {
  services_eq_id_error : option string;
  services_star_error : option string;
  services_ordered_error : option string;
  services_fallback_error : option string
}.

Definition is_digit (c : ascii) : bool :=
  let n := nat_of_ascii c in andb (Nat.leb 48 n) (Nat.leb n 57).

(** [[0-9a-f]] under the [i] flag. *)
Definition is_hex (c : ascii) : bool :=
  let n := nat_of_ascii (lower_ascii c) in
  orb (is_digit c) (andb (Nat.leb 97 n) (Nat.leb n 102)).

Inductive CharClass : Type := Hex | Dash | Version | Variant_.

Definition in_class (k : CharClass) (c : ascii) : bool :=
  match k with
  | Hex => is_hex c
  | Dash => Ascii.eqb c "-"
  | Version => let n := nat_of_ascii c in andb (Nat.leb 49 n) (Nat.leb n 53)
  | Variant_ =>
      let n := nat_of_ascii (lower_ascii c) in
      orb (orb (Nat.eqb n 56) (Nat.eqb n 57)) (orb (Nat.eqb n 97) (Nat.eqb n 98))
  end.

Fixpoint matches (pat : list CharClass) (s : string) : bool :=
  match pat, s with
  | [], EmptyString => true
  | k :: pat', String c s' => andb (in_class k c) (matches pat' s')
  | _, _ => false
  end.

(** [/^[0-9a-f]{8}-[0-9a-f]{4}-[1-5][0-9a-f]{3}-[89ab][0-9a-f]{3}-[0-9a-f]{12}$/i] *)
Definition uuidRegex : list CharClass :=
  repeat Hex 8 ++ [Dash] ++ repeat Hex 4 ++ [Dash] ++
  [Version] ++ repeat Hex 3 ++ [Dash] ++
  [Variant_] ++ repeat Hex 3 ++ [Dash] ++ repeat Hex 12.

Definition uuidRegex_test (s : string) : bool := matches uuidRegex s.

(** A resolved identifier: a string, or the member of [Object.prototype]
    that a read of the alias object found under an inherited name. *)
Inductive IdRef : Type :=
  | IdString (s : string)
  | IdInherited (k : string).

Definition validateServiceData (services : list ServiceData.t) : bool * list string :=
  let issues :=
    flat_map (fun service =>
      (if negb (truthy_string (ServiceData.id service))
          || negb (truthy_string (ServiceData.name service))
       then ["Service missing required fields"] else []) ++
      (match ServiceData.pricing service with
       | Some p => if bool_decide (p = ∅) then ["Service missing pricing data"] else []
       | None => ["Service missing pricing data"]
       end) ++
      (match ServiceData.features service with
       | Some p => if bool_decide (p = ∅) then ["Service missing features data"] else []
       | None => ["Service missing features data"]
       end)) services in
  (match issues with [] => true | _ => false end, issues).

Definition getAllServices (e : Env) : M (list ServiceData.t) :=
  try_catch
    (log Level.info "Fetching all services from database";;
     r ← services_select (services_ordered_error e);
     match Response.error r with
     | Some msg =>
         log Level.error "Database error fetching services";;
         if includes msg "does not exist" then
           log Level.warn "Column missing in services table, using fallback query";;
           r2 ← services_select (services_fallback_error e);
           match Response.error r2 with
           | Some msg2 => throw (PostgrestError msg2)
           | None => mret (default [] (Response.data r2))
           end
         else throw (PostgrestError msg)
     | None =>
         let services := default [] (Response.data r) in
         log Level.info "Loaded services from database";;
         modify (set_serviceCache (fun c =>
           fold_left (fun c service => <[ServiceData.id service := service]> c) services c));;
         (if fst (validateServiceData services) then mret tt
          else log Level.warn "Service data validation issues found");;
         mret services
     end)
    (fun err => log Level.error "Error fetching services";; throw err).

(** The body of the [forEach] that fills the mapping: every rule whose
    pattern the lower-cased name contains writes its three aliases. *)
Definition add_aliases (mapping : gmap string string) (service : ServiceData.t)
    : gmap string string :=
  let name := toLowerCase (ServiceData.name service) in
  let id := ServiceData.id service in
  let rule (test : bool) (keys : list string) (m : gmap string string) :=
    if test then fold_left (fun m k => <[k := id]> m) keys m else m in
  let m := rule (includes name "email migration" || includes name "email setup")
             ["email-migration"; "email_migration"; "email-setup"] mapping in
  let m := rule (includes name "email deliverability" || includes name "email security"
                 || includes name "domain" && includes name "email")
             ["email-deliverability"; "email_security"; "domain-email-security"] m in
  let m := rule (includes name "ssl" || includes name "https")
             ["ssl-setup"; "ssl_setup"; "https-setup"] m in
  let m := rule (includes name "cloud suite" || includes name "cloud management")
             ["cloud-management"; "cloud_management"; "cloud-suite"] m in
  let m := rule (includes name "data migration" || includes name "cloud data")
             ["data-migration"; "data_migration"; "cloud-data-migration"] m in
  let m := rule (includes name "hosting" || includes name "control panel")
             ["hosting-support"; "hosting_support"; "control-panel-support"] m in
  let m := rule (includes name "acronis")
             ["acronis-setup"; "acronis_setup"; "acronis-backup"] m in
  rule (includes name "per incident" || includes name "incident support")
    ["per-incident-support"; "per_incident_support"; "incident-support"] m.

Definition createServiceMapping (e : Env) : M (gmap string string) :=
  try_catch
    (cache ← gets serviceMappingCache;
     match cache with
     | Some mapping => mret mapping
     | None =>
         log Level.info "Creating service mapping from database";;
         services ← getAllServices e;
         let mapping := fold_left add_aliases services ∅ in
         modify (set_serviceMappingCache (Some mapping));;
         log Level.info "Service mapping created successfully";;
         mret mapping
     end)
    (fun err => log Level.error "Error creating service mapping";; mret ∅).

Definition resolveServiceId (e : Env) (serviceIdentifier : string) : M (option IdRef) :=
  try_catch
    (log Level.info "Resolving service identifier";;
     if uuidRegex_test serviceIdentifier then
       log Level.info "Identifier is UUID, validating existence";;
       r ← services_eq_id (services_eq_id_error e) serviceIdentifier;
       match Response.error r with
       | Some _ =>
           log Level.error "Database error during UUID validation";;
           mret None
       | None =>
           match Response.data r with
           | Some _ =>
               log Level.info "UUID service found";;
               mret (Some (IdString serviceIdentifier))
           | None =>
               log Level.error "UUID service not found in database";;
               mret None
           end
       end
     else
       log Level.info "Identifier is string, resolving via mapping";;
       mapping ← createServiceMapping e;
       match Js.get mapping serviceIdentifier with
       | Own resolvedId =>
           if truthy_string resolvedId then
             log Level.info "Service resolved via mapping";;
             mret (Some (IdString resolvedId))
           else
             log Level.error "Service not found in mapping";;
             mret None
       | Inherited k =>
           log Level.info "Service resolved via mapping";;
           mret (Some (IdInherited k))
       | Undefined =>
           log Level.error "Service not found in mapping";;
           mret None
       end)
    (fun err => log Level.error "Error resolving service ID";; mret None).

Definition getServiceById (e : Env) (serviceId : IdRef) : M (option ServiceData.t) :=
  try_catch
    (log Level.info "Fetching service by ID";;
     match serviceId with
     | IdInherited _ =>
         (* the text of a built-in function or object never has the UUID shape *)
         log Level.error "Invalid UUID format";;
         mret None
     | IdString serviceId =>
         if negb (uuidRegex_test serviceId) then
           log Level.error "Invalid UUID format";;
           mret None
         else
           cache ← gets serviceCache;
           match cache !! serviceId with
           | Some service =>
               log Level.info "Service found in cache";;
               mret (Some service)
           | None =>
               r ← services_eq_id (services_star_error e) serviceId;
               match Response.error r with
               | Some msg =>
                   log Level.error "Database error fetching service";;
                   throw (PostgrestError msg)
               | None =>
                   match Response.data r with
                   | None =>
                       log Level.warn "Service not found in database";;
                       mret None
                   | Some service =>
                       log Level.info "Service found in database";;
                       modify (set_serviceCache (fun c => <[serviceId := service]> c));;
                       mret (Some service)
                   end
               end
           end
     end)
    (fun err => log Level.error "Error fetching service by ID";; throw err).

Definition clearCache : M unit :=
  modify (set_serviceCache (fun _ => ∅));;
  modify (set_serviceMappingCache None);;
  log Level.info "Service cache cleared".

End ServiceManager.

(** ** Payment intents (class [PaymentService]) *)

Module PaymentService.

Module User.
Record t : Type := {
  id : string;
  email : string;
  email_confirmed_at : option string
}.
End User.

(** [supabase.auth.getUser()]: [{ data: { user }, error }]. *)
Record AuthResponse : Type := { user : option User.t; userError : option string }.

Module ZohoInvoice.
Record t : Type := {
  invoice_id : string;
  invoice_number : string;
  payment_url : string;
  total : Q;
  status : string
}.
End ZohoInvoice.

(** The JSON body the invoicing function answers with. *)
Inductive ZohoResult : Type :=
  | Success (invoice : ZohoInvoice.t) (contact_id : string)
  | Failure (error : option string).

(** What [fetch] of the invoicing function gives: a network failure, a
    response that is not ok (status and text), or a JSON body. *)
Inductive FetchResult : Type :=
  | FetchThrows (message : string)
  | NotOk (status : string) (text : string)
  | Json (result : ZohoResult).

Module PaymentIntent.
Record t : Type := {
  invoice_id : string;
  invoice_number : string;
  payment_url : string;
  total : Q;
  status : string;
  customer_id : string;
  transaction_id : string
}.
End PaymentIntent.

Record Amounts : Type := { usd : Q; inr : Q; aud : Q }.

(** What the outside answers during one call.  [convertCurrency] is the
    helper of utils/currency, whose text is not part of the sources: it is
    taken as it comes, and it may throw. *)
Record Env : Type := {
  now : Z;
  transactionId : string;
  auth_getUser : AuthResponse;
  services_env : ServiceManager.Env;
  clients_error : option string;
  orders_insert_error : option string;
  orders_update_error : option string;
  audit_insert_fails : bool;
  convertCurrency : Q -> string -> string -> outcome Q;
  fetch_zoho_integration : ZohoRequest.t -> FetchResult
}.

(** The text of a resolved identifier in a template literal.  A member
    that the alias object inherits is a built-in function, printed as
    [function name() { [native code] }] by V8 (Node.js, Chrome), where
    [constructor] is the function [Object]; [__proto__] is the prototype
    object itself, printed as [[object Object]]. *)
Definition text_of (r : ServiceManager.IdRef) : string :=
  match r with
  | ServiceManager.IdString s => s
  | ServiceManager.IdInherited k =>
      if String.eqb k "__proto__" then "[object Object]"
      else "function " ++ (if String.eqb k "constructor" then "Object" else k)
           ++ "() { [native code] }"
  end.

Definition logPaymentAttempt (e : Env) (transactionId : string) (orderId : option nat)
    (action : string) (success : bool) (errorMessage : option string) : M unit :=
  if audit_insert_fails e then mret tt
  else modify (set_purchase_audit_log (fun l => l ++
         [ {| Audit.client_id := User.id <$> user (auth_getUser e);
              Audit.action := action;
              Audit.transaction_id := transactionId;
              Audit.order_id := orderId;
              Audit.success := success;
              Audit.error_message := errorMessage |} ])).

Definition calculateCurrencyAmounts (e : Env) (amount : Q) (currency : string) : M Amounts :=
  let convert (a : Q) (from to : string) : M Q := quiet (convertCurrency e a from to) in
  try_catch
    ('(usd, inr, aud) ←
       (if String.eqb currency "USD" then
          inr ← convert amount "USD" "INR";
          aud ← convert amount "USD" "AUD";
          mret (amount, inr, aud)
        else if String.eqb currency "INR" then
          usd ← convert amount "INR" "USD";
          aud ← convert amount "INR" "AUD";
          mret (usd, amount, aud)
        else if String.eqb currency "AUD" then
          usd ← convert amount "AUD" "USD";
          inr ← convert amount "AUD" "INR";
          mret (usd, inr, amount)
        else mret (amount, amount, amount));
     mret {| usd := toFixed2 usd; inr := toFixed2 inr; aud := toFixed2 aud |})
    (fun err =>
       log Level.error "Currency conversion failed";;
       mret {| usd := amount; inr := amount; aud := amount |}).

(** The amount of the order in its own currency, as the invoice reads it. *)
Definition unitPrice_of (order : Order.t) : Q :=
  if String.eqb (Order.currency order) "USD" then Order.amount_usd order
  else if String.eqb (Order.currency order) "INR" then Order.amount_inr order
  else Order.amount_aud order.

(** The body of the request to the invoicing function: the customer, one
    line item for the service, the currency and the note. *)
Definition requestBody (order : Order.t) (service : ServiceData.t) (client : Client.t)
    (quantity : Z) (transactionId : string) : ZohoRequest.t :=
  let customerData :=
    {| CustomerData.name := Client.name client;
       CustomerData.email := Client.email client;
       CustomerData.phone := default EmptyString (Client.phone client);
       CustomerData.company := default EmptyString (Client.company client) |} in
  let unitPrice := unitPrice_of order in
  let serviceItems :=
    [ {| ServiceItem.serviceId := ServiceData.id service;
         ServiceItem.serviceName := ServiceData.name service;
         ServiceItem.packageType := Order.package_type order;
         ServiceItem.quantity := quantity;
         ServiceItem.unitPrice := div unitPrice (inject_Z quantity);
         ServiceItem.totalPrice := unitPrice |} ] in
  {| ZohoRequest.customerData := customerData;
     ZohoRequest.serviceItems := serviceItems;
     ZohoRequest.currency := Order.currency order;
     ZohoRequest.notes :=
       {| Notes.order_id := Order.id order;
          Notes.transaction_id := transactionId;
          Notes.service := ServiceData.name service;
          Notes.package := Order.package_type order;
          Notes.quantity := quantity |} |}.

(** The payment intent read off the invoice that the function answered. *)
Definition intent_of (invoice : ZohoInvoice.t) (contact_id transactionId : string)
    : PaymentIntent.t :=
  {| PaymentIntent.invoice_id := ZohoInvoice.invoice_id invoice;
     PaymentIntent.invoice_number := ZohoInvoice.invoice_number invoice;
     PaymentIntent.payment_url := ZohoInvoice.payment_url invoice;
     PaymentIntent.total := ZohoInvoice.total invoice;
     PaymentIntent.status := ZohoInvoice.status invoice;
     PaymentIntent.customer_id := contact_id;
     PaymentIntent.transaction_id := transactionId |}.

Definition createZohoInvoice (e : Env) (order : Order.t) (service : ServiceData.t)
    (client : Client.t) (quantity : Z) (transactionId : string) : M PaymentIntent.t :=
  try_catch
    (log Level.info "Creating Zoho invoice";;
     let request := requestBody order service client quantity transactionId in
     log Level.info "Zoho request data prepared";;
     modify (set_zoho_requests (fun l => l ++ [request]));;
     match fetch_zoho_integration e request with
     | FetchThrows msg => throw (Error msg)
     | NotOk status errorText =>
         log Level.error "Zoho integration API error";;
         throw (Error ("Zoho integration failed: " ++ status ++ " - " ++ errorText))
     | Json (Failure err) =>
         log Level.error "Zoho integration returned error";;
         throw (Error (match err with
                       | Some m => if truthy_string m then m else "Zoho integration failed"
                       | None => "Zoho integration failed"
                       end))
     | Json (Success invoice contact_id) =>
         log Level.info "Zoho invoice created successfully";;
         mret (intent_of invoice contact_id transactionId)
     end)
    (fun err => log Level.error "Zoho invoice creation failed";; throw err).

(** The errors of [createPaymentIntent], by the step that throws them. *)
Definition AuthenticationRequired : Exn :=
  Error "Authentication required. Please log in to continue.".
Definition EmailNotVerified : Exn :=
  Error "Email verification required. Please verify your email before making purchases.".
Definition ServiceNotFound (serviceIdentifier : string) : Exn :=
  Error ("Service not found: " ++ serviceIdentifier
         ++ ". Please check the service ID and try again.").
Definition ServiceDataNotFound (serviceId : string) : Exn :=
  Error ("Service data not found for ID: " ++ serviceId).
Definition InvalidPackage (packageType serviceName : string) : Exn :=
  Error ("Package type " ++ dquote ++ packageType ++ dquote
         ++ " not available for " ++ serviceName).
Definition ProfileLoadFailed : Exn :=
  Error "Failed to load client profile. Please try again.".
Definition ProfileNotFound : Exn :=
  Error "Client profile not found. Please complete your profile setup.".
Definition OrderCreationFailed (message : string) : Exn :=
  if includes message "does not exist"
  then Error "Database schema error: Missing required columns. Please contact support."
  else if includes message "RI_ConstraintTrigger"
  then Error "Database constraint error. Please try again or contact support."
  else Error ("Failed to create order: " ++ message).

(** [!service.pricing || !service.pricing[packageType]] *)
Definition package_unavailable (service : ServiceData.t) (packageType : string) : bool :=
  match ServiceData.pricing service with
  | None => true
  | Some pricing =>
      match Js.get pricing packageType with
      | Own price => negb (truthy_number price)
      | Inherited _ => false
      | Undefined => true
      end
  end.

(** The row [orderData] handed to the insert; the table adds the key. *)
Definition orderData (user : User.t) (serviceId : ServiceManager.IdRef)
    (packageType : string) (amounts : Amounts) (currency : string) (id : nat) : Order.t :=
  {| Order.id := id;
     Order.client_id := User.id user;
     Order.service_id := text_of serviceId;
     Order.package_type := packageType;
     Order.amount_usd := usd amounts;
     Order.amount_inr := inr amounts;
     Order.amount_aud := aud amounts;
     Order.currency := currency;
     Order.status := pending;
     Order.payment_gateway := "zoho";
     Order.zoho_invoice_id := None;
     Order.zoho_customer_id := None;
     Order.updated_at := None |}.

Definition createPaymentIntent (e : Env) (serviceIdentifier packageType : string)
    (totalPrice : Q) (currency : string) (quantity : Z) : M PaymentIntent.t :=
  let transactionId := transactionId e in
  try_catch
    (log Level.info "Creating payment intent";;
     (* Step 1: Validate user authentication *)
     user ← match userError (auth_getUser e), user (auth_getUser e) with
            | None, Some user => mret user
            | _, _ =>
                log Level.error "User authentication failed";;
                throw AuthenticationRequired
            end;
     (if User.email_confirmed_at user is Some ts then
        if truthy_string ts then mret tt
        else log Level.error "User email not verified";; throw EmailNotVerified
      else log Level.error "User email not verified";; throw EmailNotVerified);;
     log Level.info "User authenticated successfully";;
     (* Step 2: Resolve service ID *)
     resolved ← ServiceManager.resolveServiceId (services_env e) serviceIdentifier;
     serviceId ← match resolved with
                 | Some serviceId => mret serviceId
                 | None =>
                     log Level.error "Service resolution failed";;
                     throw (ServiceNotFound serviceIdentifier)
                 end;
     log Level.info "Service resolved successfully";;
     (* Step 3: Get and validate service details *)
     found ← ServiceManager.getServiceById (services_env e) serviceId;
     service ← match found with
               | Some service => mret service
               | None =>
                   log Level.error "Service data not found";;
                   throw (ServiceDataNotFound (text_of serviceId))
               end;
     (if package_unavailable service packageType then
        log Level.error "Invalid package type for service";;
        throw (InvalidPackage packageType (ServiceData.name service))
      else mret tt);;
     log Level.info "Service data validated";;
     (* Step 4: Get and validate client profile *)
     profile ← clients_eq_id (clients_error e) (User.id user);
     clientProfile ← match Response.error profile, Response.data profile with
                     | Some _, _ =>
                         log Level.error "Client profile fetch failed";;
                         throw ProfileLoadFailed
                     | None, None =>
                         log Level.error "Client profile not found";;
                         throw ProfileNotFound
                     | None, Some clientProfile => mret clientProfile
                     end;
     log Level.info "Client profile loaded";;
     (* Step 5: Calculate amounts for different currencies *)
     amounts ← calculateCurrencyAmounts e totalPrice currency;
     log Level.info "Currency amounts calculated";;
     (* Step 6: Create order in database *)
     log Level.info "Creating order in database";;
     inserted ← orders_insert (orders_insert_error e)
                  (orderData user serviceId packageType amounts currency);
     order ← match Response.error inserted, Response.data inserted with
             | Some message, _ =>
                 log Level.error "Order creation failed";;
                 throw (OrderCreationFailed message)
             | None, Some order => mret order
             | None, None => throw (Error "Cannot read properties of null (reading 'id')")
             end;
     log Level.info "Order created successfully";;
     (* Step 7: Create Zoho customer and invoice *)
     zohoResult ← createZohoInvoice e order service clientProfile quantity transactionId;
     log Level.info "Zoho invoice created successfully";;
     (* Step 8: Update order with Zoho details *)
     updated ← orders_update (orders_update_error e)
                 (fun o => Nat.eqb (Order.id o) (Order.id order))
                 (Order.set_zoho (PaymentIntent.invoice_id zohoResult)
                                 (PaymentIntent.customer_id zohoResult) (now e));
     (if fst updated is Some _ then log Level.error "Order update failed" else mret tt);;
     (* Step 9: Log successful payment intent creation *)
     logPaymentAttempt e transactionId (Some (Order.id order)) "payment_intent_created"
       true None;;
     log Level.info "Payment intent created successfully";;
     mret zohoResult)
    (fun err =>
       logPaymentAttempt e transactionId None "payment_intent_failed" false
         (Some (message_of err));;
       log Level.error "Payment intent creation failed";;
       throw err).

End PaymentService.

(** ** The invoicing client: customers (zohoIntegration.js) *)

Module ZohoIntegration.

Module Contact.
Record t : Type := {
  contact_id : string;
  contact_name : string;
  email : string;
  company_name : string
}.
End Contact.

Module CustomerPayload.
Record t : Type := {
  contact_name : string;
  company_name : string;
  email : string;
  phone : string
}.
End CustomerPayload.

(** The error an HTTP call rejects with: [error.response] (status and
    [data.message]) when the provider answered, and [error.message]. *)
Record AxiosError : Type := {
  response : option (Z * option string);
  message : string
}.

Inductive AxiosResult (A : Type) : Type :=
  | Resolved (data : A)
  | Rejected (err : AxiosError).
Arguments Resolved {A} data.
Arguments Rejected {A} err.

(** The provider, as the two calls see it: [POST /contacts] answers with
    the created contact, [GET /contacts?email=] with [data.contacts]. *)
Record Provider : Type := {
  post_contacts : string -> CustomerPayload.t -> AxiosResult Contact.t;
  get_contacts : string -> string -> AxiosResult (option (list Contact.t))
}.

Definition findZohoCustomer (zoho : Provider) (accessToken email : string) : M Contact.t :=
  try_catch
    (log Level.info "Searching for existing Zoho customer";;
     match get_contacts zoho accessToken email with
     | Resolved (Some (customer :: _)) =>
         log Level.info "Found existing Zoho customer";;
         mret {| Contact.contact_id := Contact.contact_id customer;
                 Contact.contact_name := Contact.contact_name customer;
                 Contact.email := Contact.email customer;
                 Contact.company_name := Contact.company_name customer |}
     | Resolved _ => throw (Error "Customer not found")
     | Rejected err => throw (Error (message err))
     end)
    (fun err =>
       log Level.error "Failed to find Zoho customer";;
       throw (Error ("Customer lookup failed: " ++ message_of err))).

(** [error.response?.status === 400 &&
     error.response?.data?.message?.includes('already exists')] *)
Definition already_exists (err : AxiosError) : bool :=
  match response err with
  | Some (status, Some msg) => Z.eqb status 400 && includes msg "already exists"
  | _ => false
  end.

Definition createZohoCustomer (zoho : Provider) (accessToken : string)
    (customerData : CustomerData.t) : M Contact.t :=
  log Level.info "Creating Zoho customer";;
  let customerPayload :=
    {| CustomerPayload.contact_name := CustomerData.name customerData;
       CustomerPayload.company_name := CustomerData.company customerData;
       CustomerPayload.email := CustomerData.email customerData;
       CustomerPayload.phone := CustomerData.phone customerData |} in
  log Level.info "Customer payload prepared";;
  match post_contacts zoho accessToken customerPayload with
  | Resolved customer =>
      log Level.info "Zoho customer created successfully";;
      mret {| Contact.contact_id := Contact.contact_id customer;
              Contact.contact_name := Contact.contact_name customer;
              Contact.email := Contact.email customer;
              Contact.company_name := Contact.company_name customer |}
  | Rejected err =>
      log Level.error "Failed to create Zoho customer";;
      if already_exists err then
        log Level.info "Customer already exists, searching for existing customer...";;
        findZohoCustomer zoho accessToken (CustomerData.email customerData)
      else
        throw (Error ("Customer creation failed: " ++
                      match response err with
                      | Some (_, Some msg) => if truthy_string msg then msg else message err
                      | _ => message err
                      end))
  end.

(** A provider that keeps a directory of contacts and follows the contract
    the client relies on: creating a contact whose email is on file is
    refused with status 400 and a message that it already exists, a lookup
    lists the contacts on file under the email, oldest first. *)
Definition directory (contacts : list Contact.t) (new_id : string) : Provider :=
  {| post_contacts := fun _ payload =>
       if existsb (fun c => String.eqb (Contact.email c) (CustomerPayload.email payload)) contacts
       then Rejected {| response := Some (400%Z, Some "The customer already exists.");
                        message := "Request failed with status code 400" |}
       else Resolved {| Contact.contact_id := new_id;
                        Contact.contact_name := CustomerPayload.contact_name payload;
                        Contact.email := CustomerPayload.email payload;
                        Contact.company_name := CustomerPayload.company_name payload |};
     get_contacts := fun _ email =>
       Resolved (Some (filter (fun c => String.eqb (Contact.email c) email) contacts)) |}.

End ZohoIntegration.

(** ** The webhook receiver (zohoWebhook.js) *)

Module ZohoWebhook.

(** [webhookData.data]: the invoice the event is about. *)
Module Data.
Record t : Type := {
  invoice_id : string;
  invoice_number : option string;
  total : option Q;
  status : option string;
  payment_date : option string
}.
End Data.

Record WebhookData : Type := {
  event_type : option string;
  data : option Data.t
}.

(** [JSON.parse(event.body || '{}')]: text that does not parse to an
    object, or the object it parses to. *)
Inductive Body : Type :=
  | Malformed (message : string)
  | Parsed (webhookData : WebhookData).

Record Event : Type := { httpMethod : string; body : Body }.

(** What the mail function answers to the request. *)
Inductive EmailOutcome : Type :=
  | EmailOk
  | EmailNotOk (status : string)
  | EmailThrows (message : string).

Record Env : Type := {
  now : Z;
  orders_update_error : option string;
  invoices_insert_error : option string;
  notifications_insert_error : option string;
  sendEmail : EmailData.t -> EmailOutcome
}.

Module HttpResponse.
Record t : Type := {
  statusCode : Z;
  success : option bool;
  eventType : option string;
  error : option string
}.
End HttpResponse.

Definition sendNotificationEmail (e : Env) (emailData : EmailData.t) : M unit :=
  try_catch
    (match sendEmail e emailData with
     | EmailThrows msg => throw (Error msg)
     | EmailNotOk status => throw (Error ("Email service responded with " ++ status))
     | EmailOk =>
         modify (set_emails (fun l => l ++ [emailData]));;
         log Level.info "Notification email sent successfully"
     end)
    (fun err => log Level.error "Failed to send notification email").

(** [from('invoices').insert([row])] and [from('notifications').insert([row])]:
    the error, if any. *)
Definition invoices_insert (fault : option string) (row : Invoice.t) : M (option string) :=
  match fault with
  | Some msg => mret (Some msg)
  | None => modify (set_invoices (fun l => l ++ [row]));; mret None
  end.

Definition notifications_insert (fault : option string) (row : Notification.t)
    : M (option string) :=
  match fault with
  | Some msg => mret (Some msg)
  | None => modify (set_notifications (fun l => l ++ [row]));; mret None
  end.

(** [.eq('zoho_invoice_id', invoice_id)] *)
Definition has_invoice (invoice_id : string) (o : Order.t) : bool :=
  match Order.zoho_invoice_id o with
  | Some i => String.eqb i invoice_id
  | None => false
  end.

(** The rows of [clients] and [services] embedded in a selected order. *)
Definition clients_of (w : World) (o : Order.t) : option Client.t :=
  find (fun c => uuid_eqb (Client.id c) (Order.client_id o)) (clients w).

Definition services_of (w : World) (o : Order.t) : option ServiceData.t :=
  find (fun s => uuid_eqb (ServiceData.id s) (Order.service_id o)) (services w).

Definition handlePaymentReceived (e : Env) (webhookData : Data.t) : M unit :=
  let invoice_id := Data.invoice_id webhookData in
  let invoice_number := Data.invoice_number webhookData in
  let total := Data.total webhookData in
  try_catch
    (log Level.info "Processing payment received webhook";;
     r ← orders_update_single (orders_update_error e) (has_invoice invoice_id)
           (Order.set_status paid (now e));
     match Response.error r with
     | Some orderError =>
         log Level.error "Failed to update order status";;
         throw (PostgrestError orderError)
     | None =>
         match Response.data r with
         | None =>
             log Level.warning "No order found for invoice";;
             mret tt
         | Some order =>
             log Level.info "Order status updated to paid";;
             order_clients ← gets (fun w => clients_of w order);
             order_services ← gets (fun w => services_of w order);
             invoiceError ← invoices_insert (invoices_insert_error e)
               {| Invoice.order_id := Order.id order;
                  Invoice.client_id := Order.client_id order;
                  Invoice.invoice_number := invoice_number;
                  Invoice.amount_usd := Order.amount_usd order;
                  Invoice.amount_inr := Order.amount_inr order;
                  Invoice.amount_aud := Order.amount_aud order;
                  Invoice.currency := Order.currency order;
                  Invoice.total_amount := total;
                  Invoice.status := paid;
                  Invoice.due_date := now e |};
             (if invoiceError is Some _
              then log Level.error "Failed to create invoice record"
              else log Level.info "Invoice record created successfully");;
             notificationError ← notifications_insert (notifications_insert_error e)
               {| Notification.client_id := Order.client_id order;
                  Notification.title := "Payment Confirmed";
                  Notification.message :=
                    "Payment received for " ++
                    default "undefined" (ServiceData.name <$> order_services) ++
                    ". Your service will begin shortly.";
                  Notification.type := "success";
                  Notification.read := false |};
             (if notificationError is Some _
              then log Level.error "Failed to create notification"
              else mret tt);;
             (match order_clients with
              | Some client =>
                  sendNotificationEmail e
                    {| EmailData.clientName := Client.name client;
                       EmailData.clientEmail := Client.email client;
                       EmailData.serviceName :=
                         match order_services with
                         | Some s => if truthy_string (ServiceData.name s)
                                     then ServiceData.name s else "Service"
                         | None => "Service"
                         end;
                       EmailData.packageType := Order.package_type order;
                       EmailData.orderId := Order.id order;
                       EmailData.amount := total |}
              | None => mret tt
              end);;
             log Level.info "Payment webhook processed successfully"
         end
     end)
    (fun err => log Level.error "Error processing payment webhook";; throw err).

(** The [switch] that maps the provider's status to the order's. *)
Definition orderStatus_of (status : option string) : OrderStatus :=
  match status with
  | Some status =>
      if String.eqb status "paid" then paid
      else if String.eqb status "overdue" then pending
      else if String.eqb status "cancelled" then cancelled
      else if String.eqb status "sent" then pending
      else pending
  | None => pending
  end.

Definition handleInvoiceStatusChange (e : Env) (webhookData : Data.t) : M unit :=
  let invoice_id := Data.invoice_id webhookData in
  let status := Data.status webhookData in
  try_catch
    (log Level.info "Processing invoice status change";;
     let orderStatus := orderStatus_of status in
     r ← orders_update (orders_update_error e) (has_invoice invoice_id)
           (Order.set_status orderStatus (now e));
     match fst r with
     | Some msg =>
         log Level.error "Failed to update order status";;
         throw (PostgrestError msg)
     | None => log Level.info "Order status updated successfully"
     end)
    (fun err => log Level.error "Error processing status change webhook";; throw err).

Definition handler (e : Env) (event : Event) : M HttpResponse.t :=
  log Level.info "Zoho webhook received";;
  if String.eqb (httpMethod event) "OPTIONS" then
    mret {| HttpResponse.statusCode := 200; HttpResponse.success := None;
            HttpResponse.eventType := None; HttpResponse.error := None |}
  else if negb (String.eqb (httpMethod event) "POST") then
    mret {| HttpResponse.statusCode := 405; HttpResponse.success := None;
            HttpResponse.eventType := None;
            HttpResponse.error := Some "Method not allowed" |}
  else
    try_catch
      (webhookData ← match body event with
                     | Malformed msg => throw (Error msg)
                     | Parsed webhookData => mret webhookData
                     end;
       log Level.info "Webhook data parsed";;
       '(eventType, payload) ←
          match event_type webhookData, data webhookData with
          | Some eventType, Some payload =>
              if truthy_string eventType then mret (eventType, payload)
              else throw (Error "Invalid webhook data structure")
          | _, _ => throw (Error "Invalid webhook data structure")
          end;
       (if String.eqb eventType "invoice_payment_received" then
          handlePaymentReceived e payload
        else if String.eqb eventType "invoice_status_changed" then
          handleInvoiceStatusChange e payload
        else if String.eqb eventType "invoice_created" then
          log Level.info "Invoice created webhook received"
        else log Level.warning "Unhandled webhook event");;
       mret {| HttpResponse.statusCode := 200; HttpResponse.success := Some true;
               HttpResponse.eventType := Some eventType;
               HttpResponse.error := None |})
      (fun err =>
         log Level.error "Webhook processing error";;
         mret {| HttpResponse.statusCode := 500; HttpResponse.success := Some false;
                 HttpResponse.eventType := None;
                 HttpResponse.error := Some (message_of err) |}).

End ZohoWebhook.

(** ** A small deployment, for concrete runs *)

Module Sample.

Definition ssl_id : string := "3f2b8c1e-5a4d-4c6b-9e7f-0a1b2c3d4e5f".
Definition client_id : string := "9a8b7c6d-1e2f-4a3b-8c4d-5e6f7a8b9c0d".

Definition ssl : ServiceData.t :=
  {| ServiceData.id := ssl_id;
     ServiceData.name := "SSL & HTTPS Setup";
     ServiceData.description := "Professional SSL certificate installation";
     ServiceData.category := "security";
     ServiceData.pricing :=
       Some (<["basic" := 7%Q]> (<["standard" := 10%Q]> (<["enterprise" := 25%Q]> ∅)));
     ServiceData.features := Some (<["basic" := ["Free SSL certificate"]]> ∅) |}.

Definition email_migration : ServiceData.t :=
  {| ServiceData.id := "7d9e0f1a-2b3c-4d5e-8f60-718293a4b5c6";
     ServiceData.name := "Email Migration & Setup";
     ServiceData.description := "Seamless email migration between platforms";
     ServiceData.category := "email";
     ServiceData.pricing := Some (<["basic" := 4%Q]> ∅);
     ServiceData.features := Some (<["basic" := ["Complete mailbox migration"]]> ∅) |}.

Definition alice : Client.t :=
  {| Client.id := client_id;
     Client.name := "Alice";
     Client.email := "alice@example.com";
     Client.phone := None;
     Client.company := None |}.

Definition store : World :=
  {| services := [ssl; email_migration];
     clients := [alice];
     orders := [];
     invoices := [];
     notifications := [];
     purchase_audit_log := [];
     serviceCache := ∅;
     serviceMappingCache := None;
     emails := [];
     zoho_requests := [] |}.

(** An order of the sample client, linked to invoice [INV-1]. *)
Definition order (st : OrderStatus) : Order.t :=
  {| Order.id := 1;
     Order.client_id := client_id;
     Order.service_id := ssl_id;
     Order.package_type := "standard";
     Order.amount_usd := 10;
     Order.amount_inr := 830;
     Order.amount_aud := 15;
     Order.currency := "USD";
     Order.status := st;
     Order.payment_gateway := "zoho";
     Order.zoho_invoice_id := Some "INV-1";
     Order.zoho_customer_id := Some "CUST-1";
     Order.updated_at := None |}.

Definition store_with (st : OrderStatus) : World :=
  set_orders (fun _ => [order st]) store.

Definition services_ok : ServiceManager.Env :=
  {| ServiceManager.services_eq_id_error := None;
     ServiceManager.services_star_error := None;
     ServiceManager.services_ordered_error := None;
     ServiceManager.services_fallback_error := None |}.

Definition alice_user : PaymentService.User.t :=
  {| PaymentService.User.id := client_id;
     PaymentService.User.email := "alice@example.com";
     PaymentService.User.email_confirmed_at := Some "2025-01-01T00:00:00Z" |}.

Definition zoho_invoice (total : Q) : PaymentService.ZohoInvoice.t :=
  {| PaymentService.ZohoInvoice.invoice_id := "INV-1";
     PaymentService.ZohoInvoice.invoice_number := "INV-1700000000000";
     PaymentService.ZohoInvoice.payment_url := "https://invoice.zoho.in/invoices/INV-1/payment";
     PaymentService.ZohoInvoice.total := total;
     PaymentService.ZohoInvoice.status := "sent" |}.

(** Rates of a working rate source, two decimals kept. *)
Definition rates (a : Q) (from to : string) : outcome Q :=
  Ret (if String.eqb to "INR" then a * 83 else if String.eqb to "AUD" then a * (3 # 2) else a)%Q.


(** An environment in which every collaborator answers. *)
Definition env : PaymentService.Env :=
  {| PaymentService.now := 1700000000;
     PaymentService.transactionId := "txn_1700000000_abc123def";
     PaymentService.auth_getUser :=
       {| PaymentService.user := Some alice_user; PaymentService.userError := None |};
     PaymentService.services_env := services_ok;
     PaymentService.clients_error := None;
     PaymentService.orders_insert_error := None;
     PaymentService.orders_update_error := None;
     PaymentService.audit_insert_fails := false;
     PaymentService.convertCurrency := rates;
     PaymentService.fetch_zoho_integration := fun request =>
       PaymentService.Json
         (PaymentService.Success
            (zoho_invoice (fold_right Qplus 0%Q
               (map ServiceItem.totalPrice (ZohoRequest.serviceItems request))))
            "CUST-1") |}.

(** The same, but the update that links the invoice to the order fails. *)
Definition env_link_fails : PaymentService.Env :=
  {| PaymentService.now := PaymentService.now env;
     PaymentService.transactionId := PaymentService.transactionId env;
     PaymentService.auth_getUser := PaymentService.auth_getUser env;
     PaymentService.services_env := PaymentService.services_env env;
     PaymentService.clients_error := None;
     PaymentService.orders_insert_error := None;
     PaymentService.orders_update_error := Some "connection lost";
     PaymentService.audit_insert_fails := false;
     PaymentService.convertCurrency := PaymentService.convertCurrency env;
     PaymentService.fetch_zoho_integration := PaymentService.fetch_zoho_integration env |}.

Definition hook_env : ZohoWebhook.Env :=
  {| ZohoWebhook.now := 1700000100;
     ZohoWebhook.orders_update_error := None;
     ZohoWebhook.invoices_insert_error := None;
     ZohoWebhook.notifications_insert_error := None;
     ZohoWebhook.sendEmail := fun _ => ZohoWebhook.EmailOk |}.

Definition payment_data : ZohoWebhook.Data.t :=
  {| ZohoWebhook.Data.invoice_id := "INV-1";
     ZohoWebhook.Data.invoice_number := Some "INV-1700000000000";
     ZohoWebhook.Data.total := Some 10%Q;
     ZohoWebhook.Data.status := None;
     ZohoWebhook.Data.payment_date := Some "2025-01-02" |}.

Definition payment_received : ZohoWebhook.Event :=
  {| ZohoWebhook.httpMethod := "POST";
     ZohoWebhook.body := ZohoWebhook.Parsed
       {| ZohoWebhook.event_type := Some "invoice_payment_received";
          ZohoWebhook.data := Some payment_data |} |}.

(** The datastore refuses the update of the order. *)
Definition hook_env_update_fails : ZohoWebhook.Env :=
  {| ZohoWebhook.now := 1700000100;
     ZohoWebhook.orders_update_error := Some "connection lost";
     ZohoWebhook.invoices_insert_error := None;
     ZohoWebhook.notifications_insert_error := None;
     ZohoWebhook.sendEmail := fun _ => ZohoWebhook.EmailOk |}.

Definition status_changed (status : string) : ZohoWebhook.Event :=
  {| ZohoWebhook.httpMethod := "POST";
     ZohoWebhook.body := ZohoWebhook.Parsed
       {| ZohoWebhook.event_type := Some "invoice_status_changed";
          ZohoWebhook.data := Some
            {| ZohoWebhook.Data.invoice_id := "INV-1";
               ZohoWebhook.Data.invoice_number := None;
               ZohoWebhook.Data.total := None;
               ZohoWebhook.Data.status := Some status;
               ZohoWebhook.Data.payment_date := None |} |} |}.

End Sample.

(** ** What a run establishes *)

(** [post m w Q]: the run of [m] from [w] ends in an outcome and a world
    that satisfy [Q]. *)
Definition post {A : Type} (m : M A) (w : World) (Q : outcome A -> World -> Prop) : Prop :=
  Q (result (m w)) (world (m w)).

(** [unchanged w w']: a run from [w] to [w'] has left the world as it was. *)
Definition unchanged (w w' : World) : Prop := w' = w.

(** [keeps f w w']: the part [f] of the world is in [w'] as it was in [w]. *)
Definition keeps {A : Type} (f : World -> A) (w w' : World) : Prop := f w' = f w.

(** The world is as before, the audit log apart. *)
Definition audit_only (w w' : World) : Prop :=
  services w' = services w /\ clients w' = clients w /\ orders w' = orders w
  /\ invoices w' = invoices w /\ notifications w' = notifications w
  /\ serviceCache w' = serviceCache w /\ serviceMappingCache w' = serviceMappingCache w
  /\ emails w' = emails w /\ zoho_requests w' = zoho_requests w.

(** What the steps of a purchase keep of the world, after any outcome. *)
Definition purchase_frame (w w' : World) : Prop :=
  orders w' = orders w /\ zoho_requests w' = zoho_requests w
  /\ purchase_audit_log w' = purchase_audit_log w
  /\ services w' = services w /\ clients w' = clients w.

(** The aliases that [createServiceMapping] writes. *)
Definition aliases : list string :=
  [ "email-migration"; "email_migration"; "email-setup";
    "email-deliverability"; "email_security"; "domain-email-security";
    "ssl-setup"; "ssl_setup"; "https-setup";
    "cloud-management"; "cloud_management"; "cloud-suite";
    "data-migration"; "data_migration"; "cloud-data-migration";
    "hosting-support"; "hosting_support"; "control-panel-support";
    "acronis-setup"; "acronis_setup"; "acronis-backup";
    "per-incident-support"; "per_incident_support"; "incident-support" ].

(** ** Computations over a local array

    The health checks declare an array [issues], push to it inside [try]
    blocks and read it after them.  A computation of [L] runs from the
    array and the world; what was pushed before a throw is still in the
    array that the [catch] block and the code after it see. *)

Module LocalArray.

Definition L (A : Type) : Type := list string -> World -> Run A * list string.

Definition ret {A : Type} (a : A) : L A := fun issues w => (quiet (Ret a) w, issues).

Definition bind {A B : Type} (m : L A) (k : A -> L B) : L B :=
  fun issues w =>
    let '(r, issues1) := m issues w in
    match result r with
    | Ret a =>
        let '(r2, issues2) := k a issues1 (world r) in (says (console r) r2, issues2)
    | Throw e => ({| result := Throw e; world := world r; console := console r |}, issues1)
    end.

(** A statement that does not touch the array. *)
Definition lift {A : Type} (m : M A) : L A := fun issues w => (m w, issues).

(** [issues.push(issue)] *)
Definition push (issue : string) : L unit :=
  fun issues w => (quiet (Ret tt) w, issues ++ [issue]).

(** The array, as it stands. *)
Definition read : L (list string) := fun issues w => (quiet (Ret issues) w, issues).

(** [try { m } catch (e) { h e }] *)
Definition try_catch {A : Type} (m : L A) (h : Exn -> L A) : L A :=
  fun issues w =>
    let '(r, issues1) := m issues w in
    match result r with
    | Ret _ => (r, issues1)
    | Throw e =>
        let '(r2, issues2) := h e issues1 (world r) in (says (console r) r2, issues2)
    end.

(** [const issues = []; m]: the block, run from the empty array. *)
Definition declare {A : Type} (m : L A) : M A := fun w => fst (m [] w).

(** What a run from the array [issues] and the world [w] establishes. *)
Definition post {A : Type} (m : L A) (issues : list string) (w : World)
    (Q : outcome A -> World -> list string -> Prop) : Prop :=
  Q (result (fst (m issues w))) (world (fst (m issues w))) (snd (m issues w)).

End LocalArray.

(** ** The health check of the payment service
    ([PaymentService.performHealthCheck]) *)

Module PaymentHealth.

#[local] Instance L_ret : MRet LocalArray.L := @LocalArray.ret.
#[local] Instance L_bind : MBind LocalArray.L := fun A B k m => LocalArray.bind m k.

(** What [fetch] of the invoicing function gives to the GET of the check: a
    network failure, or a response that is ok or not. *)
Inductive HealthFetch : Type :=
  | FetchThrows (message : string)
  | Responded (ok : bool).

Record Env : Type := {
  services_env : ServiceManager.Env;
  orders_count_error : option string;
  fetch_zoho_integration : HealthFetch
}.

Record Report : Type := { healthy : bool; issues : list string }.

(** The identifier the check resolves: its last group has eleven digits. *)
Definition testServiceId : string := "8c7e77a2-f782-4bec-bad5-e94cdba035d".

(** The count query on [orders], limited to one row: the error, if any. *)
Definition orders_count (fault : option string) : M (option string) := mret fault.

(** Truthiness of what [resolveServiceId] returns. *)
Definition truthy_id (resolvedId : option ServiceManager.IdRef) : bool :=
  match resolvedId with
  | Some (ServiceManager.IdString s) => truthy_string s
  | Some (ServiceManager.IdInherited _) => true
  | None => false
  end.

Definition performHealthCheck (e : Env) : M Report :=
  LocalArray.declare
    (LocalArray.try_catch
       (resolvedId ← LocalArray.lift
          (ServiceManager.resolveServiceId (services_env e) testServiceId);
        (if truthy_id resolvedId then mret tt
         else LocalArray.push "Service resolution system not working");;
        dbError ← LocalArray.lift (orders_count (orders_count_error e));
        (match dbError with
         | Some message => LocalArray.push ("Database connectivity issue: " ++ message)
         | None => mret tt
         end);;
        LocalArray.try_catch
          (match fetch_zoho_integration e with
           | FetchThrows message => LocalArray.lift (throw (Error message))
           | Responded ok =>
               if ok then mret tt else LocalArray.push "Zoho integration not accessible"
           end)
          (fun error => LocalArray.push ("Zoho integration error: " ++ message_of error));;
        LocalArray.lift (log Level.info "Payment system health check completed"))
       (fun error =>
          LocalArray.push ("Health check failed: " ++ message_of error);;
          LocalArray.lift (log Level.error "Payment system health check failed"));;
     issues ← LocalArray.read;
     mret {| healthy := match issues with [] => true | _ => false end;
             issues := issues |}).

End PaymentHealth.

(** ** The health check of the service manager
    ([ServiceManager.performHealthCheck]) *)

Module ServiceHealth.

#[local] Instance L_ret : MRet LocalArray.L := @LocalArray.ret.
#[local] Instance L_bind : MBind LocalArray.L := fun A B k m => LocalArray.bind m k.

Record Env : Type := {
  services_env : ServiceManager.Env;
  services_count_error : option string
}.

(** The count query on [services], limited to one row: the error, if any. *)
Definition services_count (fault : option string) : M (option string) := mret fault.

Definition performHealthCheck (e : Env) : M PaymentHealth.Report :=
  LocalArray.declare
    (LocalArray.try_catch
       (dbError ← LocalArray.lift (services_count (services_count_error e));
        (match dbError with
         | Some message => LocalArray.push ("Database connectivity issue: " ++ message)
         | None => mret tt
         end);;
        services ← LocalArray.lift (ServiceManager.getAllServices (services_env e));
        (match services with
         | [] => LocalArray.push "No services found in database"
         | _ => mret tt
         end);;
        mapping ← LocalArray.lift (ServiceManager.createServiceMapping (services_env e));
        (if bool_decide (mapping = ∅) then LocalArray.push "Service mapping creation failed"
         else mret tt);;
        LocalArray.lift (log Level.info "Service health check completed"))
       (fun error =>
          LocalArray.push ("Health check failed: " ++ message_of error);;
          LocalArray.lift (log Level.error "Service health check failed"));;
     issues ← LocalArray.read;
     mret {| PaymentHealth.healthy := match issues with [] => true | _ => false end;
             PaymentHealth.issues := issues |}).

End ServiceHealth.

(** ** Synchronising an order with its invoice
    ([PaymentService.syncOrderStatus]) *)

Module OrderSync.

(** What [fetch] of the invoice gives: a network failure, a response that is
    not ok, a JSON body with its [status], or a body whose reading throws
    (no JSON, or [null]). *)
Inductive InvoiceFetch : Type :=
  | FetchThrows (message : string)
  | NotOk
  | OkJson (status : option string)
  | OkThrows (message : string).

Record Env : Type := {
  now : Z;
  orders_select_error : option string;
  fetch_invoice : string -> InvoiceFetch;
  orders_update_error : option string
}.

(** [from('orders').select('zoho_invoice_id').eq('id', orderId).single()] *)
Definition orders_eq_id (fault : option string) (orderId : nat) : M (Response.t Order.t) :=
  fun w =>
    match fault with
    | Some msg => quiet (Ret {| Response.data := None; Response.error := Some msg |}) w
    | None =>
        quiet (Ret (single (filter (fun o => Nat.eqb (Order.id o) orderId) (orders w)))) w
    end.

(** [invoiceData.status === 'paid' ? 'paid' : 'pending'] *)
Definition newStatus_of (status : option string) : OrderStatus :=
  match status with
  | Some s => if String.eqb s "paid" then paid else pending
  | None => pending
  end.

Definition syncOrderStatus (e : Env) (orderId : nat) : M unit :=
  try_catch
    (log Level.info "Syncing order status with Zoho";;
     r ← orders_eq_id (orders_select_error e) orderId;
     match Response.data r with
     | Some order =>
         match Order.zoho_invoice_id order with
         | Some zoho_invoice_id =>
             if truthy_string zoho_invoice_id then
               match fetch_invoice e zoho_invoice_id with
               | FetchThrows message => throw (Error message)
               | NotOk => mret tt
               | OkThrows message => throw (Error message)
               | OkJson status =>
                   let newStatus := newStatus_of status in
                   orders_update (orders_update_error e)
                     (fun o => Nat.eqb (Order.id o) orderId)
                     (Order.set_status newStatus (now e));;
                   log Level.info "Order status synced successfully"
               end
             else mret tt
         | None => mret tt
         end
     | None => mret tt
     end)
    (fun error => log Level.error "Error syncing order status").

End OrderSync.

(** ** The invoicing function (zohoIntegration.js): configuration, token,
    invoices and the handler *)

Module ZohoFunction.

(** [ZOHO_CONFIG]: the four settings read from the process environment. *)
Record Config : Type := {
  clientId : option string;
  clientSecret : option string;
  refreshToken : option string;
  organizationId : option string
}.

(** Truthiness of a setting or of a field of a parsed body. *)
Definition present (v : option string) : bool :=
  match v with Some s => truthy_string s | None => false end.

Definition validateZohoConfig (ZOHO_CONFIG : Config) : M unit :=
  let missing :=
    (if present (clientId ZOHO_CONFIG) then [] else ["ZOHO_CLIENT_ID"]) ++
    (if present (clientSecret ZOHO_CONFIG) then [] else ["ZOHO_CLIENT_SECRET"]) ++
    (if present (refreshToken ZOHO_CONFIG) then [] else ["ZOHO_REFRESH_TOKEN"]) ++
    (if present (organizationId ZOHO_CONFIG) then [] else ["ZOHO_ORGANIZATION_ID"]) in
  match missing with
  | [] => log Level.info "Zoho configuration validated"
  | _ => throw (Error ("Missing Zoho configuration: " ++ String.concat ", " missing))
  end.

(** The names of the settings that are not set, in the order of the checks. *)
Definition missing_settings (ZOHO_CONFIG : Config) : list string :=
  map fst
    (List.filter (fun setting => negb (present (snd setting)))
       [ ("ZOHO_CLIENT_ID", clientId ZOHO_CONFIG);
         ("ZOHO_CLIENT_SECRET", clientSecret ZOHO_CONFIG);
         ("ZOHO_REFRESH_TOKEN", refreshToken ZOHO_CONFIG);
         ("ZOHO_ORGANIZATION_ID", organizationId ZOHO_CONFIG) ]).

(** The error a call to the provider rejects with, as the [catch] blocks
    read it: [error.response?.status], [error.response?.data?.code] and
    [error.message]. *)
Record HttpError : Type := {
  status : option Z;
  code : option Z;
  message : string
}.

Inductive ApiResult (A : Type) : Type :=
  | Answered (data : A)
  | Failed (err : HttpError).
Arguments Answered {A} data.
Arguments Failed {A} err.

(** One line of the invoice; the description is kept field by field. *)
Module LineItem.
Record t : Type := {
  name : string;
  description : string * string * Z;
  rate : Number;
  quantity : Z;
  item_total : Q
}.
End LineItem.

(** The body of [POST /invoices]; [invoice_number] is the number after
    [INV-], the two dates are days since the epoch (UTC). *)
Module InvoicePayload.
Record t : Type := {
  customer_id : string;
  invoice_number : Z;
  date : Z;
  due_date : Z;
  line_items : list LineItem.t;
  notes : string;
  terms : string;
  currency_code : string
}.
End InvoicePayload.

(** [response.data.invoice] *)
Module InvoiceAnswer.
Record t : Type := {
  invoice_id : string;
  invoice_number : string;
  total : Q;
  status : string
}.
End InvoiceAnswer.

(** What [createZohoInvoice] returns. *)
Module Invoice.
Record t : Type := {
  invoice_id : string;
  invoice_number : string;
  payment_url : string;
  total : Q;
  status : string;
  customer_id : string
}.
End Invoice.

(** The readings of the clock while the payload is built: [Date.now()] for
    the invoice number, [new Date()] for the date, [Date.now()] for the due
    date, in milliseconds. *)
Record Clock : Type := { number_now : Z; date_now : Z; due_now : Z }.

(** The provider, as the function calls it. *)
Record Api : Type := {
  post_token : Config -> ApiResult (option string);
  list_contacts : string -> ApiResult unit;
  customers : ZohoIntegration.Provider;
  post_invoices : string -> InvoicePayload.t
                  -> ZohoIntegration.AxiosResult InvoiceAnswer.t
}.

(** The [catch] block of [getZohoAccessToken] is written once, as [failed],
    and called where the [try] block throws: when the request is rejected
    and when the answer carries no token (an error without a response). *)
Definition getZohoAccessToken (ZOHO_CONFIG : Config) (zoho : Api) : M string :=
  let failed (status : option Z) (message : string) : M string :=
    log Level.error "Failed to get Zoho access token";;
    if bool_decide (status = Some 400%Z) then
      throw (Error "Invalid Zoho credentials. Please check your ZOHO_CLIENT_ID, ZOHO_CLIENT_SECRET, and ZOHO_REFRESH_TOKEN.")
    else if bool_decide (status = Some 401%Z) then
      throw (Error "Zoho refresh token expired. Please regenerate your refresh token.")
    else throw (Error ("Zoho token request failed: " ++ message)) in
  log Level.info "Requesting Zoho access token...";;
  log Level.info "Token request params prepared";;
  match post_token zoho ZOHO_CONFIG with
  | Answered access_token =>
      log Level.info "Token response received";;
      match access_token with
      | Some token =>
          if truthy_string token then mret token
          else failed None "No access token received from Zoho"
      | None => failed None "No access token received from Zoho"
      end
  | Failed err => failed (status err) (message err)
  end.

Definition testZohoConnection (ZOHO_CONFIG : Config) (zoho : Api) (accessToken : string)
    : M bool :=
  log Level.info "Testing Zoho API connection with direct contact list...";;
  match list_contacts zoho accessToken with
  | Answered _ =>
      log Level.info "Contacts API test successful";;
      mret true
  | Failed err =>
      log Level.error "Zoho API connection test failed";;
      if bool_decide (status err = Some 401%Z) then
        if bool_decide (code err = Some 57%Z) then
          throw (Error ("Zoho API Error 57: Organization ID "
                        ++ default "undefined" (organizationId ZOHO_CONFIG)
                        ++ " is invalid or you don't have access to it. Please verify your ZOHO_ORGANIZATION_ID in Netlify environment variables."))
        else
          throw (Error "Zoho API authorization failed. Please check your refresh token and API permissions.")
      else throw (Error (message err))
  end.

(** [invoiceData]: the items, the currency and the notes of the request. *)
Record InvoiceData : Type := {
  serviceItems : list ServiceItem.t;
  currency : string;
  notes : option string
}.

Definition day (ms : Z) : Z := (ms / 86400000)%Z.

Definition createZohoInvoice (clock : Clock) (zoho : Api) (accessToken customerId : string)
    (invoiceData : InvoiceData) : M Invoice.t :=
  log Level.info "Creating Zoho invoice";;
  let lineItems :=
    map (fun item =>
           {| LineItem.name := ServiceItem.serviceName item;
              LineItem.description :=
                (ServiceItem.serviceName item, ServiceItem.packageType item,
                 ServiceItem.quantity item);
              LineItem.rate := ServiceItem.unitPrice item;
              LineItem.quantity := ServiceItem.quantity item;
              LineItem.item_total := ServiceItem.totalPrice item |})
        (serviceItems invoiceData) in
  let invoicePayload :=
    {| InvoicePayload.customer_id := customerId;
       InvoicePayload.invoice_number := number_now clock;
       InvoicePayload.date := day (date_now clock);
       InvoicePayload.due_date := day (due_now clock + 30 * 24 * 60 * 60 * 1000);
       InvoicePayload.line_items := lineItems;
       InvoicePayload.notes :=
         match notes invoiceData with
         | Some n => if truthy_string n then n else "Thank you for choosing Mechinweb!"
         | None => "Thank you for choosing Mechinweb!"
         end;
       InvoicePayload.terms := "Payment due within 30 days.";
       InvoicePayload.currency_code :=
         if truthy_string (currency invoiceData) then currency invoiceData else "USD" |} in
  log Level.info "Invoice payload prepared";;
  match post_invoices zoho accessToken invoicePayload with
  | ZohoIntegration.Resolved invoice =>
      log Level.info "Zoho invoice created successfully";;
      mret {| Invoice.invoice_id := InvoiceAnswer.invoice_id invoice;
              Invoice.invoice_number := InvoiceAnswer.invoice_number invoice;
              Invoice.payment_url :=
                "https://invoice.zoho.in/invoices/" ++ InvoiceAnswer.invoice_id invoice
                ++ "/payment";
              Invoice.total := InvoiceAnswer.total invoice;
              Invoice.status := InvoiceAnswer.status invoice;
              Invoice.customer_id := customerId |}
  | ZohoIntegration.Rejected err =>
      log Level.error "Failed to create Zoho invoice";;
      throw (Error ("Invoice creation failed: " ++
                    match ZohoIntegration.response err with
                    | Some (_, Some msg) =>
                        if truthy_string msg then msg else ZohoIntegration.message err
                    | _ => ZohoIntegration.message err
                    end))
  end.

(** The customer of a request, as JSON gives it: every field may be absent. *)
Module CustomerJson.
Record t : Type := {
  name : option string;
  email : option string;
  phone : option string;
  company : option string
}.
End CustomerJson.

(** The parsed body of a POST: [customerData] with [serviceItems], or the
    fields of a customer at the top level. *)
Module RequestData.
Record t : Type := {
  customerData : option CustomerJson.t;
  serviceItems : option (list ServiceItem.t);
  currency : option string;
  notes : option string;
  customer : CustomerJson.t
}.

(** [{}] *)
Definition empty : t :=
  {| customerData := None; serviceItems := None; currency := None; notes := None;
     customer := {| CustomerJson.name := None; CustomerJson.email := None;
                    CustomerJson.phone := None; CustomerJson.company := None |} |}.
End RequestData.

(** [event.body]: absent or empty, text that [JSON.parse] refuses (or parses
    to [null], whose first read throws inside the same [try]), or an object. *)
Inductive Body : Type :=
  | NoBody
  | Malformed
  | Parsed (requestData : RequestData.t).

Record Event : Type := { httpMethod : string; body : Body }.

Module Answer.
Record t : Type := {
  statusCode : Z;
  success : option bool;
  message : option string;
  error : option string;
  customer : option ZohoIntegration.Contact.t;
  invoice : option Invoice.t
}.
End Answer.

(** The fields of a customer that [createZohoCustomer] reads. *)
Definition customerData_of (c : CustomerJson.t) : CustomerData.t :=
  {| CustomerData.name := default EmptyString (CustomerJson.name c);
     CustomerData.email := default EmptyString (CustomerJson.email c);
     CustomerData.phone := default EmptyString (CustomerJson.phone c);
     CustomerData.company := default EmptyString (CustomerJson.company c) |}.

Definition handler (ZOHO_CONFIG : Config) (clock : Clock) (zoho : Api) (event : Event)
    : M Answer.t :=
  log Level.info "Zoho integration function invoked";;
  if String.eqb (httpMethod event) "OPTIONS" then
    mret {| Answer.statusCode := 200; Answer.success := None; Answer.message := None;
            Answer.error := None; Answer.customer := None; Answer.invoice := None |}
  else
    try_catch
      (validateZohoConfig ZOHO_CONFIG;;
       accessToken ← getZohoAccessToken ZOHO_CONFIG zoho;
       log Level.info "Access token obtained successfully";;
       if String.eqb (httpMethod event) "GET" then
         log Level.info "GET request - testing connection only";;
         try_catch
           (testZohoConnection ZOHO_CONFIG zoho accessToken;;
            mret {| Answer.statusCode := 200; Answer.success := Some true;
                    Answer.message := Some "Zoho integration is working correctly";
                    Answer.error := None; Answer.customer := None;
                    Answer.invoice := None |})
           (fun testError =>
              log Level.warning "Connection test failed but credentials are valid";;
              mret {| Answer.statusCode := 200; Answer.success := Some false;
                      Answer.message :=
                        Some "Zoho credentials are valid but API access failed";
                      Answer.error := Some (message_of testError);
                      Answer.customer := None; Answer.invoice := None |})
       else
         requestData ←
           (if String.eqb (httpMethod event) "POST" then
              match body event with
              | NoBody => mret RequestData.empty
              | Malformed =>
                  log Level.error "Failed to parse request body";;
                  throw (Error "Invalid JSON in request body")
              | Parsed requestData =>
                  log Level.info "Request data parsed successfully";;
                  mret requestData
              end
            else mret RequestData.empty);
         if String.eqb (httpMethod event) "POST" then
           match RequestData.customerData requestData,
                 RequestData.serviceItems requestData with
           | Some customerData, Some serviceItems =>
               log Level.info "Processing customer creation and invoice generation";;
               (if negb (present (CustomerJson.email customerData))
                   || negb (present (CustomerJson.name customerData))
                then throw (Error "Customer email and name are required")
                else mret tt);;
               (match serviceItems with
                | [] => throw (Error "At least one service item is required")
                | _ => mret tt
                end);;
               customer ← ZohoIntegration.createZohoCustomer (customers zoho) accessToken
                            (customerData_of customerData);
               log Level.info "Customer processed successfully";;
               invoice ← createZohoInvoice clock zoho accessToken
                           (ZohoIntegration.Contact.contact_id customer)
                           {| serviceItems := serviceItems;
                              currency :=
                                match RequestData.currency requestData with
                                | Some c => if truthy_string c then c else "USD"
                                | None => "USD"
                                end;
                              notes := RequestData.notes requestData |};
               log Level.info "Invoice created successfully";;
               mret {| Answer.statusCode := 200; Answer.success := Some true;
                       Answer.message := None; Answer.error := None;
                       Answer.customer := Some customer;
                       Answer.invoice := Some invoice |}
           | _, _ =>
               if present (CustomerJson.name (RequestData.customer requestData))
                  && present (CustomerJson.email (RequestData.customer requestData))
               then
                 log Level.info "Processing customer creation only";;
                 customer ← ZohoIntegration.createZohoCustomer (customers zoho) accessToken
                              (customerData_of (RequestData.customer requestData));
                 mret {| Answer.statusCode := 200; Answer.success := Some true;
                         Answer.message := None; Answer.error := None;
                         Answer.customer := Some customer; Answer.invoice := None |}
               else
                 log Level.error "Invalid request data structure";;
                 throw (Error "Invalid request data. Expected customerData and serviceItems or customer details.")
           end
         else
           mret {| Answer.statusCode := 405; Answer.success := Some false;
                   Answer.message := None; Answer.error := Some "Method not allowed";
                   Answer.customer := None; Answer.invoice := None |})
      (fun error =>
         log Level.error "Zoho integration function error";;
         mret {| Answer.statusCode := 500; Answer.success := Some false;
                 Answer.message := None; Answer.error := Some (message_of error);
                 Answer.customer := None; Answer.invoice := None |}).

End ZohoFunction.

(** ** The logger (class [ProductionLogger]) *)

Module ProductionLogger.

Module LogEntry.
Record t : Type := {
  timestamp : Z;
  level : string;
  message : string;
  data : option string
}.
End LogEntry.

Definition upper_ascii (c : ascii) : ascii :=
  let n := nat_of_ascii c in
  if andb (Nat.leb 97 n) (Nat.leb n 122) then ascii_of_nat (n - 32) else c.

(** [String.prototype.toUpperCase], on ASCII. *)
Fixpoint toUpperCase (s : string) : string :=
  match s with
  | EmptyString => EmptyString
  | String c s' => String (upper_ascii c) (toUpperCase s')
  end.

(** [Array.prototype.slice(-n)]: the last [n] elements, or all of them. *)
Definition slice_last {A : Type} (n : nat) (l : list A) : list A :=
  drop (length l - n) l.

(** The argument [data]: a value with its truthiness and its JSON text. *)
Record JsValue : Type := { truthy : bool; json : string }.

(** The size the buffer is cut back to. *)
Definition capacity : nat := 1000.

(** [log(level, message, data)]: the buffer after the call, and what the
    call writes to the console (in a development build). *)
Definition log (DEV : bool) (now : Z) (level message : string) (data : option JsValue)
    (logs : list LogEntry.t) : list LogEntry.t * list string :=
  let logEntry :=
    {| LogEntry.timestamp := now;
       LogEntry.level := toUpperCase level;
       LogEntry.message := message;
       LogEntry.data :=
         match data with
         | Some v => if truthy v then Some (json v) else None
         | None => None
         end |} in
  let logs := logs ++ [logEntry] in
  let logs := if Nat.ltb capacity (length logs) then slice_last capacity logs else logs in
  (logs, if DEV then [(LogEntry.level logEntry ++ ": " ++ message)%string] else []).

Definition getLogs (logs : list LogEntry.t) : list LogEntry.t := logs.

Definition clearLogs (logs : list LogEntry.t) : list LogEntry.t := [].

(** One call of [log], as a record of its arguments. *)
Record Call : Type := {
  call_now : Z;
  call_level : string;
  call_message : string;
  call_data : option JsValue
}.

(** The buffer after a sequence of calls. *)
Definition logged (DEV : bool) (calls : list Call) (logs : list LogEntry.t)
    : list LogEntry.t :=
  fold_left (fun logs c =>
               fst (log DEV (call_now c) (call_level c) (call_message c) (call_data c) logs))
            calls logs.

End ProductionLogger.

(** ** Functions of the database (SQL migrations) *)

Module Sql.



End Sql.

(** ** More deployments, for concrete runs *)

Module Scenario.


(** The environment of the sample, with an invoicing function that is down. *)
Definition env_zoho_down : PaymentService.Env :=
  {| PaymentService.now := PaymentService.now Sample.env;
     PaymentService.transactionId := PaymentService.transactionId Sample.env;
     PaymentService.auth_getUser := PaymentService.auth_getUser Sample.env;
     PaymentService.services_env := PaymentService.services_env Sample.env;
     PaymentService.clients_error := None;
     PaymentService.orders_insert_error := None;
     PaymentService.orders_update_error := None;
     PaymentService.audit_insert_fails := false;
     PaymentService.convertCurrency := PaymentService.convertCurrency Sample.env;
     PaymentService.fetch_zoho_integration := fun _ =>
       PaymentService.NotOk "502" "Bad Gateway" |}.


(** A catalog whose ids the resolver's regular expression does not accept:
    a version 7 UUID, and a text id as the migration that renames the ids
    builds it from the name of a service. *)
Definition other_ids : World :=
  {| services :=
       [ {| ServiceData.id := "018f4e5a-7b3c-7d2e-8f10-123456789abc";
            ServiceData.name := "Custom Support";
            ServiceData.description := "Support on request";
            ServiceData.category := "support";
            ServiceData.pricing := Some (<["basic" := 5%Q]> ∅);
            ServiceData.features := Some (<["basic" := ["One request"]]> ∅) |};
         {| ServiceData.id := "service-priority-desk";
            ServiceData.name := "Priority Desk";
            ServiceData.description := "A desk that answers first";
            ServiceData.category := "support";
            ServiceData.pricing := Some (<["basic" := 9%Q]> ∅);
            ServiceData.features := Some (<["basic" := ["Answers first"]]> ∅) |} ];
     clients := clients Sample.store;
     orders := [];
     invoices := [];
     notifications := [];
     purchase_audit_log := [];
     serviceCache := ∅;
     serviceMappingCache := None;
     emails := [];
     zoho_requests := [] |}.

(** A provider that has a contact of the same name under another email:
    the creation is refused as a duplicate, and the lookup by email lists
    nobody. *)
Definition name_taken : ZohoIntegration.Provider :=
  {| ZohoIntegration.post_contacts := fun _ _ =>
       ZohoIntegration.Rejected
         {| ZohoIntegration.response :=
              Some (400%Z, Some "The customer already exists.");
            ZohoIntegration.message := "Request failed with status code 400" |};
     ZohoIntegration.get_contacts := fun _ _ => ZohoIntegration.Resolved (Some []) |}.

(** The provider reports the invoice of the sample order as overdue. *)
Definition sync_env : OrderSync.Env :=
  {| OrderSync.now := 1700000200;
     OrderSync.orders_select_error := None;
     OrderSync.fetch_invoice := fun _ => OrderSync.OkJson (Some "overdue");
     OrderSync.orders_update_error := None |}.

(** A payment event for the invoice of the sample order that reports
    a total of zero. *)
Definition payment_of_nothing : ZohoWebhook.Data.t :=
  {| ZohoWebhook.Data.invoice_id := "INV-1";
     ZohoWebhook.Data.invoice_number := None;
     ZohoWebhook.Data.total := Some 0%Q;
     ZohoWebhook.Data.status := None;
     ZohoWebhook.Data.payment_date := None |}.

(** A configuration with every setting, and a provider whose contacts are
    kept in a directory and which answers every other call. *)
Definition zoho_config : ZohoFunction.Config :=
  {| ZohoFunction.clientId := Some "1000.ABC";
     ZohoFunction.clientSecret := Some "secret";
     ZohoFunction.refreshToken := Some "1000.refresh";
     ZohoFunction.organizationId := Some "60001" |}.

(** The contact that the provider has on file for the sample client. *)
Definition on_file : ZohoIntegration.Contact.t :=
  {| ZohoIntegration.Contact.contact_id := "CUST-1";
     ZohoIntegration.Contact.contact_name := "Alice";
     ZohoIntegration.Contact.email := "alice@example.com";
     ZohoIntegration.Contact.company_name := EmptyString |}.

Definition zoho_clock : ZohoFunction.Clock :=
  {| ZohoFunction.number_now := 1700000000000;
     ZohoFunction.date_now := 1700000000000;
     ZohoFunction.due_now := 1700000000000 |}.

Definition zoho_api (contacts : list ZohoIntegration.Contact.t) : ZohoFunction.Api :=
  {| ZohoFunction.post_token := fun _ => ZohoFunction.Answered (Some "token");
     ZohoFunction.list_contacts := fun _ => ZohoFunction.Answered tt;
     ZohoFunction.customers := ZohoIntegration.directory contacts "CUST-2";
     ZohoFunction.post_invoices := fun _ payload =>
       ZohoIntegration.Resolved
         {| ZohoFunction.InvoiceAnswer.invoice_id := "INV-1";
            ZohoFunction.InvoiceAnswer.invoice_number := "INV-1700000000000";
            ZohoFunction.InvoiceAnswer.total :=
              fold_right Qplus 0%Q
                (map ZohoFunction.LineItem.item_total
                   (ZohoFunction.InvoicePayload.line_items payload));
            ZohoFunction.InvoiceAnswer.status := "sent" |} |}.

(** A purchase of one item by a customer. *)
Definition zoho_request : ZohoFunction.Event :=
  {| ZohoFunction.httpMethod := "POST";
     ZohoFunction.body := ZohoFunction.Parsed
       {| ZohoFunction.RequestData.customerData :=
            Some {| ZohoFunction.CustomerJson.name := Some "Alice";
                    ZohoFunction.CustomerJson.email := Some "alice@example.com";
                    ZohoFunction.CustomerJson.phone := None;
                    ZohoFunction.CustomerJson.company := None |};
          ZohoFunction.RequestData.serviceItems :=
            Some [ {| ServiceItem.serviceId := Sample.ssl_id;
                      ServiceItem.serviceName := "SSL & HTTPS Setup";
                      ServiceItem.packageType := "standard";
                      ServiceItem.quantity := 1;
                      ServiceItem.unitPrice := Finite 10;
                      ServiceItem.totalPrice := 10 |} ];
          ZohoFunction.RequestData.currency := Some "USD";
          ZohoFunction.RequestData.notes := None;
          ZohoFunction.RequestData.customer :=
            ZohoFunction.RequestData.customer ZohoFunction.RequestData.empty |} |}.

End Scenario.

(** * Properties *)

(** ** Running computations *)

Lemma try_catch_returns {A : Type} (m : M A) (h : Exn -> M A) :
  (forall e w, exists a, result (h e w) = Ret a) ->
  forall w, exists a, result (try_catch m h w) = Ret a.
Proof.
  intros Hh w. unfold try_catch.
  destruct (result (m w)) as [a | e] eqn:E.
  - exists a. exact E.
  - cbn. apply Hh.
Qed.

Lemma bind_result_ret {A B : Type} (m : M A) (k : A -> M B) w a :
  result (m w) = Ret a ->
  result ((m ≫= k) w) = result (k a (world (m w)))
  /\ world ((m ≫= k) w) = world (k a (world (m w))).
Proof. intros E. unfold mbind, M_bind. cbv zeta. rewrite E. auto. Qed.

Lemma bind_result_throw {A B : Type} (m : M A) (k : A -> M B) w e :
  result (m w) = Throw e ->
  result ((m ≫= k) w) = Throw e /\ world ((m ≫= k) w) = world (m w).
Proof. intros E. unfold mbind, M_bind. cbv zeta. rewrite E. auto. Qed.

(** Runs the plumbing of a computation, leaving the statements folded. *)
Ltac run :=
  unfold mbind, mret, M_bind, M_ret, try_catch, says, quiet, log, throw, gets, modify;
  cbn [result world console fst snd Response.data Response.error app].

(** One statement at a time: the run of [m ≫= k] from the run of [m]. *)
Lemma run_bind {A B : Type} (m : M A) (k : A -> M B) w :
  (m ≫= k) w =
    match result (m w) with
    | Ret a => says (console (m w)) (k a (world (m w)))
    | Throw e => {| result := Throw e; world := world (m w); console := console (m w) |}
    end.
Proof. reflexivity. Qed.

Lemma run_log_bind {B : Type} l msg (k : unit -> M B) w :
  (log l msg ≫= k) w = says [(l, msg)] (k tt w).
Proof. reflexivity. Qed.

Lemma run_ret_bind {A B : Type} (a : A) (k : A -> M B) w :
  (mret a ≫= k) w = says [] (k a w).
Proof. reflexivity. Qed.

Lemma run_throw_bind {A B : Type} e (k : A -> M B) w :
  (throw e ≫= k) w = quiet (Throw e) w.
Proof. reflexivity. Qed.

Lemma run_modify_bind {B : Type} f (k : unit -> M B) w :
  (modify f ≫= k) w = says [] (k tt (f w)).
Proof. reflexivity. Qed.

Lemma run_gets_bind {A B : Type} (f : World -> A) (k : A -> M B) w :
  (gets f ≫= k) w = says [] (k (f w) w).
Proof. reflexivity. Qed.

Lemma run_quiet_bind {A B : Type} (a : A) (k : A -> M B) w :
  (quiet (Ret a) ≫= k) w = says [] (k a w).
Proof. reflexivity. Qed.

Lemma run_try_catch {A : Type} (m : M A) (h : Exn -> M A) w :
  try_catch m h w =
    match result (m w) with
    | Ret a => m w
    | Throw e => says (console (m w)) (h e (world (m w)))
    end.
Proof. reflexivity. Qed.

Lemma run_bind_assoc {A B C : Type} (m : M A) (f : A -> M B) (g : B -> M C) w :
  ((m ≫= f) ≫= g) w = (m ≫= (fun a => f a ≫= g)) w.
Proof.
  unfold mbind, M_bind. cbv zeta.
  destruct (result (m w)) as [a | e]; cbn [says result world console]; [|reflexivity].
  destruct (result (f a (world (m w)))) as [b | e];
    cbn [says result world console]; [|reflexivity].
  unfold says. cbn [result world console]. by rewrite app_assoc.
Qed.

Lemma run_throw {A : Type} e w : throw (A := A) e w = quiet (Throw e) w.
Proof. reflexivity. Qed.

Lemma run_ret {A : Type} (a : A) w : (mret a : M A) w = quiet (Ret a) w.
Proof. reflexivity. Qed.

Lemma run_log l msg w : log l msg w = says [(l, msg)] (quiet (Ret tt) w).
Proof. reflexivity. Qed.

Lemma run_modify f w : modify f w = quiet (Ret tt) (f w).
Proof. reflexivity. Qed.

(** Runs the statements at the head of the goal's computations. *)
Ltac steps :=
  repeat (progress
    (repeat (first [ rewrite run_log_bind | rewrite run_ret_bind | rewrite run_throw_bind
                   | rewrite run_modify_bind | rewrite run_gets_bind
                   | rewrite run_quiet_bind | rewrite run_bind_assoc
                   | rewrite run_throw | rewrite run_ret | rewrite run_log
                   | rewrite run_modify ];
             cbv beta);
     cbn [says quiet result world console Response.error Response.data fst snd])).

(** Finds a line in a console given as a chain of appended parts. *)
Ltac in_console :=
  repeat first
    [ apply elem_of_app; left; apply list_elem_of_singleton; reflexivity
    | apply elem_of_app; right ].

(** ** The validation trigger (C7) *)

(** C7 (code defect).  The trigger is meant to refuse an order whose amounts
    are not all positive, and says so in its message; it tests [amount_usd]
    and [amount_inr] only.  An order of an existing client for an existing
    service, with a valid package, positive USD and INR amounts and a
    negative AUD amount, is let through and written to the table. *)
Theorem validate_order_data_misses_amount_aud :
  let NEW := fun id =>
    {| Order.id := id;
       Order.client_id := Sample.client_id;
       Order.service_id := Sample.ssl_id;
       Order.package_type := "basic";
       Order.amount_usd := 7;
       Order.amount_inr := 581;
       Order.amount_aud := - (21 # 2);
       Order.currency := "USD";
       Order.status := pending;
       Order.payment_gateway := "zoho";
       Order.zoho_invoice_id := None;
       Order.zoho_customer_id := None;
       Order.updated_at := None |} in
  validate_order_data Sample.store (NEW 1%nat) = RETURN_NEW (NEW 1%nat)
  /\ Qle_bool (Order.amount_aud (NEW 1%nat)) 0 = true
  /\ orders (world (orders_insert None NEW Sample.store)) = [NEW 1%nat].
Proof. vm_compute. auto. Qed.

(** What the trigger does establish for a row it lets through. *)
Lemma validate_order_data_accepts w NEW row :
  validate_order_data w NEW = RETURN_NEW row ->
  row = NEW
  /\ (exists s, s ∈ services w /\ uuid_eqb (ServiceData.id s) (Order.service_id NEW) = true)
  /\ (exists c, c ∈ clients w /\ uuid_eqb (Client.id c) (Order.client_id NEW) = true)
  /\ Order.package_type NEW ∈ ["basic"; "standard"; "enterprise"]
  /\ (0 < Order.amount_usd NEW)%Q /\ (0 < Order.amount_inr NEW)%Q.
Proof.
  unfold validate_order_data.
  destruct (existsb _ (services w)) eqn:Es; cbn [negb]; [|discriminate].
  destruct (existsb _ (clients w)) eqn:Ec; cbn [negb]; [|discriminate].
  case_bool_decide as Hp; cbn [negb]; [|discriminate].
  destruct (Qle_bool (Order.amount_usd NEW) 0) eqn:Eu; cbn [orb]; [discriminate|].
  destruct (Qle_bool (Order.amount_inr NEW) 0) eqn:Ei; [discriminate|].
  intros [= <-]. split; [reflexivity|].
  apply existsb_exists in Es as (s & Hs & Hs').
  apply existsb_exists in Ec as (c & Hc & Hc').
  repeat split.
  - exists s. split; [by apply list_elem_of_In | done].
  - exists c. split; [by apply list_elem_of_In | done].
  - exact Hp.
  - apply Qnot_le_lt. intros H. apply Qle_bool_iff in H. congruence.
  - apply Qnot_le_lt. intros H. apply Qle_bool_iff in H. congruence.
Qed.

(** ** Currency amounts (C6) *)

Section CalculateCurrencyAmounts.
Import PaymentService.

Variable e : Env.

Lemma calculate_world amount currency w :
  world (calculateCurrencyAmounts e amount currency w) = w.
Proof.
  unfold calculateCurrencyAmounts.
  repeat (match goal with
          | |- context [String.eqb ?a ?b] => destruct (String.eqb a b)
          | |- context [convertCurrency e ?a ?b ?c] => destruct (convertCurrency e a b c)
          end; run); reflexivity.
Qed.

Lemma calculate_result amount currency from to1 to2 w :
  (currency, (to1, to2)) ∈ [("USD", ("INR", "AUD")); ("INR", ("USD", "AUD")); ("AUD", ("USD", "INR"))] ->
  from = currency ->
  result (calculateCurrencyAmounts e amount currency w) =
    match convertCurrency e amount from to1, convertCurrency e amount from to2 with
    | Ret x, Ret y =>
        Ret (if String.eqb currency "USD"
             then {| usd := toFixed2 amount; inr := toFixed2 x; aud := toFixed2 y |}
             else if String.eqb currency "INR"
             then {| usd := toFixed2 x; inr := toFixed2 amount; aud := toFixed2 y |}
             else {| usd := toFixed2 x; inr := toFixed2 y; aud := toFixed2 amount |})
    | _, _ => Ret {| usd := amount; inr := amount; aud := amount |}
    end.
Proof.
  intros Hin ->.
  unfold calculateCurrencyAmounts.
  repeat (apply elem_of_cons in Hin as [[= -> -> ->] | Hin]; [
    cbn [String.eqb Ascii.eqb Bool.eqb];
    repeat (match goal with
            | |- context [convertCurrency e ?a ?b ?c] => destruct (convertCurrency e a b c)
            end; run); reflexivity |]).
  by apply elem_of_nil in Hin.
Qed.

End CalculateCurrencyAmounts.

(** C6 (amended).  The two other currencies are converted from the amount
    in the chosen currency; the chosen currency's amount is never converted
    but, like the others, rounded to two decimals.  When a conversion
    throws, all three amounts are the original amount, unrounded.  In every
    case the computation returns and leaves the world as it was. *)
Theorem calculateCurrencyAmounts_spec :
  forall (e : PaymentService.Env) (amount : Q) (w : World),
  let run := fun currency => PaymentService.calculateCurrencyAmounts e amount currency w in
  let convert := PaymentService.convertCurrency e amount in
  let fallback :=
    {| PaymentService.usd := amount; PaymentService.inr := amount;
       PaymentService.aud := amount |} in
  (forall currency, world (run currency) = w /\ exists a, result (run currency) = Ret a)
  /\ result (run "USD") =
       match convert "USD" "INR", convert "USD" "AUD" with
       | Ret x, Ret y =>
           Ret {| PaymentService.usd := toFixed2 amount;
                  PaymentService.inr := toFixed2 x;
                  PaymentService.aud := toFixed2 y |}
       | _, _ => Ret fallback
       end
  /\ result (run "INR") =
       match convert "INR" "USD", convert "INR" "AUD" with
       | Ret x, Ret y =>
           Ret {| PaymentService.usd := toFixed2 x;
                  PaymentService.inr := toFixed2 amount;
                  PaymentService.aud := toFixed2 y |}
       | _, _ => Ret fallback
       end
  /\ result (run "AUD") =
       match convert "AUD" "USD", convert "AUD" "INR" with
       | Ret x, Ret y =>
           Ret {| PaymentService.usd := toFixed2 x;
                  PaymentService.inr := toFixed2 y;
                  PaymentService.aud := toFixed2 amount |}
       | _, _ => Ret fallback
       end.
Proof.
  intros e amount w run convert fallback. subst run convert fallback. cbv beta.
  split; [|split; [|split]].
  - intros currency. split; [apply calculate_world|].
    unfold PaymentService.calculateCurrencyAmounts.
    apply try_catch_returns. intros err w'. eexists. reflexivity.
  - rewrite (calculate_result e amount "USD" "USD" "INR" "AUD"); [|set_solver|done].
    destruct (PaymentService.convertCurrency e amount "USD" "INR"),
             (PaymentService.convertCurrency e amount "USD" "AUD"); reflexivity.
  - rewrite (calculate_result e amount "INR" "INR" "USD" "AUD"); [|set_solver|done].
    destruct (PaymentService.convertCurrency e amount "INR" "USD"),
             (PaymentService.convertCurrency e amount "INR" "AUD"); reflexivity.
  - rewrite (calculate_result e amount "AUD" "AUD" "USD" "INR"); [|set_solver|done].
    destruct (PaymentService.convertCurrency e amount "AUD" "USD"),
             (PaymentService.convertCurrency e amount "AUD" "INR"); reflexivity.
Qed.

(** C6, as stated, fails: an amount of 1.234 USD is stored as 1.23, not
    kept equal to what the caller supplied. *)
Lemma chosen_amount_is_rounded :
  exists a,
    result (PaymentService.calculateCurrencyAmounts Sample.env (1234 # 1000) "USD" Sample.store)
      = Ret a
    /\ ~ (PaymentService.usd a == 1234 # 1000)%Q.
Proof.
  eexists. split; [vm_compute; reflexivity|].
  cbn. intros H. apply Qeq_bool_iff in H. vm_compute in H. discriminate.
Qed.

(** ** Service resolution (C5) *)

Lemma filter_pkey {A : Type} (f : A -> string) (P : A -> Prop)
    `{!forall y, Decision (P y)} (l : list A) (x : A) :
  NoDup (map f l) -> x ∈ l -> (forall y, P y <-> f y = f x) ->
  filter P l = [x].
Proof.
  intros Hnd Hx HP. induction l as [|y l IH]; [inversion Hx|].
  cbn in Hnd. apply NoDup_cons in Hnd as [Hy Hnd].
  destruct (decide (P y)) as [Hpy | Hpy].
  - rewrite filter_cons_True by done.
    assert (Hnone : filter P l = []).
    { destruct (filter P l) as [|z l'] eqn:E; [reflexivity|]. exfalso.
      assert (Hz : z ∈ filter P l) by (rewrite E; left).
      apply list_elem_of_filter in Hz as [Hpz Hz].
      apply Hy. apply HP in Hpy, Hpz. rewrite Hpy, <- Hpz.
      apply list_elem_of_fmap. by exists z. }
    rewrite Hnone. apply elem_of_cons in Hx as [-> | Hx]; [reflexivity|].
    exfalso. apply Hy. apply HP in Hpy. rewrite Hpy.
    apply list_elem_of_fmap. by exists x.
  - rewrite filter_cons_False by done.
    apply elem_of_cons in Hx as [-> | Hx].
    + exfalso. apply Hpy. by apply HP.
    + by apply IH.
Qed.

Lemma resolveServiceId_returns e ident w :
  exists o, result (ServiceManager.resolveServiceId e ident w) = Ret o.
Proof.
  unfold ServiceManager.resolveServiceId. apply try_catch_returns.
  intros err w'. exists None. reflexivity.
Qed.

Lemma resolveServiceId_uuid_run e ident w :
  ServiceManager.uuidRegex_test ident = true ->
  world (ServiceManager.resolveServiceId e ident w) = w
  /\ result (ServiceManager.resolveServiceId e ident w) =
       Ret (match ServiceManager.services_eq_id_error e with
            | Some _ => None
            | None =>
                match filter (fun s => uuid_eqb (ServiceData.id s) ident) (services w) with
                | [_] => Some (ServiceManager.IdString ident)
                | _ => None
                end
            end).
Proof.
  intros Hre.
  unfold ServiceManager.resolveServiceId. rewrite Hre.
  rewrite run_try_catch. steps. rewrite run_bind.
  unfold services_eq_id.
  destruct (ServiceManager.services_eq_id_error e);
    cbn [quiet says result world console Response.error Response.data].
  { steps. split; reflexivity. }
  destruct (filter _ (services w)) as [|s [|s' l]];
    cbn [maybeSingle Response.error Response.data]; steps; split; reflexivity.
Qed.

(** C5 (amended).  For an identifier that the regular expression of the
    resolver accepts (the UUID shape, versions 1 to 5), under the primary
    key of the catalog: the resolver returns the identifier itself exactly
    when the existence query is answered and finds an entry with that id,
    and not-found otherwise, also when the query reports an error; it
    neither reads nor builds the alias map (the world, caches included, is
    left as it was).  Hence every catalog entry whose id has that shape
    resolves to its own id when the query is answered.  No resolution, of
    any identifier, throws. *)
Theorem resolveServiceId_canonical_id :
  forall (e : ServiceManager.Env) (w : World) (ident : string),
    ServiceManager.uuidRegex_test ident = true ->
    services_pkey w ->
    let r := ServiceManager.resolveServiceId e ident w in
    (result r = Ret (Some (ServiceManager.IdString ident)) <->
       ServiceManager.services_eq_id_error e = None /\
       exists s, s ∈ services w /\ uuid_eqb (ServiceData.id s) ident = true)
    /\ (result r = Ret (Some (ServiceManager.IdString ident)) \/ result r = Ret None)
    /\ world r = w
    /\ (ServiceManager.services_eq_id_error e = None ->
        forall s, s ∈ services w -> ServiceData.id s = ident ->
                  result r = Ret (Some (ServiceManager.IdString (ServiceData.id s))))
    /\ (forall e' ident' w',
          exists o, result (ServiceManager.resolveServiceId e' ident' w') = Ret o).
Proof.
  intros e w ident Hre Hpk r.
  destruct (resolveServiceId_uuid_run e ident w Hre) as [Hw Hr]. fold r in Hw, Hr.
  assert (Hfound : forall s, s ∈ services w -> uuid_eqb (ServiceData.id s) ident = true ->
            filter (fun s => uuid_eqb (ServiceData.id s) ident) (services w) = [s]).
  { intros s Hs Heq.
    apply (filter_pkey (fun s => toLowerCase (ServiceData.id s))); [exact Hpk|exact Hs|].
    intros y. unfold uuid_eqb in *. apply String.eqb_eq in Heq.
    rewrite Is_true_true, String.eqb_eq. rewrite Heq. reflexivity. }
  split; [|split; [|split; [|split]]].
  - rewrite Hr. split.
    + destruct (ServiceManager.services_eq_id_error e); [discriminate|].
      intros H. split; [reflexivity|].
      destruct (filter _ (services w)) as [|s [|s' l]] eqn:E; try discriminate.
      exists s. assert (Hs : s ∈ filter (fun s => uuid_eqb (ServiceData.id s) ident) (services w))
        by (rewrite E; left).
      apply list_elem_of_filter in Hs as [Hs1 Hs2]. split; [exact Hs2|].
      by apply Is_true_true.
    + intros [-> (s & Hs & Heq)]. by rewrite (Hfound s Hs Heq).
  - rewrite Hr. destruct (ServiceManager.services_eq_id_error e); [by right|].
    destruct (filter _ (services w)) as [|s [|s' l]]; auto.
  - exact Hw.
  - intros He s Hs <-. rewrite Hr, He.
    rewrite (Hfound s Hs); [reflexivity|]. unfold uuid_eqb. apply String.eqb_refl.
  - intros e' ident' w'. apply resolveServiceId_returns.
Qed.

Lemma resolveServiceId_canonical_id_witness :
  result (ServiceManager.resolveServiceId Sample.services_ok Sample.ssl_id Sample.store)
    = Ret (Some (ServiceManager.IdString Sample.ssl_id)).
Proof.
  assert (Hre : ServiceManager.uuidRegex_test Sample.ssl_id = true) by reflexivity.
  assert (Hpk : services_pkey Sample.store) by (unfold services_pkey; compute_done).
  destruct (resolveServiceId_canonical_id Sample.services_ok Sample.store Sample.ssl_id Hre Hpk)
    as (_ & _ & _ & H & _).
  apply (H eq_refl Sample.ssl).
  - vm_compute. left.
  - reflexivity.
Defined.

(** C5, as stated, fails: a catalog entry whose id the regular expression
    of the resolver does not accept (a version 7 UUID, a text id) does not
    resolve to its own id: it is looked up among the aliases, and not
    found. *)
Lemma catalog_entry_outside_regex_not_found :
  services_pkey Scenario.other_ids
  /\ Forall (fun s =>
       ServiceManager.uuidRegex_test (ServiceData.id s) = false
       /\ result (ServiceManager.resolveServiceId Sample.services_ok (ServiceData.id s)
                    Scenario.other_ids) = Ret None)
       (services Scenario.other_ids).
Proof.
  split; [unfold services_pkey; compute_done|].
  repeat constructor; vm_compute; reflexivity.
Qed.

(** An identifier of the canonical shape that names no entry is not found,
    even when the cached alias map has a key for it. *)
Example resolveServiceId_no_alias_fallback :
  let id := "00000000-0000-4000-8000-000000000000" in
  let w := set_serviceMappingCache (Some (<[id := Sample.ssl_id]> ∅)) Sample.store in
  result (ServiceManager.resolveServiceId Sample.services_ok id w) = Ret None.
Proof. reflexivity. Qed.

(** ** Frames: what a computation leaves alone *)

Section Frame.

(** [R w w']: what the world [w'] left by a computation keeps of [w]. *)
Variable R : World -> World -> Prop.
Hypothesis R_refl : forall w, R w w.
Hypothesis R_trans : forall w1 w2 w3, R w1 w2 -> R w2 w3 -> R w1 w3.

Lemma respects_ret {A : Type} (a : A) : respects R (mret a).
Proof. intros w. apply R_refl. Qed.

Lemma respects_throw {A : Type} (e : Exn) : respects R (throw (A := A) e).
Proof. intros w. apply R_refl. Qed.

Lemma respects_log l msg : respects R (log l msg).
Proof. intros w. apply R_refl. Qed.

Lemma respects_gets {A : Type} (f : World -> A) : respects R (gets f).
Proof. intros w. apply R_refl. Qed.

Lemma respects_quiet {A : Type} (o : outcome A) : respects R (quiet o).
Proof. intros w. apply R_refl. Qed.

Lemma respects_modify (f : World -> World) :
  (forall w, R w (f w)) -> respects R (modify f).
Proof. intros Hf w. apply Hf. Qed.

Lemma respects_bind {A B : Type} (m : M A) (k : A -> M B) :
  respects R m -> (forall a, respects R (k a)) -> respects R (m ≫= k).
Proof.
  intros Hm Hk w. unfold mbind, M_bind. cbv zeta.
  destruct (result (m w)) as [a | e]; cbn.
  - eapply R_trans; [apply Hm | apply Hk].
  - apply Hm.
Qed.

Lemma respects_try_catch {A : Type} (m : M A) (h : Exn -> M A) :
  respects R m -> (forall e, respects R (h e)) -> respects R (try_catch m h).
Proof.
  intros Hm Hh w. unfold try_catch. cbv zeta.
  destruct (result (m w)) as [a | e]; cbn.
  - apply Hm.
  - eapply R_trans; [apply Hm | apply Hh].
Qed.

End Frame.

(** Breaks a computation down to its statements. *)
Ltac frame_steps :=
  repeat (intros;
    match goal with
    | |- respects _ (mbind _ _) => apply respects_bind; try assumption
    | |- respects _ (try_catch _ _) => apply respects_try_catch; try assumption
    | |- respects _ (mret _) => apply respects_ret; assumption
    | |- respects _ (throw _) => apply respects_throw; assumption
    | |- respects _ (log _ _) => apply respects_log; assumption
    | |- respects _ (gets _) => apply respects_gets; assumption
    | |- respects _ (quiet _) => apply respects_quiet; assumption
    | |- respects _ (match ?x with _ => _ end) => destruct x
    end).

Section ServicesFrame.

Lemma caches_only_refl w : caches_only w w.
Proof. by repeat split. Qed.

Lemma caches_only_trans w1 w2 w3 :
  caches_only w1 w2 -> caches_only w2 w3 -> caches_only w1 w3.
Proof.
  unfold caches_only. intros (?&?&?&?&?&?&?&?) (?&?&?&?&?&?&?&?).
  repeat split; congruence.
Qed.

Local Hint Resolve caches_only_refl caches_only_trans : core.

Lemma services_eq_id_caches fault ident : respects caches_only (services_eq_id fault ident).
Proof. intros w. unfold services_eq_id. destruct fault; apply caches_only_refl. Qed.

Lemma services_select_caches fault : respects caches_only (services_select fault).
Proof. intros w. unfold services_select. destruct fault; apply caches_only_refl. Qed.

Lemma getAllServices_caches e : respects caches_only (ServiceManager.getAllServices e).
Proof.
  unfold ServiceManager.getAllServices.
  assert (H1 := caches_only_refl). assert (H2 := caches_only_trans).
  frame_steps; try apply services_select_caches;
    try (apply respects_modify; intros; by repeat split).
Qed.

Lemma createServiceMapping_caches e :
  respects caches_only (ServiceManager.createServiceMapping e).
Proof.
  unfold ServiceManager.createServiceMapping.
  assert (H1 := caches_only_refl). assert (H2 := caches_only_trans).
  frame_steps; try apply getAllServices_caches;
    try (apply respects_modify; intros; by repeat split).
Qed.

Lemma resolveServiceId_caches e ident :
  respects caches_only (ServiceManager.resolveServiceId e ident).
Proof.
  unfold ServiceManager.resolveServiceId.
  assert (H1 := caches_only_refl). assert (H2 := caches_only_trans).
  frame_steps; try apply services_eq_id_caches; try apply createServiceMapping_caches.
Qed.

Lemma getServiceById_caches e sid :
  respects caches_only (ServiceManager.getServiceById e sid).
Proof.
  unfold ServiceManager.getServiceById.
  assert (H1 := caches_only_refl). assert (H2 := caches_only_trans).
  frame_steps; try apply services_eq_id_caches;
    try (apply respects_modify; intros; by repeat split).
Qed.

End ServicesFrame.

(** ** Payment intents (C9, C10) *)

Lemma package_unavailable_no_entry service packageType :
  (forall pricing, ServiceData.pricing service = Some pricing ->
                   Js.get pricing packageType = Undefined) ->
  PaymentService.package_unavailable service packageType = true.
Proof.
  intros H. unfold PaymentService.package_unavailable.
  destruct (ServiceData.pricing service) as [p|]; [|reflexivity].
  by rewrite (H p eq_refl).
Qed.

(** A package named like a member of [Object.prototype] reads as present
    and passes the pricing check; the insert is then refused by the
    validation trigger, and no order is written either. *)
Example createPaymentIntent_inherited_package_name :
  let r := PaymentService.createPaymentIntent Sample.env Sample.ssl_id "constructor"
             10 "USD" 1 Sample.store in
  result r = Throw (Error "Failed to create order: Invalid package type: constructor")
  /\ orders (world r) = [].
Proof. vm_compute. split; reflexivity. Qed.

(** *** The orders table under insert and update *)


Lemma validate_order_data_ext w w' NEW :
  services w' = services w -> clients w' = clients w ->
  validate_order_data w' NEW = validate_order_data w NEW.
Proof. intros Hs Hc. unfold validate_order_data. by rewrite Hs, Hc. Qed.


Lemma validate_order_data_set_status w st ts o :
  validate_order_data w (Order.set_status st ts o) =
    match validate_order_data w o with
    | RETURN_NEW _ => RETURN_NEW (Order.set_status st ts o)
    | RAISE_EXCEPTION msg => RAISE_EXCEPTION msg
    end.
Proof.
  unfold validate_order_data. cbn [Order.set_status Order.service_id Order.client_id
    Order.package_type Order.amount_usd Order.amount_inr].
  repeat match goal with |- context [if ?b then _ else _] => destruct b end; reflexivity.
Qed.



Lemma calculate_result_any_world e amount currency w w' :
  result (PaymentService.calculateCurrencyAmounts e amount currency w)
    = result (PaymentService.calculateCurrencyAmounts e amount currency w').
Proof.
  unfold PaymentService.calculateCurrencyAmounts.
  repeat (match goal with
          | |- context [String.eqb ?a ?b] => destruct (String.eqb a b)
          | |- context [PaymentService.convertCurrency e ?a ?b ?c] =>
              destruct (PaymentService.convertCurrency e a b c)
          end; run); reflexivity.
Qed.


Lemma logPaymentAttempt_returns e txn oid action ok msg w :
  result (PaymentService.logPaymentAttempt e txn oid action ok msg w) = Ret tt
  /\ orders (world (PaymentService.logPaymentAttempt e txn oid action ok msg w)) = orders w
  /\ zoho_requests (world (PaymentService.logPaymentAttempt e txn oid action ok msg w))
       = zoho_requests w
  /\ console (PaymentService.logPaymentAttempt e txn oid action ok msg w) = [].
Proof.
  unfold PaymentService.logPaymentAttempt.
  destruct (PaymentService.audit_insert_fails e); steps; auto.
Qed.

(** *** A successful call, step by step *)


(** *** Forward execution: the run of a sequence from the runs of its parts *)

Lemma bind_ret_eq {A B : Type} (m : M A) (k : A -> M B) w a r :
  result (m w) = Ret a -> k a (world (m w)) = r ->
  (m ≫= k) w = says (console (m w)) r.
Proof. intros Hm <-. rewrite run_bind, Hm. reflexivity. Qed.

Lemma try_catch_ret_eq {A : Type} (m : M A) (h : Exn -> M A) w a r :
  m w = r -> result r = Ret a -> try_catch m h w = r.
Proof. intros <- Hr. rewrite run_try_catch, Hr. reflexivity. Qed.

Lemma bind_run_eq {A B : Type} (m : M A) (k : A -> M B) w a w1 c r :
  m w = {| result := Ret a; world := w1; console := c |} -> k a w1 = r ->
  (m ≫= k) w = says c r.
Proof. intros Hm <-. rewrite run_bind, Hm. reflexivity. Qed.

Lemma orders_insert_ok (row : nat -> Order.t) w :
  validate_order_data w (row (fresh_order_id w)) = RETURN_NEW (row (fresh_order_id w)) ->
  orders_insert None row w =
    {| result := Ret (single [row (fresh_order_id w)]);
       world := set_orders (fun os => os ++ [row (fresh_order_id w)]) w;
       console := [] |}.
Proof. intros H. unfold orders_insert. rewrite H. reflexivity. Qed.

Lemma createZohoInvoice_ok e order service client quantity txn invoice contact_id w :
  PaymentService.fetch_zoho_integration e
    (PaymentService.requestBody order service client quantity txn)
    = PaymentService.Json (PaymentService.Success invoice contact_id) ->
  PaymentService.createZohoInvoice e order service client quantity txn w =
    {| result := Ret (PaymentService.intent_of invoice contact_id txn);
       world := set_zoho_requests
                  (fun l => l ++ [PaymentService.requestBody order service client
                                    quantity txn]) w;
       console := [ (Level.info, "Creating Zoho invoice");
                    (Level.info, "Zoho request data prepared");
                    (Level.info, "Zoho invoice created successfully") ] |}.
Proof.
  intros H. unfold PaymentService.createZohoInvoice.
  rewrite run_try_catch. steps. rewrite H. steps. reflexivity.
Qed.

(** One statement forward: the statement returns, go on with the rest. *)
Ltac forward :=
  lazymatch goal with
  | |- (mbind ?k ?m) ?w = _ =>
      eapply (bind_ret_eq m k w); [first [reflexivity | eassumption] |];
      cbv beta;
      cbn [world result console log quiet modify gets throw mret M_ret says maybeSingle
           single Response.error Response.data clients_eq_id fst snd]
  end.

(** C9.  Suppose every step up to the invoice succeeds: the caller is
    authenticated and verified, the service resolves, is found and offers
    the package, the profile is loaded, the order passes validation and is
    inserted, and the invoicing function answers with an invoice.  If the
    update that links the invoice to the order then fails, the call still
    returns the payment intent of that invoice; the failure is written to
    the console, the request to the invoicing function stays sent, and the
    order table holds the new order as it was inserted: pending and
    unlinked. *)
Theorem createPaymentIntent_link_failure :
  forall (e : PaymentService.Env) (serviceIdentifier packageType : string)
         (totalPrice : Q) (currency : string) (quantity : Z) (w : World)
         (u : PaymentService.User.t) (ts : string)
         (serviceId : ServiceManager.IdRef) (service : ServiceData.t)
         (client : Client.t) (amounts : PaymentService.Amounts)
         (invoice : PaymentService.ZohoInvoice.t) (contact_id msg : string),
    let resolved :=
      ServiceManager.resolveServiceId (PaymentService.services_env e) serviceIdentifier w in
    let order := PaymentService.orderData u serviceId packageType amounts currency
                   (fresh_order_id w) in
    let request := PaymentService.requestBody order service client quantity
                     (PaymentService.transactionId e) in
    PaymentService.auth_getUser e
      = {| PaymentService.user := Some u; PaymentService.userError := None |} ->
    PaymentService.User.email_confirmed_at u = Some ts -> truthy_string ts = true ->
    result resolved = Ret (Some serviceId) ->
    result (ServiceManager.getServiceById (PaymentService.services_env e) serviceId
              (world resolved)) = Ret (Some service) ->
    PaymentService.package_unavailable service packageType = false ->
    PaymentService.clients_error e = None ->
    filter (fun c => uuid_eqb (Client.id c) (PaymentService.User.id u)) (clients w)
      = [client] ->
    result (PaymentService.calculateCurrencyAmounts e totalPrice currency w) = Ret amounts ->
    PaymentService.orders_insert_error e = None ->
    validate_order_data w order = RETURN_NEW order ->
    PaymentService.fetch_zoho_integration e request
      = PaymentService.Json (PaymentService.Success invoice contact_id) ->
    PaymentService.orders_update_error e = Some msg ->
    let r := PaymentService.createPaymentIntent e serviceIdentifier packageType
               totalPrice currency quantity w in
    result r = Ret (PaymentService.intent_of invoice contact_id
                      (PaymentService.transactionId e))
    /\ orders (world r) = orders w ++ [order]
    /\ Order.status order = pending
    /\ Order.zoho_invoice_id order = None
    /\ zoho_requests (world r) = zoho_requests w ++ [request]
    /\ (Level.error, "Order update failed") ∈ console r.
Proof.
  intros e serviceIdentifier packageType totalPrice currency quantity w u ts serviceId
    service client amounts invoice contact_id msg resolved order request
    Hauth Hconf Hts Hres Hget Hpkg Hcerr Hclient Hcalc Hins Hval Hfetch Hupd r.
  pose proof (resolveServiceId_caches (PaymentService.services_env e) serviceIdentifier w)
    as Hf1.
  pose proof (getServiceById_caches (PaymentService.services_env e) serviceId
                (world resolved)) as Hf2.
  fold resolved in Hf1.
  set (r2 := ServiceManager.getServiceById (PaymentService.services_env e) serviceId
               (world resolved)) in *.
  assert (Hf : caches_only w (world r2)) by (eapply caches_only_trans; eassumption).
  clear Hf1 Hf2. destruct Hf as (Hsv & Hcl & Hor & _ & _ & _ & _ & Hzr).
  subst r2 resolved.
  assert (Hrun : exists r', r = r' /\ result r' = Ret (PaymentService.intent_of invoice
             contact_id (PaymentService.transactionId e))
           /\ orders (world r') = orders w ++ [order]
           /\ zoho_requests (world r') = zoho_requests w ++ [request]
           /\ (Level.error, "Order update failed") ∈ console r').
  { eexists. split.
    - subst r. unfold PaymentService.createPaymentIntent.
      eapply try_catch_ret_eq.
      + repeat forward.
        rewrite Hauth. cbn [PaymentService.user PaymentService.userError].
        repeat forward. rewrite Hconf, Hts. repeat forward.
        rewrite Hpkg. repeat forward.
        rewrite Hcerr. forward. rewrite Hcl, Hclient. repeat forward.
        eapply bind_ret_eq;
          [rewrite (calculate_result_any_world e _ _ _ w); exact Hcalc|].
        rewrite calculate_world. cbv beta. repeat forward.
        rewrite Hins.
        eapply bind_run_eq.
        { apply orders_insert_ok. unfold fresh_order_id. rewrite Hor.
          rewrite (validate_order_data_ext w) by assumption. exact Hval. }
        unfold fresh_order_id. rewrite Hor. fold (fresh_order_id w). fold order.
        repeat forward.
        eapply bind_run_eq; [apply createZohoInvoice_ok; exact Hfetch|].
        repeat forward. rewrite Hupd. repeat forward.
        eapply bind_ret_eq; [apply logPaymentAttempt_returns|].
        repeat forward. reflexivity.
      + reflexivity.
    - cbn [says result world console quiet log mret M_ret orders_update].
      match goal with
      | |- context [PaymentService.logPaymentAttempt ?e ?t ?o ?a ?s ?m ?w'] =>
          destruct (logPaymentAttempt_returns e t o a s m w') as (_ & Hl2 & Hl3 & _)
      end.
      rewrite Hl2, Hl3. cbn [orders zoho_requests set_orders set_zoho_requests].
      rewrite Hor, Hzr. repeat (split; [reflexivity|]).
      in_console. }
  destruct Hrun as (r' & Hr & H1 & H2 & H3 & H4). rewrite Hr.
  repeat (split; [first [assumption | reflexivity]|]). assumption.
Qed.

Lemma createPaymentIntent_link_failure_witness :
  let r := PaymentService.createPaymentIntent Sample.env_link_fails Sample.ssl_id "standard"
             10 "USD" 1 Sample.store in
  result r = Ret (PaymentService.intent_of (Sample.zoho_invoice (1000 # 100)) "CUST-1"
                    "txn_1700000000_abc123def")
  /\ (Level.error, "Order update failed") ∈ console r.
Proof.
  destruct (createPaymentIntent_link_failure Sample.env_link_fails Sample.ssl_id "standard"
              10 "USD" 1 Sample.store Sample.alice_user "2025-01-01T00:00:00Z"
              (ServiceManager.IdString Sample.ssl_id) Sample.ssl Sample.alice
              {| PaymentService.usd := 1000 # 100; PaymentService.inr := 83000 # 100;
                 PaymentService.aud := 1500 # 100 |}
              (Sample.zoho_invoice (1000 # 100)) "CUST-1" "connection lost")
    as (H1 & _ & _ & _ & _ & H2);
    try (vm_compute; reflexivity).
  split; [exact H1 | exact H2].
Defined.





(** ** Customers at the invoicing provider (C8) *)

Lemma findZohoCustomer_found zoho token email customer rest w :
  ZohoIntegration.get_contacts zoho token email
    = ZohoIntegration.Resolved (Some (customer :: rest)) ->
  result (ZohoIntegration.findZohoCustomer zoho token email w) = Ret customer.
Proof.
  intros H. unfold ZohoIntegration.findZohoCustomer.
  rewrite run_try_catch. steps. rewrite H. steps. by destruct customer.
Qed.

Lemma findZohoCustomer_throws zoho token email err w :
  result (ZohoIntegration.findZohoCustomer zoho token email w) = Throw err ->
  exists reason, err = Error ("Customer lookup failed: " ++ reason).
Proof.
  unfold ZohoIntegration.findZohoCustomer. rewrite run_try_catch. steps.
  destruct (ZohoIntegration.get_contacts zoho token email) as [[[|c l]|]|e];
    steps; intros [= <-]; eauto.
Qed.

Lemma createZohoCustomer_duplicate zoho token customerData err w :
  ZohoIntegration.post_contacts zoho token
    {| ZohoIntegration.CustomerPayload.contact_name := CustomerData.name customerData;
       ZohoIntegration.CustomerPayload.company_name := CustomerData.company customerData;
       ZohoIntegration.CustomerPayload.email := CustomerData.email customerData;
       ZohoIntegration.CustomerPayload.phone := CustomerData.phone customerData |}
    = ZohoIntegration.Rejected err ->
  ZohoIntegration.already_exists err = true ->
  result (ZohoIntegration.createZohoCustomer zoho token customerData w)
    = result (ZohoIntegration.findZohoCustomer zoho token (CustomerData.email customerData) w).
Proof.
  intros Hpost Hdup. unfold ZohoIntegration.createZohoCustomer.
  steps. rewrite Hpost. steps. rewrite Hdup. steps. reflexivity.
Qed.

(** Against a provider that keeps a directory, the call returns the oldest
    contact on file under the email, or the contact it creates. *)
Lemma createZohoCustomer_directory contacts new_id token customerData w :
  result (ZohoIntegration.createZohoCustomer
            (ZohoIntegration.directory contacts new_id) token customerData w) =
    Ret (match filter (fun c => String.eqb (ZohoIntegration.Contact.email c)
                                  (CustomerData.email customerData)) contacts with
         | c :: _ => c
         | [] => {| ZohoIntegration.Contact.contact_id := new_id;
                    ZohoIntegration.Contact.contact_name := CustomerData.name customerData;
                    ZohoIntegration.Contact.email := CustomerData.email customerData;
                    ZohoIntegration.Contact.company_name :=
                      CustomerData.company customerData |}
         end).
Proof.
  unfold ZohoIntegration.createZohoCustomer. steps.
  cbn [ZohoIntegration.directory ZohoIntegration.post_contacts
       ZohoIntegration.CustomerPayload.email ZohoIntegration.CustomerPayload.contact_name
       ZohoIntegration.CustomerPayload.company_name].
  destruct (existsb _ contacts) eqn:E.
  - steps.
    assert (Hdup : ZohoIntegration.already_exists
              {| ZohoIntegration.response := Some (400%Z, Some "The customer already exists.");
                 ZohoIntegration.message := "Request failed with status code 400" |} = true)
      by reflexivity.
    rewrite Hdup. steps.
    apply existsb_exists in E as (c & Hc & Hmail).
    destruct (filter _ contacts) as [|c' l] eqn:F.
    + exfalso. apply (filter_nil_not_elem_of _ _ c F); [by apply Is_true_true|].
      by apply list_elem_of_In.
    + apply (findZohoCustomer_found _ _ _ c' l). cbn. by rewrite F.
  - steps.
    destruct (filter _ contacts) as [|c' l] eqn:F; [reflexivity|]. exfalso.
    assert (Hc : c' ∈ filter (fun c => String.eqb (ZohoIntegration.Contact.email c)
                               (CustomerData.email customerData)) contacts)
      by (rewrite F; left).
    apply list_elem_of_filter in Hc as [Hmail Hc].
    apply not_true_iff_false in E. apply E, existsb_exists.
    exists c'. split; [by apply list_elem_of_In | by apply Is_true_true].
Qed.

(** C8 (amended).  [createZohoCustomer] first asks the provider to create
    the contact.  When the provider creates it, the created contact is
    returned, whatever a lookup would answer.  When the creation is refused
    with status 400 and a message saying that the customer already exists,
    the call answers what the lookup by email answers: the first contact
    listed, when there is one, and otherwise the failure of the lookup,
    thrown as [Customer lookup failed: ...]; so a duplicate is surfaced as
    an error when the lookup lists nobody or fails, though never as a
    failed creation.  What such a call answers depends on the email alone:
    a purchaser who comes back under another name is given the same answer.
    Any other refusal of the creation is thrown as
    [Customer creation failed: ...], whatever a lookup would answer. *)
Theorem createZohoCustomer_duplicate_falls_back :
  forall (zoho : ZohoIntegration.Provider) (accessToken : string)
         (customerData : CustomerData.t) (w : World),
    let payload := fun customerData =>
      {| ZohoIntegration.CustomerPayload.contact_name := CustomerData.name customerData;
         ZohoIntegration.CustomerPayload.company_name := CustomerData.company customerData;
         ZohoIntegration.CustomerPayload.email := CustomerData.email customerData;
         ZohoIntegration.CustomerPayload.phone := CustomerData.phone customerData |} in
    let duplicate := fun err =>
      exists msg, ZohoIntegration.response err = Some (400%Z, Some msg)
                  /\ includes msg "already exists" = true in
    let lookup := ZohoIntegration.get_contacts zoho accessToken
                    (CustomerData.email customerData) in
    let r := ZohoIntegration.createZohoCustomer zoho accessToken customerData w in
    (forall customer,
        ZohoIntegration.post_contacts zoho accessToken (payload customerData)
          = ZohoIntegration.Resolved customer ->
        result r = Ret customer)
    /\ (forall err,
          ZohoIntegration.post_contacts zoho accessToken (payload customerData)
            = ZohoIntegration.Rejected err ->
          duplicate err ->
          result r = result (ZohoIntegration.findZohoCustomer zoho accessToken
                               (CustomerData.email customerData) w)
          /\ (forall customer rest,
                lookup = ZohoIntegration.Resolved (Some (customer :: rest)) ->
                result r = Ret customer)
          /\ (lookup = ZohoIntegration.Resolved None
              \/ lookup = ZohoIntegration.Resolved (Some []) ->
              result r = Throw (Error "Customer lookup failed: Customer not found"))
          /\ (forall err',
                lookup = ZohoIntegration.Rejected err' ->
                result r = Throw (Error ("Customer lookup failed: "
                                         ++ ZohoIntegration.message err')))
          /\ (forall customerData' err' w',
                CustomerData.email customerData' = CustomerData.email customerData ->
                ZohoIntegration.post_contacts zoho accessToken (payload customerData')
                  = ZohoIntegration.Rejected err' ->
                duplicate err' ->
                result (ZohoIntegration.createZohoCustomer zoho accessToken customerData' w')
                  = result r))
    /\ (forall err,
          ZohoIntegration.post_contacts zoho accessToken (payload customerData)
            = ZohoIntegration.Rejected err ->
          ~ duplicate err ->
          exists reason,
            result r = Throw (Error ("Customer creation failed: " ++ reason))).
Proof.
  intros zoho accessToken customerData w payload duplicate lookup r.
  assert (Hdup : forall err, duplicate err <-> ZohoIntegration.already_exists err = true).
  { intros err. unfold duplicate, ZohoIntegration.already_exists. split.
    - intros (msg & -> & ->). reflexivity.
    - destruct (ZohoIntegration.response err) as [[status [msg|]]|]; try discriminate.
      intros [Hst Hmsg]%andb_true_iff. apply Z.eqb_eq in Hst as ->. eauto. }
  assert (Hfind : forall email w1 w2,
            result (ZohoIntegration.findZohoCustomer zoho accessToken email w1)
            = result (ZohoIntegration.findZohoCustomer zoho accessToken email w2)).
  { intros email w1 w2. unfold ZohoIntegration.findZohoCustomer.
    rewrite !run_try_catch. steps.
    destruct (ZohoIntegration.get_contacts zoho accessToken email) as [[[|c l]|]|e];
      steps; reflexivity. }
  split; [|split].
  - intros customer Hpost. subst r. unfold ZohoIntegration.createZohoCustomer.
    steps. fold (payload customerData). rewrite Hpost. steps. by destruct customer.
  - intros err Hpost Herr. apply Hdup in Herr.
    assert (Hr : result r = result (ZohoIntegration.findZohoCustomer zoho accessToken
                                      (CustomerData.email customerData) w))
      by exact (createZohoCustomer_duplicate _ _ _ _ _ Hpost Herr).
    split; [exact Hr|]. split; [|split; [|split]].
    + intros customer rest Hget. rewrite Hr.
      by apply (findZohoCustomer_found _ _ _ _ rest).
    + intros Hnone. rewrite Hr. unfold ZohoIntegration.findZohoCustomer.
      rewrite run_try_catch. steps. fold lookup.
      destruct Hnone as [-> | ->]; steps; reflexivity.
    + intros err' Hget. rewrite Hr. unfold ZohoIntegration.findZohoCustomer.
      rewrite run_try_catch. steps. fold lookup. rewrite Hget. steps. reflexivity.
    + intros customerData' err' w' Hmail Hpost' Herr'. apply Hdup in Herr'.
      rewrite Hr, (createZohoCustomer_duplicate _ _ _ _ _ Hpost' Herr'), Hmail.
      apply Hfind.
  - intros err Hpost Herr.
    assert (Hno : ZohoIntegration.already_exists err = false).
    { destruct (ZohoIntegration.already_exists err) eqn:E; [|reflexivity].
      exfalso. by apply Herr, Hdup. }
    subst r. unfold ZohoIntegration.createZohoCustomer.
    steps. fold (payload customerData). rewrite Hpost. steps. rewrite Hno. steps.
    eexists. reflexivity.
Qed.

Lemma createZohoCustomer_duplicate_falls_back_witness :
  let customerData :=
    {| CustomerData.name := "Alice"; CustomerData.email := "alice@example.com";
       CustomerData.phone := EmptyString; CustomerData.company := EmptyString |} in
  result (ZohoIntegration.createZohoCustomer
            (ZohoIntegration.directory [Scenario.on_file] "CUST-2")
            "token" customerData Sample.store) = Ret Scenario.on_file.
Proof.
  intros customerData.
  refine (proj1 (proj2 (proj1 (proj2 (createZohoCustomer_duplicate_falls_back
            (ZohoIntegration.directory [Scenario.on_file] "CUST-2") "token" customerData
            Sample.store)) _ eq_refl _)) Scenario.on_file [] eq_refl).
  exists "The customer already exists.". split; reflexivity.
Defined.

(** C8, as stated, fails: a duplicate is surfaced as an error when the
    lookup by email lists nobody, as when the provider refuses the
    creation because of a contact of the same name under another email. *)
Lemma duplicate_customer_surfaced_as_error :
  let customerData :=
    {| CustomerData.name := "Alice"; CustomerData.email := "alice@example.com";
       CustomerData.phone := EmptyString; CustomerData.company := EmptyString |} in
  (exists err,
     ZohoIntegration.post_contacts Scenario.name_taken "token"
       {| ZohoIntegration.CustomerPayload.contact_name := CustomerData.name customerData;
          ZohoIntegration.CustomerPayload.company_name := CustomerData.company customerData;
          ZohoIntegration.CustomerPayload.email := CustomerData.email customerData;
          ZohoIntegration.CustomerPayload.phone := CustomerData.phone customerData |}
       = ZohoIntegration.Rejected err
     /\ ZohoIntegration.already_exists err = true)
  /\ result (ZohoIntegration.createZohoCustomer Scenario.name_taken "token" customerData
               Sample.store)
     = Throw (Error "Customer lookup failed: Customer not found").
Proof.
  split; [eexists; split; reflexivity | reflexivity].
Qed.

(** ** The webhook receiver (C1, C2, C3) *)

Lemma sendNotificationEmail_returns e emailData w :
  let r := ZohoWebhook.sendNotificationEmail e emailData w in
  result r = Ret tt
  /\ services (world r) = services w /\ clients (world r) = clients w
  /\ orders (world r) = orders w /\ invoices (world r) = invoices w
  /\ notifications (world r) = notifications w.
Proof.
  unfold ZohoWebhook.sendNotificationEmail. rewrite run_try_catch.
  destruct (ZohoWebhook.sendEmail e emailData); steps; repeat split; reflexivity.
Qed.

Lemma invoices_insert_run fault row w :
  ZohoWebhook.invoices_insert fault row w =
    {| result := Ret fault;
       world := if fault is None then set_invoices (fun l => l ++ [row]) w else w;
       console := [] |}.
Proof. destruct fault; reflexivity. Qed.

Lemma notifications_insert_run fault row w :
  ZohoWebhook.notifications_insert fault row w =
    {| result := Ret fault;
       world := if fault is None then set_notifications (fun l => l ++ [row]) w else w;
       console := [] |}.
Proof. destruct fault; reflexivity. Qed.

Lemma orders_update_single_one fault (p : Order.t -> bool) f w o :
  fault = None ->
  filter (fun x => p x) (orders w) = [o] ->
  validate_order_data w (f o) = RETURN_NEW (f o) ->
  orders_update_single fault p f w =
    {| result := Ret (single [f o]);
       world := set_orders (map (fun x => if p x then f x else x)) w;
       console := [] |}.
Proof.
  intros -> Hone Hval. unfold orders_update_single. rewrite Hone.
  cbn [map first_exception]. rewrite Hval. reflexivity.
Qed.

(** The receipt and the notification written for an order. *)
Lemma handlePaymentReceived_found e d w o :
  ZohoWebhook.orders_update_error e = None ->
  filter (fun x => ZohoWebhook.has_invoice (ZohoWebhook.Data.invoice_id d) x) (orders w) = [o] ->
  validate_order_data w o = RETURN_NEW o ->
  let r := ZohoWebhook.handlePaymentReceived e d w in
  result r = Ret tt
  /\ services (world r) = services w /\ clients (world r) = clients w
  /\ orders (world r) =
       map (fun x => if ZohoWebhook.has_invoice (ZohoWebhook.Data.invoice_id d) x
                     then Order.set_status paid (ZohoWebhook.now e) x else x) (orders w)
  /\ length (invoices (world r)) =
       (length (invoices w)
        + if ZohoWebhook.invoices_insert_error e is None then 1 else 0)%nat
  /\ length (notifications (world r)) =
       (length (notifications w)
        + if ZohoWebhook.notifications_insert_error e is None then 1 else 0)%nat.
Proof.
  intros Hupd Hone Hval r.
  assert (Hrun : exists r', r = r' /\ result r' = Ret tt
            /\ services (world r') = services w /\ clients (world r') = clients w
            /\ orders (world r') =
                 map (fun x => if ZohoWebhook.has_invoice (ZohoWebhook.Data.invoice_id d) x
                               then Order.set_status paid (ZohoWebhook.now e) x else x)
                   (orders w)
            /\ length (invoices (world r')) =
                 (length (invoices w)
                  + if ZohoWebhook.invoices_insert_error e is None then 1 else 0)%nat
            /\ length (notifications (world r')) =
                 (length (notifications w)
                  + if ZohoWebhook.notifications_insert_error e is None then 1 else 0)%nat).
  { eexists. split.
    - subst r. unfold ZohoWebhook.handlePaymentReceived.
      eapply try_catch_ret_eq.
      + repeat forward.
        eapply bind_run_eq.
        { apply (orders_update_single_one _ _ _ _ o); [exact Hupd | exact Hone |].
          rewrite validate_order_data_set_status, Hval. reflexivity. }
        cbn [single Response.error Response.data]. repeat forward.
        eapply bind_run_eq; [apply invoices_insert_run|].
        eapply bind_ret_eq.
        { instantiate (1 := tt). by destruct (ZohoWebhook.invoices_insert_error e). }
        eapply bind_run_eq; [apply notifications_insert_run|].
        eapply bind_ret_eq.
        { instantiate (1 := tt). by destruct (ZohoWebhook.notifications_insert_error e). }
        eapply bind_ret_eq.
        { instantiate (1 := tt).
          match goal with
          | |- context [match ?c with Some _ => _ | None => _ end] => destruct c
          end; [apply sendNotificationEmail_returns | reflexivity]. }
        reflexivity.
      + reflexivity.
    - cbn [says result world console log quiet].
      split; [reflexivity|].
      match goal with
      | |- context [match ?c with Some _ => _ | None => _ end ?w'] =>
          match type of c with
          | option Client.t =>
              destruct c as [client|];
              [ match goal with
                | |- context [ZohoWebhook.sendNotificationEmail ?e ?m ?w''] =>
                    destruct (sendNotificationEmail_returns e m w'')
                      as (_ & -> & -> & -> & -> & ->)
                end
              | ]
          end
      end;
      destruct (ZohoWebhook.invoices_insert_error e),
               (ZohoWebhook.notifications_insert_error e);
      cbn [world log quiet mret M_ret services clients orders invoices notifications
           set_orders set_invoices set_notifications];
      rewrite ?length_app; cbn [length];
      repeat split; first [reflexivity | lia]. }
  destruct Hrun as (r' & -> & H). exact H.
Qed.

Lemma has_invoice_set_status i st ts o :
  ZohoWebhook.has_invoice i (Order.set_status st ts o) = ZohoWebhook.has_invoice i o.
Proof. reflexivity. Qed.

Lemma filter_map_set_status i st ts (l : list Order.t) :
  filter (fun x => ZohoWebhook.has_invoice i x)
    (map (fun x => if ZohoWebhook.has_invoice i x then Order.set_status st ts x else x) l)
  = map (Order.set_status st ts) (filter (fun x => ZohoWebhook.has_invoice i x) l).
Proof.
  induction l as [|x l IH]; [reflexivity|]. cbn [map].
  destruct (ZohoWebhook.has_invoice i x) eqn:E.
  - rewrite !filter_cons_True
      by (cbv beta; rewrite ?has_invoice_set_status, E; exact I).
    cbn [map]. by rewrite IH.
  - rewrite !filter_cons_False by (cbv beta; rewrite E; intros []). exact IH.
Qed.

(** C1 (amended).  Two deliveries of the same payment-received event, for
    an invoice linked to exactly one order that is pending and passes the
    validation trigger, with the datastore answering every statement: the
    first delivery takes the order from pending to paid, the second finds
    it paid and leaves it paid, so there is exactly one pending-to-paid
    transition; each delivery appends one receipt record and one
    notification, so the two leave two of each. *)
Theorem payment_received_twice :
  forall (e1 e2 : ZohoWebhook.Env) (d : ZohoWebhook.Data.t) (w : World) (o : Order.t),
    filter (fun x => ZohoWebhook.has_invoice (ZohoWebhook.Data.invoice_id d) x) (orders w)
      = [o] ->
    Order.status o = pending ->
    validate_order_data w o = RETURN_NEW o ->
    ZohoWebhook.orders_update_error e1 = None ->
    ZohoWebhook.orders_update_error e2 = None ->
    ZohoWebhook.invoices_insert_error e1 = None ->
    ZohoWebhook.invoices_insert_error e2 = None ->
    ZohoWebhook.notifications_insert_error e1 = None ->
    ZohoWebhook.notifications_insert_error e2 = None ->
    let first := ZohoWebhook.handlePaymentReceived e1 d w in
    let second := ZohoWebhook.handlePaymentReceived e2 d (world first) in
    let linked := fun w' =>
      filter (fun x => ZohoWebhook.has_invoice (ZohoWebhook.Data.invoice_id d) x)
        (orders w') in
    result first = Ret tt /\ result second = Ret tt
    /\ map Order.status (linked w) = [pending]
    /\ map Order.status (linked (world first)) = [paid]
    /\ map Order.status (linked (world second)) = [paid]
    /\ length (invoices (world first)) = S (length (invoices w))
    /\ length (invoices (world second)) = S (S (length (invoices w)))
    /\ length (notifications (world first)) = S (length (notifications w))
    /\ length (notifications (world second)) = S (S (length (notifications w))).
Proof.
  intros e1 e2 d w o Hone Hst Hval Hu1 Hu2 Hi1 Hi2 Hn1 Hn2 first second linked.
  destruct (handlePaymentReceived_found e1 d w o Hu1 Hone Hval)
    as (Hr1 & Hs1 & Hc1 & Ho1 & Hl1 & Hm1).
  fold first in Hr1, Hs1, Hc1, Ho1, Hl1, Hm1.
  assert (Hone1 : linked (world first) = [Order.set_status paid (ZohoWebhook.now e1) o]).
  { unfold linked. rewrite Ho1, filter_map_set_status, Hone. reflexivity. }
  assert (Hval1 : validate_order_data (world first)
                    (Order.set_status paid (ZohoWebhook.now e1) o)
                  = RETURN_NEW (Order.set_status paid (ZohoWebhook.now e1) o)).
  { rewrite (validate_order_data_ext w) by assumption.
    rewrite validate_order_data_set_status, Hval. reflexivity. }
  destruct (handlePaymentReceived_found e2 d (world first) _ Hu2 Hone1 Hval1)
    as (Hr2 & Hs2 & Hc2 & Ho2 & Hl2 & Hm2).
  fold second in Hr2, Hs2, Hc2, Ho2, Hl2, Hm2.
  assert (Hone2 : linked (world second)
                  = [Order.set_status paid (ZohoWebhook.now e2)
                       (Order.set_status paid (ZohoWebhook.now e1) o)]).
  { unfold linked in Hone1 |- *. rewrite Ho2, filter_map_set_status, Hone1. reflexivity. }
  rewrite Hi1, Hn1 in *. rewrite Hi2, Hn2 in *.
  split; [exact Hr1|]. split; [exact Hr2|].
  split; [unfold linked; rewrite Hone; cbn; by rewrite Hst|].
  split; [by rewrite Hone1|]. split; [by rewrite Hone2|].
  repeat split; lia.
Qed.

Lemma payment_received_twice_witness :
  let first := ZohoWebhook.handlePaymentReceived Sample.hook_env Sample.payment_data
                 (Sample.store_with pending) in
  let second := ZohoWebhook.handlePaymentReceived Sample.hook_env Sample.payment_data
                  (world first) in
  map Order.status (orders (world second)) = [paid]
  /\ length (invoices (world second)) = 2%nat
  /\ length (notifications (world second)) = 2%nat.
Proof.
  destruct (payment_received_twice Sample.hook_env Sample.hook_env Sample.payment_data
              (Sample.store_with pending) (Sample.order pending))
    as (_ & _ & _ & _ & H1 & _ & H2 & _ & H3); try reflexivity.
  split; [exact H1|]. split; [exact H2 | exact H3].
Defined.

(** C1, as stated, fails: the second delivery of the same event writes a
    second receipt record and a second notification, and mails the client
    again. *)
Lemma second_delivery_duplicates_receipt :
  let first := ZohoWebhook.handler Sample.hook_env Sample.payment_received
                 (Sample.store_with pending) in
  let second := ZohoWebhook.handler Sample.hook_env Sample.payment_received (world first) in
  map Order.status (orders (world first)) = [paid]
  /\ length (invoices (world first)) = 1%nat
  /\ length (notifications (world first)) = 1%nat
  /\ length (invoices (world second)) = 2%nat
  /\ length (notifications (world second)) = 2%nat
  /\ length (emails (world second)) = 2%nat.
Proof. vm_compute. repeat split; reflexivity. Qed.

(** What a payment-received event does to the order table: nothing, or
    every order linked to the invoice is set to paid. *)
Lemma handlePaymentReceived_orders e d w :
  let r := ZohoWebhook.handlePaymentReceived e d w in
  orders (world r) = orders w
  \/ orders (world r) =
       map (fun x => if ZohoWebhook.has_invoice (ZohoWebhook.Data.invoice_id d) x
                     then Order.set_status paid (ZohoWebhook.now e) x else x) (orders w).
Proof.
  intros r.
  destruct (ZohoWebhook.orders_update_error e) as [msg|] eqn:Hupd.
  { left. subst r. unfold ZohoWebhook.handlePaymentReceived.
    rewrite run_try_catch. steps. rewrite run_bind. unfold orders_update_single.
    rewrite Hupd. steps. reflexivity. }
  destruct (filter (fun x => ZohoWebhook.has_invoice (ZohoWebhook.Data.invoice_id d) x)
              (orders w)) as [|o [|o' l]] eqn:Hone.
  - left. subst r. unfold ZohoWebhook.handlePaymentReceived.
    rewrite run_try_catch. steps. rewrite run_bind. unfold orders_update_single.
    rewrite Hupd, Hone. cbn [map first_exception single]. steps. reflexivity.
  - destruct (validate_order_data w o) as [row|msg] eqn:Hval.
    + right. apply validate_order_data_accepts in Hval as Hrow. destruct Hrow as [-> _].
      by destruct (handlePaymentReceived_found e d w o Hupd Hone Hval) as (_ & _ & _ & H & _).
    + left. subst r. unfold ZohoWebhook.handlePaymentReceived.
      rewrite run_try_catch. steps. rewrite run_bind. unfold orders_update_single.
      rewrite Hupd, Hone. cbn [map first_exception].
      rewrite validate_order_data_set_status, Hval. steps. reflexivity.
  - left. subst r. unfold ZohoWebhook.handlePaymentReceived.
    rewrite run_try_catch. steps. rewrite run_bind. unfold orders_update_single.
    rewrite Hupd, Hone.
    destruct (first_exception w _); cbn [map single]; steps; reflexivity.
Qed.

(** What a status-changed event does to the order table. *)
Lemma handleInvoiceStatusChange_run e d w :
  let r := ZohoWebhook.handleInvoiceStatusChange e d w in
  let set := Order.set_status (ZohoWebhook.orderStatus_of (ZohoWebhook.Data.status d))
               (ZohoWebhook.now e) in
  let linked := ZohoWebhook.has_invoice (ZohoWebhook.Data.invoice_id d) in
  match result (orders_update (ZohoWebhook.orders_update_error e) linked set w) with
  | Ret (None, _) =>
      result r = Ret tt
      /\ orders (world r) = map (fun x => if linked x then set x else x) (orders w)
  | Ret (Some msg, _) => result r = Throw (PostgrestError msg) /\ world r = w
  | Throw _ => False
  end.
Proof.
  intros r set linked. subst r. unfold ZohoWebhook.handleInvoiceStatusChange.
  rewrite run_try_catch. steps. rewrite run_bind. fold set. fold linked.
  unfold orders_update.
  destruct (ZohoWebhook.orders_update_error e) as [msg|]; steps; [split; reflexivity|].
  destruct (first_exception w _) as [msg|]; steps; split; reflexivity.
Qed.

(** C2 (amended).  A payment-received event leaves the order table as it
    was or sets the orders linked to its invoice to paid: it never makes an
    order pending.  A status-changed event that succeeds sets every order
    linked to its invoice to the status mapped from the provider's status,
    whatever the order's status was, and one that fails leaves the table as
    it was.  The mapped status is paid for [paid], cancelled for
    [cancelled] and pending for anything else, so an order that is paid or
    cancelled goes back to pending under [sent], [overdue], an unknown or
    an absent status. *)
Theorem order_status_after_webhook :
  forall (e : ZohoWebhook.Env) (d : ZohoWebhook.Data.t) (w : World),
    let linked := ZohoWebhook.has_invoice (ZohoWebhook.Data.invoice_id d) in
    let received := ZohoWebhook.handlePaymentReceived e d w in
    let changed := ZohoWebhook.handleInvoiceStatusChange e d w in
    let target := ZohoWebhook.orderStatus_of (ZohoWebhook.Data.status d) in
    let rewritten := fun st =>
      map (fun x => if linked x then Order.set_status st (ZohoWebhook.now e) x else x)
        (orders w) in
    (orders (world received) = orders w \/ orders (world received) = rewritten paid)
    /\ (result changed = Ret tt -> orders (world changed) = rewritten target)
    /\ (forall err, result changed = Throw err -> orders (world changed) = orders w)
    /\ (target = paid <-> ZohoWebhook.Data.status d = Some "paid")
    /\ (target = cancelled <-> ZohoWebhook.Data.status d = Some "cancelled")
    /\ (target = pending <->
        ZohoWebhook.Data.status d <> Some "paid"
        /\ ZohoWebhook.Data.status d <> Some "cancelled").
Proof.
  intros e d w linked received changed target rewritten.
  split; [apply handlePaymentReceived_orders|].
  pose proof (handleInvoiceStatusChange_run e d w) as Hrun. cbv zeta in Hrun.
  fold changed linked target in Hrun.
  assert (Htarget : forall s, ZohoWebhook.orderStatus_of s =
            match s with
            | Some s' => if String.eqb s' "paid" then paid
                         else if String.eqb s' "cancelled" then cancelled else pending
            | None => pending
            end).
  { intros [s'|]; [|reflexivity]. unfold ZohoWebhook.orderStatus_of.
    destruct (String.eqb_spec s' "paid") as [->|]; [reflexivity|].
    destruct (String.eqb_spec s' "overdue") as [->|]; [reflexivity|].
    destruct (String.eqb_spec s' "cancelled"); [reflexivity|].
    by destruct (String.eqb s' "sent"). }
  split; [|split; [|split; [|split]]].
  - intros Hok.
    destruct (result (orders_update _ _ _ w)) as [[[msg|] rows]|err];
      [destruct Hrun as [H _]; congruence | by destruct Hrun | done].
  - intros err Herr.
    destruct (result (orders_update _ _ _ w)) as [[[msg|] rows]|err'];
      [destruct Hrun as [_ ->]; reflexivity | destruct Hrun as [H _]; congruence | done].
  - unfold target. rewrite Htarget. destruct (ZohoWebhook.Data.status d) as [s|]; [|done].
    destruct (String.eqb_spec s "paid") as [->|Hn]; [done|].
    destruct (String.eqb_spec s "cancelled"); split; try done; intros [= ->]; done.
  - unfold target. rewrite Htarget. destruct (ZohoWebhook.Data.status d) as [s|]; [|done].
    destruct (String.eqb_spec s "paid") as [->|Hn]; [done|].
    destruct (String.eqb_spec s "cancelled") as [->|Hn']; [done|].
    split; [done|]. intros [= ->]. done.
  - unfold target. rewrite Htarget. destruct (ZohoWebhook.Data.status d) as [s|]; [|done].
    destruct (String.eqb_spec s "paid") as [->|Hn]; [split; [done|]; intros [H _]; done|].
    destruct (String.eqb_spec s "cancelled") as [->|Hn'];
      [split; [done|]; intros [_ H]; done|].
    split; [|done]. intros _. split; intros [= ->]; done.
Qed.

(** C2, as stated, fails: a paid order goes back to pending when the
    provider reports the invoice overdue, a cancelled one when it reports
    it sent, and a cancelled order is set to paid by a payment. *)
Lemma paid_order_goes_back_to_pending :
  let after := fun event st =>
    map Order.status
      (orders (world (ZohoWebhook.handler Sample.hook_env event (Sample.store_with st)))) in
  after (Sample.status_changed "overdue") paid = [pending]
  /\ after (Sample.status_changed "sent") cancelled = [pending]
  /\ after Sample.payment_received cancelled = [paid].
Proof. vm_compute. repeat split; reflexivity. Qed.

(** After the update of the order, the rest of the payment handler runs
    to its end whatever the receipt insert, the notification insert and the
    mail function answer. *)
Lemma handlePaymentReceived_result e d w :
  let update :=
    orders_update_single (ZohoWebhook.orders_update_error e)
      (ZohoWebhook.has_invoice (ZohoWebhook.Data.invoice_id d))
      (Order.set_status paid (ZohoWebhook.now e)) w in
  result (ZohoWebhook.handlePaymentReceived e d w) =
    match result update with
    | Ret resp =>
        match Response.error resp with
        | Some msg => Throw (PostgrestError msg)
        | None => Ret tt
        end
    | Throw err => Throw err
    end.
Proof.
  intros update. unfold ZohoWebhook.handlePaymentReceived.
  rewrite run_try_catch. steps. rewrite run_bind. fold update.
  destruct (result update) as [resp|err]; [|steps; reflexivity].
  destruct (Response.error resp) as [msg|]; [steps; reflexivity|].
  destruct (Response.data resp) as [order|]; [|steps; reflexivity].
  steps. rewrite run_bind, invoices_insert_run. steps.
  assert (Hstep : forall (fault : option string) (a b : M unit) w0,
            result (a w0) = Ret tt -> result (b w0) = Ret tt ->
            result ((if fault is Some _ then a else b) w0) = Ret tt)
    by (intros [?|]; auto).
  rewrite run_bind, Hstep by reflexivity. steps.
  rewrite run_bind, notifications_insert_run. steps.
  rewrite run_bind, Hstep by reflexivity. steps.
  destruct (ZohoWebhook.clients_of (world update) order) as [client|].
  - rewrite run_bind.
    match goal with
    | |- context [ZohoWebhook.sendNotificationEmail ?e ?m ?w'] =>
        rewrite (proj1 (sendNotificationEmail_returns e m w'))
    end.
    steps. reflexivity.
  - steps. reflexivity.
Qed.

Lemma orders_update_single_returns fault p f w :
  exists resp, result (orders_update_single fault p f w) = Ret resp.
Proof.
  unfold orders_update_single. destruct fault; [eexists; reflexivity|].
  destruct (first_exception w _); [eexists; reflexivity|].
  destruct (map f _) as [|r [|r' l]]; eexists; reflexivity.
Qed.

Lemma orders_update_returns fault p f w :
  exists resp, result (orders_update fault p f w) = Ret resp.
Proof.
  unfold orders_update. destruct fault; [eexists; reflexivity|].
  destruct (first_exception w _); eexists; reflexivity.
Qed.

(** The answer to a POST whose body has an event type and data is decided
    by what the update of the order reports, and by nothing else: 200 with
    [success] and the event type when the update reports no error (and for
    event types that update no order), 500 with the error when it reports
    one.  What the receipt insert, the notification insert and the mail
    function answer does not change the response. *)
Theorem handler_acknowledges :
  forall (e : ZohoWebhook.Env) (eventType : string) (payload : ZohoWebhook.Data.t)
         (w : World),
    truthy_string eventType = true ->
    let event :=
      {| ZohoWebhook.httpMethod := "POST";
         ZohoWebhook.body := ZohoWebhook.Parsed
           {| ZohoWebhook.event_type := Some eventType;
              ZohoWebhook.data := Some payload |} |} in
    let linked := ZohoWebhook.has_invoice (ZohoWebhook.Data.invoice_id payload) in
    let reported : option string :=
      if String.eqb eventType "invoice_payment_received" then
        match result (orders_update_single (ZohoWebhook.orders_update_error e) linked
                        (Order.set_status paid (ZohoWebhook.now e)) w) with
        | Ret resp => Response.error resp
        | Throw _ => None
        end
      else if String.eqb eventType "invoice_status_changed" then
        match result (orders_update (ZohoWebhook.orders_update_error e) linked
                        (Order.set_status
                           (ZohoWebhook.orderStatus_of (ZohoWebhook.Data.status payload))
                           (ZohoWebhook.now e)) w) with
        | Ret (err, _) => err
        | Throw _ => None
        end
      else None in
    result (ZohoWebhook.handler e event w) =
      Ret (match reported with
           | None =>
               {| ZohoWebhook.HttpResponse.statusCode := 200;
                  ZohoWebhook.HttpResponse.success := Some true;
                  ZohoWebhook.HttpResponse.eventType := Some eventType;
                  ZohoWebhook.HttpResponse.error := None |}
           | Some msg =>
               {| ZohoWebhook.HttpResponse.statusCode := 500;
                  ZohoWebhook.HttpResponse.success := Some false;
                  ZohoWebhook.HttpResponse.eventType := None;
                  ZohoWebhook.HttpResponse.error := Some msg |}
           end).
Proof.
  intros e eventType payload w Htruthy event linked reported.
  subst event reported. unfold ZohoWebhook.handler.
  cbn [ZohoWebhook.httpMethod ZohoWebhook.body String.eqb Ascii.eqb Bool.eqb negb].
  steps. rewrite run_try_catch. steps.
  cbn [ZohoWebhook.event_type ZohoWebhook.data]. rewrite Htruthy. steps.
  destruct (String.eqb eventType "invoice_payment_received").
  - rewrite run_bind, handlePaymentReceived_result. fold linked.
    destruct (orders_update_single_returns (ZohoWebhook.orders_update_error e) linked
                (Order.set_status paid (ZohoWebhook.now e)) w) as [resp ->].
    destruct (Response.error resp); steps; reflexivity.
  - destruct (String.eqb eventType "invoice_status_changed").
    + rewrite run_bind.
      pose proof (handleInvoiceStatusChange_run e payload w) as Hrun. cbv zeta in Hrun.
      fold linked in Hrun.
      destruct (orders_update_returns (ZohoWebhook.orders_update_error e) linked
                  (Order.set_status
                     (ZohoWebhook.orderStatus_of (ZohoWebhook.Data.status payload))
                     (ZohoWebhook.now e)) w) as [[[msg|] rows] Hresp];
        rewrite Hresp in Hrun |- *; destruct Hrun as [-> _]; steps; reflexivity.
    + destruct (String.eqb eventType "invoice_created"); steps; reflexivity.
Qed.

Lemma handler_acknowledges_witness :
  result (ZohoWebhook.handler Sample.hook_env Sample.payment_received
            (Sample.store_with pending)) =
    Ret {| ZohoWebhook.HttpResponse.statusCode := 200;
           ZohoWebhook.HttpResponse.success := Some true;
           ZohoWebhook.HttpResponse.eventType := Some "invoice_payment_received";
           ZohoWebhook.HttpResponse.error := None |}.
Proof.
  exact (handler_acknowledges Sample.hook_env "invoice_payment_received"
           Sample.payment_data (Sample.store_with pending) eq_refl).
Defined.

(** A status-changed event with event type and data present is answered
    500 when the datastore refuses the update. *)
Lemma valid_webhook_answered_500 :
  result (ZohoWebhook.handler Sample.hook_env_update_fails (Sample.status_changed "paid")
            (Sample.store_with pending)) =
    Ret {| ZohoWebhook.HttpResponse.statusCode := 500;
           ZohoWebhook.HttpResponse.success := Some false;
           ZohoWebhook.HttpResponse.eventType := None;
           ZohoWebhook.HttpResponse.error := Some "connection lost" |}.
Proof. reflexivity. Qed.

(** C3.  With the datastore answering every statement, a payment-received
    event for an invoice that no order is linked to is not logged, ignored
    and acknowledged: the update through [.single()] rewrites no row and
    reports that as an error, which the handler throws, and the webhook is
    answered 500.  The branch of the handler that logs
    [No order found for invoice] and returns is not reached. *)
Example payment_for_unlinked_invoice :
  let r := ZohoWebhook.handler Sample.hook_env Sample.payment_received Sample.store in
  result r =
    Ret {| ZohoWebhook.HttpResponse.statusCode := 500;
           ZohoWebhook.HttpResponse.success := Some false;
           ZohoWebhook.HttpResponse.eventType := None;
           ZohoWebhook.HttpResponse.error :=
             Some "JSON object requested, multiple (or no) rows returned" |}
  /\ (Level.warning, "No order found for invoice") ∉ console r.
Proof.
  split; [reflexivity|]. vm_compute. intros H.
  repeat (apply elem_of_cons in H as [H|H]; [discriminate|]).
  by apply elem_of_nil in H.
Qed.

(** * Further properties *)

(** ** What a run establishes: rules *)

Lemma post_bind {A B : Type} (m : M A) (k : A -> M B) w (Q : outcome B -> World -> Prop) :
  post m w (fun o w1 => match o with
                        | Ret a => post (k a) w1 Q
                        | Throw e => Q (Throw e) w1
                        end) ->
  post (m ≫= k) w Q.
Proof.
  unfold post, mbind, M_bind. cbv zeta.
  destruct (result (m w)); cbn [says result world]; auto.
Qed.

Lemma post_try_catch {A : Type} (m : M A) (h : Exn -> M A) w
    (Q : outcome A -> World -> Prop) :
  post m w (fun o w1 => match o with
                        | Ret a => Q (Ret a) w1
                        | Throw e => post (h e) w1 Q
                        end) ->
  post (try_catch m h) w Q.
Proof.
  unfold post, try_catch. cbv zeta.
  destruct (result (m w)) eqn:E; cbn [says result world]; [|auto].
  rewrite E. auto.
Qed.

Lemma post_ret {A : Type} (a : A) w (Q : outcome A -> World -> Prop) :
  Q (Ret a) w -> post (mret a) w Q.
Proof. exact id. Qed.

Lemma post_throw {A : Type} e w (Q : outcome A -> World -> Prop) :
  Q (Throw e) w -> post (throw e) w Q.
Proof. exact id. Qed.

Lemma post_log l msg w (Q : outcome unit -> World -> Prop) :
  Q (Ret tt) w -> post (log l msg) w Q.
Proof. exact id. Qed.

Lemma post_modify f w (Q : outcome unit -> World -> Prop) :
  Q (Ret tt) (f w) -> post (modify f) w Q.
Proof. exact id. Qed.

Lemma post_gets {A : Type} (f : World -> A) w (Q : outcome A -> World -> Prop) :
  Q (Ret (f w)) w -> post (gets f) w Q.
Proof. exact id. Qed.

Lemma post_quiet {A : Type} (o : outcome A) w (Q : outcome A -> World -> Prop) :
  Q o w -> post (quiet o) w Q.
Proof. exact id. Qed.

Lemma post_conseq {A : Type} (m : M A) w (Q' Q : outcome A -> World -> Prop) :
  post m w Q' -> (forall o w1, Q' o w1 -> Q o w1) -> post m w Q.
Proof. unfold post. auto. Qed.

(** A statement that keeps [R]: go on from any outcome, in a world related
    to the one before. *)
Lemma post_frame {A : Type} (R : World -> World -> Prop) (m : M A) w
    (Q : outcome A -> World -> Prop) :
  respects R m -> (forall o w1, R w w1 -> Q o w1) -> post m w Q.
Proof. intros Hm HQ. apply HQ, Hm. Qed.

(** A statement whose run is known. *)
Lemma post_run {A : Type} (m : M A) w o (Q : outcome A -> World -> Prop) :
  result (m w) = o -> Q o (world (m w)) -> post m w Q.
Proof. intros <-. exact id. Qed.

(** Breaks the computation of the goal down to its calls. *)
Ltac wp_step :=
  match goal with
  | |- post (mbind _ _) _ _ => apply post_bind
  | |- post (try_catch _ _) _ _ => apply post_try_catch
  | |- post (mret _) _ _ => apply post_ret
  | |- post (throw _) _ _ => apply post_throw
  | |- post (log _ _) _ _ => apply post_log
  | |- post (modify _) _ _ => apply post_modify
  | |- post (gets _) _ _ => apply post_gets
  | |- post (quiet _) _ _ => apply post_quiet
  end.

Ltac wp_simpl :=
  cbv beta iota;
  cbn [default Response.data Response.error fst snd single maybeSingle].

Ltac wp := repeat (wp_simpl; wp_step); wp_simpl.

(** A query of the datastore: its two answers. *)
Lemma post_services_select fault w
    (Q : outcome (Response.t (list ServiceData.t)) -> World -> Prop) :
  (forall msg, fault = Some msg ->
     Q (Ret {| Response.data := None; Response.error := Some msg |}) w) ->
  (fault = None ->
     Q (Ret {| Response.data := Some (services w); Response.error := None |}) w) ->
  post (services_select fault) w Q.
Proof.
  unfold post, services_select. intros H1 H2.
  destruct fault; [apply (H1 _ eq_refl) | apply (H2 eq_refl)].
Qed.

Lemma post_services_eq_id fault ident w
    (Q : outcome (Response.t ServiceData.t) -> World -> Prop) :
  (forall msg, fault = Some msg ->
     Q (Ret {| Response.data := None; Response.error := Some msg |}) w) ->
  (fault = None ->
     Q (Ret (maybeSingle
               (filter (fun s => uuid_eqb (ServiceData.id s) ident) (services w)))) w) ->
  post (services_eq_id fault ident) w Q.
Proof.
  unfold post, services_eq_id. intros H1 H2.
  destruct fault; [apply (H1 _ eq_refl) | apply (H2 eq_refl)].
Qed.

Lemma post_clients_eq_id fault ident w
    (Q : outcome (Response.t Client.t) -> World -> Prop) :
  (forall msg, fault = Some msg ->
     Q (Ret {| Response.data := None; Response.error := Some msg |}) w) ->
  (fault = None ->
     Q (Ret (maybeSingle
               (filter (fun c => uuid_eqb (Client.id c) ident) (clients w)))) w) ->
  post (clients_eq_id fault ident) w Q.
Proof.
  unfold post, clients_eq_id. intros H1 H2.
  destruct fault; [apply (H1 _ eq_refl) | apply (H2 eq_refl)].
Qed.

Ltac wp_query :=
  match goal with
  | |- post (services_select _) _ _ => apply post_services_select; [intros ? ? | intros ?]
  | |- post (services_eq_id _ _) _ _ => apply post_services_eq_id; [intros ? ? | intros ?]
  | |- post (clients_eq_id _ _) _ _ => apply post_clients_eq_id; [intros ? ? | intros ?]
  end.

(** The same, through the case distinctions of the computation. *)
Ltac wp_cases :=
  repeat (wp_simpl;
    first [ wp_step
          | wp_query
          | match goal with
            | |- post (match ?x with _ => _ end) _ _ => destruct x eqn:?
            end ]);
  wp_simpl.

(** ** The alias map and the service cache *)

Lemma insert_all_lookup (keys : list string) (id : string) (m : gmap string string) k v :
  fold_left (fun m k => <[k := id]> m) keys m !! k = Some v ->
  m !! k = Some v \/ (k ∈ keys /\ v = id).
Proof.
  revert m. induction keys as [|k' keys IH]; intros m; cbn [fold_left]; [auto|].
  intros H. apply IH in H as [H | [H ->]].
  - destruct (decide (k' = k)) as [-> | Hne].
    + rewrite lookup_insert_eq in H. injection H as <-. right. split; [left | reflexivity].
    + rewrite lookup_insert_ne in H by done. by left.
  - right. split; [by right | reflexivity].
Qed.

Lemma add_aliases_lookup (m : gmap string string) (s : ServiceData.t) k v :
  ServiceManager.add_aliases m s !! k = Some v ->
  m !! k = Some v \/ (k ∈ aliases /\ v = ServiceData.id s).
Proof.
  unfold ServiceManager.add_aliases. cbv zeta beta.
  assert (Hrule : forall (test : bool) keys (m' : gmap string string),
            keys ⊆ aliases ->
            (m' !! k = Some v -> m !! k = Some v \/ (k ∈ aliases /\ v = ServiceData.id s)) ->
            (if test then fold_left (fun m k => <[k := ServiceData.id s]> m) keys m' else m')
              !! k = Some v ->
            m !! k = Some v \/ (k ∈ aliases /\ v = ServiceData.id s)).
  { intros test keys m' Hsub Hm' H. destruct test; [|auto].
    apply insert_all_lookup in H as [H | [H ->]]; [auto|].
    right. split; [by apply Hsub | reflexivity]. }
  assert (Hsub : forall keys : list string,
            forallb (fun k => bool_decide (k ∈ aliases)) keys = true -> keys ⊆ aliases).
  { intros keys H x Hx. rewrite forallb_forall in H.
    specialize (H x ltac:(by apply list_elem_of_In)). by apply bool_decide_eq_true in H. }
  repeat (apply Hrule; [apply Hsub; reflexivity|]). auto.
Qed.

Lemma fold_add_aliases_lookup (l : list ServiceData.t) (m : gmap string string) k v :
  fold_left ServiceManager.add_aliases l m !! k = Some v ->
  m !! k = Some v \/ (k ∈ aliases /\ exists s, s ∈ l /\ ServiceData.id s = v).
Proof.
  revert m. induction l as [|s l IH]; intros m; cbn [fold_left]; [auto|].
  intros H. apply IH in H as [H | (Hk & s' & Hs' & <-)].
  - apply add_aliases_lookup in H as [H | [Hk ->]]; [auto|].
    right. split; [exact Hk|]. exists s. split; [left | reflexivity].
  - right. split; [exact Hk|]. exists s'. split; [by right | reflexivity].
Qed.

(** What [getAllServices] returns is the table, as the query lists it. *)
Lemma getAllServices_post e w :
  post (ServiceManager.getAllServices e) w
    (fun o w1 => (forall l, o = Ret l -> l = services w) /\ caches_only w w1).
Proof.
  split; [|apply getAllServices_caches].
  change (post (ServiceManager.getAllServices e) w
                      (fun o _ => forall l, o = Ret l -> l = services w)).
  unfold ServiceManager.getAllServices. wp_cases; try discriminate.
  all: intros l [= <-]; reflexivity.
Qed.

(** The run of [getAllServices], by what the two queries answer. *)
Lemma getAllServices_run e w :
  post (ServiceManager.getAllServices e) w
    (fun o w1 =>
       match ServiceManager.services_ordered_error e with
       | None =>
           o = Ret (services w)
           /\ w1 = set_serviceCache
                     (fun c => fold_left (fun c service =>
                                            <[ServiceData.id service := service]> c)
                                 (services w) c) w
       | Some msg =>
           w1 = w
           /\ o = if includes msg "does not exist"
                  then match ServiceManager.services_fallback_error e with
                       | None => Ret (services w)
                       | Some msg2 => Throw (PostgrestError msg2)
                       end
                  else Throw (PostgrestError msg)
       end).
Proof.
  unfold ServiceManager.getAllServices. wp_cases;
    repeat match goal with
           | H : _ = _ |- _ => rewrite H
           end; try discriminate; auto.
Qed.

(** A call whose run is left as it is: go on from its outcome and its world. *)
Ltac wp_call :=
  match goal with
  | |- post ?m ?w _ =>
      apply (post_run m w _ _ eq_refl); destruct (result (m w)) eqn:?; wp_simpl
  end.

Lemma createServiceMapping_run e w :
  post (ServiceManager.createServiceMapping e) w
    (fun o w1 =>
       match serviceMappingCache w with
       | Some m => o = Ret m /\ w1 = w
       | None =>
           let r := ServiceManager.getAllServices e w in
           match result r with
           | Ret l =>
               o = Ret (fold_left ServiceManager.add_aliases l ∅)
               /\ w1 = set_serviceMappingCache
                         (Some (fold_left ServiceManager.add_aliases l ∅)) (world r)
           | Throw _ => o = Ret ∅ /\ w1 = world r
           end
       end).
Proof.
  unfold ServiceManager.createServiceMapping. wp.
  destruct (serviceMappingCache w) as [m|]; wp; [auto|].
  wp_call; wp; auto.
Qed.

(** X1.  The alias map is computed once.  A call that finds no cached map
    and whose query of the services succeeds builds the map from the rows
    and caches it; from then on every call returns that map without
    consulting the datastore, whatever the table has become and whatever
    the datastore would answer, until the cache is cleared.  A call whose
    query fails returns the empty map and caches nothing. *)
Theorem createServiceMapping_computed_once :
  forall (e : ServiceManager.Env) (w : World),
    serviceMappingCache w = None ->
    let first := ServiceManager.createServiceMapping e w in
    (forall l, result (ServiceManager.getAllServices e w) = Ret l ->
       result first = Ret (fold_left ServiceManager.add_aliases (services w) ∅)
       /\ forall e' w',
            serviceMappingCache w' = serviceMappingCache (world first) ->
            result (ServiceManager.createServiceMapping e' w') = result first
            /\ world (ServiceManager.createServiceMapping e' w') = w')
    /\ (forall err, result (ServiceManager.getAllServices e w) = Throw err ->
          result first = Ret ∅ /\ serviceMappingCache (world first) = None)
    /\ serviceMappingCache
         (world (ServiceManager.clearCache (world first))) = None.
Proof.
  intros e w Hnone first.
  pose proof (createServiceMapping_run e w) as H1. unfold post in H1. fold first in H1.
  rewrite Hnone in H1. cbv zeta in H1.
  split; [|split].
  - intros l Hl. rewrite Hl in H1. destruct H1 as [Hr Hw].
    pose proof (getAllServices_post e w) as [Hall _]. apply Hall in Hl as ->.
    split; [exact Hr|]. intros e' w' Hcache.
    pose proof (createServiceMapping_run e' w') as H2. unfold post in H2.
    rewrite Hcache, Hw in H2. cbn [serviceMappingCache set_serviceMappingCache] in H2.
    destruct H2 as [-> ->]. by rewrite Hr.
  - intros err Herr. rewrite Herr in H1. destruct H1 as [Hr Hw].
    split; [exact Hr|]. rewrite Hw.
    pose proof (getAllServices_run e w) as Hrun. unfold post in Hrun.
    destruct (ServiceManager.services_ordered_error e).
    + destruct Hrun as [-> _]. exact Hnone.
    + destruct Hrun as [Hres _]. congruence.
  - reflexivity.
Qed.

Lemma createServiceMapping_computed_once_witness :
  let first := ServiceManager.createServiceMapping Sample.services_ok Sample.store in
  result first = Ret (fold_left ServiceManager.add_aliases (services Sample.store) ∅)
  /\ result (ServiceManager.createServiceMapping Sample.services_ok
               (set_serviceMappingCache (serviceMappingCache (world first)) Sample.store))
       = result first.
Proof.
  destruct (createServiceMapping_computed_once Sample.services_ok Sample.store eq_refl)
    as (H & _).
  destruct (H (services Sample.store) eq_refl) as [H1 H2].
  split; [exact H1|].
  apply (H2 Sample.services_ok). reflexivity.
Defined.

(** The resolution of an identifier that has not the UUID shape: the read
    of the alias map. *)
Lemma resolveServiceId_alias_run e ident w :
  ServiceManager.uuidRegex_test ident = false ->
  post (ServiceManager.resolveServiceId e ident) w
    (fun o w1 =>
       let rm := ServiceManager.createServiceMapping e w in
       exists mapping,
         result rm = Ret mapping /\ w1 = world rm
         /\ o = Ret match Js.get mapping ident with
                    | Own id => if truthy_string id
                                then Some (ServiceManager.IdString id) else None
                    | Inherited k => Some (ServiceManager.IdInherited k)
                    | Undefined => None
                    end).
Proof.
  intros Hre. unfold ServiceManager.resolveServiceId. rewrite Hre. wp.
  pose proof (createServiceMapping_run e w) as Hrun. unfold post in Hrun.
  wp_call.
  - wp_cases; eexists; (split; [reflexivity|]); split; try reflexivity;
      repeat match goal with H : _ = _ |- _ => rewrite H end; reflexivity.
  - exfalso. destruct (serviceMappingCache w); [by destruct Hrun|].
    cbv zeta in Hrun.
    destruct (result (ServiceManager.getAllServices e w)); by destruct Hrun.
Qed.

(** X2.  Which identifiers resolve through the alias map.  With no map
    cached, an identifier that has not the UUID shape resolves to an id only
    if it is one of the twenty-four aliases, and the id is then the id of a
    row of the services table; an identifier that is neither an alias nor
    the name of a member of [Object.prototype] is not found. *)
Theorem resolveServiceId_alias_in_catalog :
  forall (e : ServiceManager.Env) (w : World) (ident : string),
    ServiceManager.uuidRegex_test ident = false ->
    serviceMappingCache w = None ->
    let r := ServiceManager.resolveServiceId e ident w in
    (forall id, result r = Ret (Some (ServiceManager.IdString id)) ->
       ident ∈ aliases /\ exists s, s ∈ services w /\ ServiceData.id s = id)
    /\ (forall k, result r = Ret (Some (ServiceManager.IdInherited k)) ->
          k = ident /\ ident ∈ object_prototype_keys)
    /\ (ident ∉ aliases -> ident ∉ object_prototype_keys -> result r = Ret None).
Proof.
  intros e w ident Hre Hnone r.
  pose proof (resolveServiceId_alias_run e ident w Hre) as (mapping & Hm & _ & Hr).
  fold r in Hr.
  pose proof (createServiceMapping_run e w) as Hrun. unfold post in Hrun.
  rewrite Hnone, Hm in Hrun. cbv zeta in Hrun.
  assert (Hkeys : forall v, mapping !! ident = Some v ->
            ident ∈ aliases /\ exists s, s ∈ services w /\ ServiceData.id s = v).
  { intros v Hv.
    pose proof (getAllServices_post e w) as [Hall _].
    destruct (result (ServiceManager.getAllServices e w)) as [l|err] eqn:El.
    - destruct Hrun as [[= ->] _]. rewrite (Hall l eq_refl) in Hv.
      apply fold_add_aliases_lookup in Hv as [Hv | Hv]; [|exact Hv].
      by rewrite lookup_empty in Hv.
    - destruct Hrun as [[= ->] _]. by rewrite lookup_empty in Hv. }
  unfold Js.get in Hr.
  split; [|split].
  - intros id. rewrite Hr. destruct (mapping !! ident) as [v|] eqn:Ev.
    + destruct (truthy_string v); [|discriminate]. intros [= <-]. by apply Hkeys.
    + case_bool_decide; discriminate.
  - intros k. rewrite Hr. destruct (mapping !! ident) as [v|] eqn:Ev.
    + destruct (truthy_string v); discriminate.
    + case_bool_decide; [|discriminate]. intros [= <-]. auto.
  - intros Ha Hp. rewrite Hr. destruct (mapping !! ident) as [v|] eqn:Ev.
    + destruct (Hkeys v eq_refl) as [Hin _]. contradiction.
    + by rewrite bool_decide_eq_false_2.
Qed.

Lemma resolveServiceId_alias_in_catalog_witness :
  "ssl-setup" ∈ aliases
  /\ exists s, s ∈ services Sample.store /\ ServiceData.id s = Sample.ssl_id.
Proof.
  destruct (resolveServiceId_alias_in_catalog Sample.services_ok Sample.store "ssl-setup"
              eq_refl eq_refl) as (H & _).
  apply H. vm_compute. reflexivity.
Defined.

(** The run of [getServiceById], by the shape of the id, the cache and the
    answer of the query. *)
Lemma getServiceById_run e sid w :
  post (ServiceManager.getServiceById e sid) w
    (fun o w1 =>
       match sid with
       | ServiceManager.IdInherited _ => o = Ret None /\ w1 = w
       | ServiceManager.IdString id =>
           if negb (ServiceManager.uuidRegex_test id) then o = Ret None /\ w1 = w
           else
             match serviceCache w !! id with
             | Some service => o = Ret (Some service) /\ w1 = w
             | None =>
                 match ServiceManager.services_star_error e with
                 | Some msg => o = Throw (PostgrestError msg) /\ w1 = w
                 | None =>
                     match filter (fun s => uuid_eqb (ServiceData.id s) id) (services w) with
                     | [] => o = Ret None /\ w1 = w
                     | [service] =>
                         o = Ret (Some service)
                         /\ w1 = set_serviceCache (fun c => <[id := service]> c) w
                     | _ => exists msg, o = Throw (PostgrestError msg) /\ w1 = w
                     end
                 end
             end
       end).
Proof.
  unfold ServiceManager.getServiceById. wp.
  destruct sid as [id | k]; wp; [|auto].
  destruct (negb (ServiceManager.uuidRegex_test id)); wp; [auto|].
  destruct (serviceCache w !! id) as [service|]; wp; [auto|].
  wp_query; wp; [by rewrite H|]. rewrite H.
  destruct (filter _ (services w)) as [|service [|service' l]]; wp; eauto.
Qed.

(** X3.  The service cache.  A service that [getServiceById] has returned
    is returned again by every later call for the same id, from the cache
    and without a query: whatever the datastore would answer, and whether
    or not the row is still in the table.  Only an id of the UUID shape is
    ever returned a service. *)
Theorem getServiceById_serves_from_cache :
  forall (e : ServiceManager.Env) (sid : ServiceManager.IdRef) (w : World)
         (service : ServiceData.t),
    let first := ServiceManager.getServiceById e sid w in
    result first = Ret (Some service) ->
    (exists id, sid = ServiceManager.IdString id /\ ServiceManager.uuidRegex_test id = true)
    /\ forall e' w',
         serviceCache w' = serviceCache (world first) ->
         result (ServiceManager.getServiceById e' sid w') = Ret (Some service)
         /\ world (ServiceManager.getServiceById e' sid w') = w'.
Proof.
  intros e sid w service first Hfirst.
  pose proof (getServiceById_run e sid w) as H1. unfold post in H1. fold first in H1.
  destruct sid as [id | k]; [|destruct H1; congruence].
  destruct (ServiceManager.uuidRegex_test id) eqn:Hre; cbn [negb] in H1;
    [|destruct H1; congruence].
  split; [by exists id|]. intros e' w' Hcache.
  assert (Hhit : serviceCache (world first) !! id = Some service).
  { destruct (serviceCache w !! id) as [s0|] eqn:Ec.
    - destruct H1 as [Hr ->]. rewrite Hfirst in Hr. by injection Hr as ->.
    - destruct (ServiceManager.services_star_error e); [destruct H1; congruence|].
      destruct (filter _ (services w)) as [|s0 [|s1 l]].
      + destruct H1; congruence.
      + destruct H1 as [Hr ->]. rewrite Hfirst in Hr. injection Hr as ->.
        cbn [serviceCache set_serviceCache]. apply lookup_insert_eq.
      + destruct H1 as (msg & ? & _); congruence. }
  pose proof (getServiceById_run e' (ServiceManager.IdString id) w') as H2.
  unfold post in H2. rewrite Hre, Hcache, Hhit in H2. exact H2.
Qed.

Lemma getServiceById_serves_from_cache_witness :
  let first := ServiceManager.getServiceById Sample.services_ok
                 (ServiceManager.IdString Sample.ssl_id) Sample.store in
  let broken :=
    {| ServiceManager.services_eq_id_error := Some "connection lost";
       ServiceManager.services_star_error := Some "connection lost";
       ServiceManager.services_ordered_error := Some "connection lost";
       ServiceManager.services_fallback_error := Some "connection lost" |} in
  result (ServiceManager.getServiceById broken (ServiceManager.IdString Sample.ssl_id)
            (world first)) = Ret (Some Sample.ssl).
Proof.
  intros first broken.
  destruct (getServiceById_serves_from_cache Sample.services_ok
              (ServiceManager.IdString Sample.ssl_id) Sample.store Sample.ssl)
    as [_ H]; [vm_compute; reflexivity|].
  apply (H broken). reflexivity.
Defined.

Lemma fold_insert_lookup_ne (l : list ServiceData.t) (c : gmap string ServiceData.t) k :
  k ∉ map ServiceData.id l ->
  fold_left (fun c service => <[ServiceData.id service := service]> c) l c !! k = c !! k.
Proof.
  revert c. induction l as [|x l IH]; intros c Hk; cbn [fold_left]; [reflexivity|].
  cbn [map] in Hk. apply not_elem_of_cons in Hk as [Hne Hk].
  rewrite IH by exact Hk. by apply lookup_insert_ne.
Qed.

Lemma fold_insert_lookup (l : list ServiceData.t) (c : gmap string ServiceData.t) s :
  NoDup (map ServiceData.id l) -> s ∈ l ->
  fold_left (fun c service => <[ServiceData.id service := service]> c) l c
    !! ServiceData.id s = Some s.
Proof.
  revert c. induction l as [|x l IH]; intros c Hnd Hs; [by apply elem_of_nil in Hs|].
  cbn [map] in Hnd. apply NoDup_cons in Hnd as [Hx Hnd]. cbn [fold_left].
  apply elem_of_cons in Hs as [-> | Hs].
  - rewrite fold_insert_lookup_ne by exact Hx. apply lookup_insert_eq.
  - by apply IH.
Qed.

Lemma services_pkey_ids w : services_pkey w -> NoDup (map ServiceData.id (services w)).
Proof.
  unfold services_pkey. intros H.
  apply (NoDup_fmap_1 toLowerCase).
  by rewrite <- list_fmap_compose.
Qed.

(** X4.  Listing the services fills the cache.  When the ordered query
    answers, [getAllServices] returns the rows of the table and leaves
    every one of them in the cache under its id, so that [getServiceById]
    then serves any of them that has an id of the UUID shape without a
    query.  When the ordered query fails, nothing is cached, also when the
    fallback query answers. *)
Theorem getAllServices_fills_cache :
  forall (e : ServiceManager.Env) (w : World),
    services_pkey w ->
    let r := ServiceManager.getAllServices e w in
    (ServiceManager.services_ordered_error e = None ->
       result r = Ret (services w)
       /\ forall s, s ∈ services w ->
            serviceCache (world r) !! ServiceData.id s = Some s
            /\ (ServiceManager.uuidRegex_test (ServiceData.id s) = true ->
                forall e', result (ServiceManager.getServiceById e'
                                     (ServiceManager.IdString (ServiceData.id s)) (world r))
                           = Ret (Some s)))
    /\ (forall msg, ServiceManager.services_ordered_error e = Some msg -> world r = w).
Proof.
  intros e w Hpk r.
  pose proof (getAllServices_run e w) as Hrun. unfold post in Hrun. fold r in Hrun.
  split.
  - intros Hok. rewrite Hok in Hrun. destruct Hrun as [Hr Hw].
    split; [exact Hr|]. intros s Hs.
    assert (Hhit : serviceCache (world r) !! ServiceData.id s = Some s).
    { rewrite Hw. cbn [serviceCache set_serviceCache].
      apply fold_insert_lookup; [by apply services_pkey_ids | exact Hs]. }
    split; [exact Hhit|]. intros Hre e'.
    pose proof (getServiceById_run e' (ServiceManager.IdString (ServiceData.id s)) (world r))
      as H2.
    unfold post in H2. rewrite Hre, Hhit in H2. apply H2.
  - intros msg Hmsg. rewrite Hmsg in Hrun. apply Hrun.
Qed.

Lemma getAllServices_fills_cache_witness :
  let r := ServiceManager.getAllServices Sample.services_ok Sample.store in
  serviceCache (world r) !! Sample.ssl_id = Some Sample.ssl.
Proof.
  assert (Hpk : services_pkey Sample.store) by (unfold services_pkey; compute_done).
  destruct (getAllServices_fills_cache Sample.services_ok Sample.store Hpk) as [H _].
  destruct (H eq_refl) as [_ H'].
  apply (H' Sample.ssl). vm_compute. left.
Defined.

(** ** Payment intents: failures, the audit trail and the order left behind *)

Lemma post_logPaymentAttempt e txn oid action ok msg w (Q : outcome unit -> World -> Prop) :
  Q (Ret tt)
    (if PaymentService.audit_insert_fails e then w
     else set_purchase_audit_log (fun l => l ++
            [ {| Audit.client_id :=
                   PaymentService.User.id <$> PaymentService.user (PaymentService.auth_getUser e);
                 Audit.action := action;
                 Audit.transaction_id := txn;
                 Audit.order_id := oid;
                 Audit.success := ok;
                 Audit.error_message := msg |} ]) w) ->
  post (PaymentService.logPaymentAttempt e txn oid action ok msg) w Q.
Proof.
  unfold post, PaymentService.logPaymentAttempt.
  by destruct (PaymentService.audit_insert_fails e).
Qed.

Lemma post_orders_insert fault row w (Q : outcome (Response.t Order.t) -> World -> Prop) :
  (forall msg, fault = Some msg ->
     Q (Ret {| Response.data := None; Response.error := Some msg |}) w) ->
  (forall msg, fault = None ->
     validate_order_data w (row (fresh_order_id w)) = RAISE_EXCEPTION msg ->
     Q (Ret {| Response.data := None; Response.error := Some msg |}) w) ->
  (forall r, fault = None ->
     validate_order_data w (row (fresh_order_id w)) = RETURN_NEW r ->
     Q (Ret (single [r])) (set_orders (fun os => os ++ [r]) w)) ->
  post (orders_insert fault row) w Q.
Proof.
  unfold post, orders_insert. intros H1 H2 H3.
  destruct fault; [apply (H1 _ eq_refl)|].
  destruct (validate_order_data w (row (fresh_order_id w))) eqn:E;
    [apply (H3 _ eq_refl eq_refl) | apply (H2 _ eq_refl eq_refl)].
Qed.

Lemma post_orders_update fault (p : Order.t -> bool) f w
    (Q : outcome (option string * list Order.t) -> World -> Prop) :
  (forall msg, fault = Some msg -> Q (Ret (Some msg, [])) w) ->
  (forall msg, fault = None ->
     first_exception w (map f (filter (fun o => p o) (orders w))) = Some msg ->
     Q (Ret (Some msg, [])) w) ->
  (fault = None ->
     first_exception w (map f (filter (fun o => p o) (orders w))) = None ->
     Q (Ret (None, map f (filter (fun o => p o) (orders w))))
       (set_orders (map (fun o => if p o then f o else o)) w)) ->
  post (orders_update fault p f) w Q.
Proof.
  unfold post, orders_update. intros H1 H2 H3.
  destruct fault; [apply (H1 _ eq_refl)|].
  destruct (first_exception w _) eqn:E;
    [apply (H2 _ eq_refl eq_refl) | apply (H3 eq_refl eq_refl)].
Qed.

Lemma post_calculateCurrencyAmounts e amount currency w
    (Q : outcome PaymentService.Amounts -> World -> Prop) :
  (forall amounts,
     result (PaymentService.calculateCurrencyAmounts e amount currency w) = Ret amounts ->
     Q (Ret amounts) w) ->
  post (PaymentService.calculateCurrencyAmounts e amount currency) w Q.
Proof.
  intros H. unfold post. rewrite calculate_world.
  assert (Hret : exists a,
            result (PaymentService.calculateCurrencyAmounts e amount currency w) = Ret a).
  { unfold PaymentService.calculateCurrencyAmounts.
    apply try_catch_returns. intros err w'. eexists. reflexivity. }
  destruct Hret as [a Ha]. rewrite Ha. by apply H.
Qed.

(** The run of [createZohoInvoice]: the request is recorded as sent, and
    the outcome is read off the answer. *)
Lemma createZohoInvoice_run e order service client quantity txn w :
  post (PaymentService.createZohoInvoice e order service client quantity txn) w
    (fun o w1 =>
       w1 = set_zoho_requests
              (fun l => l ++ [PaymentService.requestBody order service client quantity txn]) w
       /\ match PaymentService.fetch_zoho_integration e
                  (PaymentService.requestBody order service client quantity txn) with
          | PaymentService.Json (PaymentService.Success invoice contact_id) =>
              o = Ret (PaymentService.intent_of invoice contact_id txn)
          | _ => exists err, o = Throw err
          end).
Proof.
  unfold PaymentService.createZohoInvoice. wp.
  destruct (PaymentService.fetch_zoho_integration e _) as [msg | st text | [inv c | err]];
    wp; eauto.
Qed.



(** An identifier called [constructor] is resolved to the function
    [Object] that the alias object inherits, and the text of that function
    is the id of the message. *)
Example createPaymentIntent_inherited_identifier :
  result (PaymentService.createPaymentIntent Sample.env "constructor" "basic" 7 "USD" 1
            Sample.store)
  = Throw (Error "Service data not found for ID: function Object() { [native code] }").
Proof. vm_compute. reflexivity. Qed.

(** *** Frames of the steps of a purchase *)

Lemma keeps_refl {A : Type} (f : World -> A) w : keeps f w w.
Proof. reflexivity. Qed.

Lemma keeps_trans {A : Type} (f : World -> A) w1 w2 w3 :
  keeps f w1 w2 -> keeps f w2 w3 -> keeps f w1 w3.
Proof. unfold keeps. congruence. Qed.

Lemma respects_weaken {A : Type} (R R' : World -> World -> Prop) (m : M A) :
  (forall w w', R w w' -> R' w w') -> respects R m -> respects R' m.
Proof. intros H Hm w. apply H, Hm. Qed.

Lemma caches_only_purchase_frame w w' : caches_only w w' -> purchase_frame w w'.
Proof. unfold caches_only, purchase_frame. tauto. Qed.

(** The steps of a purchase, one call at a time. *)
Ltac purchase_call :=
  match goal with
  | |- post (ServiceManager.resolveServiceId _ _) _ _ =>
      eapply (post_frame purchase_frame);
        [ eapply respects_weaken;
            [apply caches_only_purchase_frame | apply resolveServiceId_caches]
        | intros [?|?] ? ? ]
  | |- post (ServiceManager.getServiceById _ _) _ _ =>
      eapply (post_frame purchase_frame);
        [ eapply respects_weaken;
            [apply caches_only_purchase_frame | apply getServiceById_caches]
        | intros [?|?] ? ? ]
  | |- post (PaymentService.calculateCurrencyAmounts _ _ _) _ _ =>
      apply post_calculateCurrencyAmounts; intros ? ?
  | |- post (orders_insert _ _) _ _ =>
      apply post_orders_insert; [intros ? ? | intros ? ? ? | intros ? ? ?]
  | |- post (PaymentService.createZohoInvoice _ _ _ _ _ _) _ _ =>
      eapply post_conseq; [apply createZohoInvoice_run | intros [?|?] ? [? ?]]
  | |- post (orders_update _ _ _) _ _ =>
      apply post_orders_update; [intros ? ? | intros ? ? ? | intros ? ?]
  | |- post (PaymentService.logPaymentAttempt _ _ _ _ _ _) _ _ =>
      apply post_logPaymentAttempt
  end.

Ltac purchase_walk :=
  repeat (wp_simpl;
    first [ wp_step
          | wp_query
          | purchase_call
          | match goal with
            | |- post (match ?x with _ => _ end) _ _ => destruct x eqn:?
            end ]);
  wp_simpl.

(** Reads the tables of the worlds that the steps left. *)
Ltac purchase_worlds :=
  unfold purchase_frame in *;
  repeat match goal with
         | H : _ /\ _ |- _ => destruct H
         end;
  subst;
  cbn [orders zoho_requests purchase_audit_log services clients
       set_orders set_zoho_requests set_purchase_audit_log] in *.

(** X6.  The audit trail of purchases.  Every call of
    [createPaymentIntent] ends with exactly one new row in the audit log,
    as long as the insert of that row works: a row of action
    [payment_intent_created] marked as a success when the call returns, a
    row of action [payment_intent_failed] marked as a failure when it
    throws, whatever the step that failed.  The row carries the transaction
    id of the call and the id of the user, if there is one.  When the
    insert of the row fails, the log is as before and the outcome of the
    call is not affected. *)
Theorem createPaymentIntent_audit_trail :
  forall (e : PaymentService.Env) (serviceIdentifier packageType : string)
         (totalPrice : Q) (currency : string) (quantity : Z) (w : World),
    let r := PaymentService.createPaymentIntent e serviceIdentifier packageType
               totalPrice currency quantity w in
    (PaymentService.audit_insert_fails e = true ->
       purchase_audit_log (world r) = purchase_audit_log w)
    /\ (PaymentService.audit_insert_fails e = false ->
          exists row,
            purchase_audit_log (world r) = purchase_audit_log w ++ [row]
            /\ Audit.transaction_id row = PaymentService.transactionId e
            /\ Audit.client_id row =
                 PaymentService.User.id <$> PaymentService.user (PaymentService.auth_getUser e)
            /\ match result r with
               | Ret _ =>
                   Audit.success row = true
                   /\ Audit.action row = "payment_intent_created"
                   /\ Audit.error_message row = None
               | Throw _ =>
                   Audit.success row = false
                   /\ Audit.action row = "payment_intent_failed"
                   /\ Audit.order_id row = None
               end).
Proof.
  intros e serviceIdentifier packageType totalPrice currency quantity w r.
  set (Q := fun (o : outcome PaymentService.PaymentIntent.t) (w1 : World) =>
    (PaymentService.audit_insert_fails e = true ->
       purchase_audit_log w1 = purchase_audit_log w)
    /\ (PaymentService.audit_insert_fails e = false ->
          exists row,
            purchase_audit_log w1 = purchase_audit_log w ++ [row]
            /\ Audit.transaction_id row = PaymentService.transactionId e
            /\ Audit.client_id row =
                 PaymentService.User.id <$> PaymentService.user (PaymentService.auth_getUser e)
            /\ match o with
               | Ret _ =>
                   Audit.success row = true
                   /\ Audit.action row = "payment_intent_created"
                   /\ Audit.error_message row = None
               | Throw _ =>
                   Audit.success row = false
                   /\ Audit.action row = "payment_intent_failed"
                   /\ Audit.order_id row = None
               end)).
  change (post (PaymentService.createPaymentIntent e serviceIdentifier packageType
                  totalPrice currency quantity) w Q).
  unfold PaymentService.createPaymentIntent. apply post_try_catch.
  eapply (post_conseq _ _
            (fun o w1 => match o with
                         | Ret _ => Q o w1
                         | Throw _ => purchase_audit_log w1 = purchase_audit_log w
                         end)).
  - purchase_walk; purchase_worlds; try congruence.
    all: subst Q; cbv beta; split; intros Hf; rewrite Hf; cbv iota;
      cbn [purchase_audit_log set_purchase_audit_log set_orders set_zoho_requests];
      [congruence|].
    all: eexists; split;
      [ match goal with
        | |- purchase_audit_log ?x ++ _ = _ =>
            replace (purchase_audit_log x) with (purchase_audit_log w) by congruence
        end; reflexivity
      | repeat match goal with
               | H : PaymentService.user _ = _ |- _ => rewrite H
               end; cbn; auto ].
  - intros [a|err] w1 H; [exact H|]. wp. apply post_logPaymentAttempt. wp.
    subst Q. cbv beta. split; intros Hf; rewrite Hf; cbv iota;
      cbn [purchase_audit_log set_purchase_audit_log]; [congruence|].
    eexists. split; [rewrite H; reflexivity|]. cbn. auto.
Qed.

(** X7.  No purchase without a verified user.  When the auth service
    reports an error or no user, the call throws the authentication error;
    when the user's email is not confirmed, it throws the verification
    error.  In both cases nothing but the audit log has changed: no service
    was resolved or cached, no order created, no invoice asked for. *)
Theorem createPaymentIntent_unauthenticated :
  forall (e : PaymentService.Env) (serviceIdentifier packageType : string)
         (totalPrice : Q) (currency : string) (quantity : Z) (w : World),
    let r := PaymentService.createPaymentIntent e serviceIdentifier packageType
               totalPrice currency quantity w in
    (PaymentService.userError (PaymentService.auth_getUser e) <> None
     \/ PaymentService.user (PaymentService.auth_getUser e) = None ->
       result r = Throw PaymentService.AuthenticationRequired /\ audit_only w (world r))
    /\ (forall u,
          PaymentService.userError (PaymentService.auth_getUser e) = None ->
          PaymentService.user (PaymentService.auth_getUser e) = Some u ->
          (forall ts, PaymentService.User.email_confirmed_at u = Some ts ->
                      truthy_string ts = false) ->
          result r = Throw PaymentService.EmailNotVerified /\ audit_only w (world r)).
Proof.
  intros e serviceIdentifier packageType totalPrice currency quantity w r.
  assert (Haudit : forall (a : Audit.t) (b : bool),
            audit_only w (if b then w else set_purchase_audit_log (fun l => l ++ [a]) w)).
  { intros a []; repeat split; reflexivity. }
  split.
  - intros Hno.
    change (post (PaymentService.createPaymentIntent e serviceIdentifier packageType
                    totalPrice currency quantity) w
              (fun o w1 => o = Throw PaymentService.AuthenticationRequired
                           /\ audit_only w w1)).
    unfold PaymentService.createPaymentIntent. wp.
    destruct (PaymentService.userError (PaymentService.auth_getUser e)) as [uerr|]; wp.
    + apply post_logPaymentAttempt. wp. split; [reflexivity | apply Haudit].
    + destruct (PaymentService.user (PaymentService.auth_getUser e)) as [u|];
        [exfalso; by destruct Hno|]. wp.
      apply post_logPaymentAttempt. wp. split; [reflexivity | apply Haudit].
  - intros u Herr Hu Hconf.
    change (post (PaymentService.createPaymentIntent e serviceIdentifier packageType
                    totalPrice currency quantity) w
              (fun o w1 => o = Throw PaymentService.EmailNotVerified /\ audit_only w w1)).
    unfold PaymentService.createPaymentIntent. wp. rewrite Herr, Hu. wp.
    destruct (PaymentService.User.email_confirmed_at u) as [ts|]; wp.
    + rewrite (Hconf ts eq_refl). wp.
      apply post_logPaymentAttempt. wp. split; [reflexivity | apply Haudit].
    + apply post_logPaymentAttempt. wp. split; [reflexivity | apply Haudit].
Qed.

(** X8.  A failed purchase is not rolled back.  When [createPaymentIntent]
    throws, either the order table and the requests sent to the invoicing
    function are as before, or the call had already inserted its order and
    sent its request when it failed: the order stays in the table, pending
    and without an invoice, and the invoicing function did not answer with
    an invoice. *)
Theorem createPaymentIntent_failure_keeps_order :
  forall (e : PaymentService.Env) (serviceIdentifier packageType : string)
         (totalPrice : Q) (currency : string) (quantity : Z) (w : World) (err : Exn),
    let r := PaymentService.createPaymentIntent e serviceIdentifier packageType
               totalPrice currency quantity w in
    result r = Throw err ->
    (orders (world r) = orders w /\ zoho_requests (world r) = zoho_requests w)
    \/ (exists order request,
          orders (world r) = orders w ++ [order]
          /\ Order.status order = pending
          /\ Order.zoho_invoice_id order = None
          /\ Order.package_type order = packageType
          /\ zoho_requests (world r) = zoho_requests w ++ [request]
          /\ forall invoice contact_id,
               PaymentService.fetch_zoho_integration e request
                 <> PaymentService.Json (PaymentService.Success invoice contact_id)).
Proof.
  intros e serviceIdentifier packageType totalPrice currency quantity w err r.
  set (D := fun w1 : World =>
    (orders w1 = orders w /\ zoho_requests w1 = zoho_requests w)
    \/ (exists order request,
          orders w1 = orders w ++ [order]
          /\ Order.status order = pending
          /\ Order.zoho_invoice_id order = None
          /\ Order.package_type order = packageType
          /\ zoho_requests w1 = zoho_requests w ++ [request]
          /\ forall invoice contact_id,
               PaymentService.fetch_zoho_integration e request
                 <> PaymentService.Json (PaymentService.Success invoice contact_id))).
  revert err.
  change (post (PaymentService.createPaymentIntent e serviceIdentifier packageType
                  totalPrice currency quantity) w
            (fun o w1 => forall err, o = Throw err -> D w1)).
  unfold PaymentService.createPaymentIntent. apply post_try_catch.
  eapply (post_conseq _ _
            (fun o w1 => match o with Ret _ => True | Throw _ => D w1 end)).
  - purchase_walk; try exact I; purchase_worlds.
    all: try (left; split; congruence).
    right.
    match goal with
    | Hval : validate_order_data _ _ = RETURN_NEW ?r0 |- _ =>
        apply validate_order_data_accepts in Hval as [-> _]
    end.
    cbn [orders zoho_requests set_orders set_zoho_requests].
    match goal with
    | |- context [orders ?x ++ _] =>
        replace (orders x) with (orders w) by congruence
    end.
    match goal with
    | |- context [zoho_requests ?x ++ _] =>
        replace (zoho_requests x) with (zoho_requests w) by congruence
    end.
    eexists _, _. repeat (split; [reflexivity|]).
    intros invoice contact_id Hfetch.
    match goal with
    | H : match PaymentService.fetch_zoho_integration _ _ with _ => _ end |- _ =>
        rewrite Hfetch in H; discriminate
    end.
  - intros [a|err] w1 H; [discriminate|]. wp. apply post_logPaymentAttempt. wp.
    intros err' _.
    destruct H as [[H1 H2] | (order & request & H1 & H2 & H3 & H4 & H5 & H6)].
    + left. by destruct (PaymentService.audit_insert_fails e).
    + right. exists order, request.
      by destruct (PaymentService.audit_insert_fails e).
Qed.

Lemma createPaymentIntent_failure_keeps_order_witness :
  let r := PaymentService.createPaymentIntent Scenario.env_zoho_down Sample.ssl_id
             "standard" 10 "USD" 1 Sample.store in
  exists order,
    orders (world r) = orders Sample.store ++ [order] /\ Order.status order = pending.
Proof.
  destruct (createPaymentIntent_failure_keeps_order Scenario.env_zoho_down Sample.ssl_id
              "standard" 10 "USD" 1 Sample.store
              (Error "Zoho integration failed: 502 - Bad Gateway"))
    as [[_ H] | (order & request & H1 & H2 & _)].
  - vm_compute. reflexivity.
  - vm_compute in H. discriminate.
  - exists order. split; [exact H1 | exact H2].
Defined.

(** ** Packages without a price (C4) *)






(** ** Synchronising an order with its invoice *)

Lemma post_orders_eq_id fault orderId w
    (Q : outcome (Response.t Order.t) -> World -> Prop) :
  (forall msg, fault = Some msg ->
     Q (Ret {| Response.data := None; Response.error := Some msg |}) w) ->
  (fault = None ->
     Q (Ret (single (filter (fun o => Nat.eqb (Order.id o) orderId) (orders w)))) w) ->
  post (OrderSync.orders_eq_id fault orderId) w Q.
Proof.
  unfold post, OrderSync.orders_eq_id. intros H1 H2.
  destruct fault; [apply (H1 _ eq_refl) | apply (H2 eq_refl)].
Qed.

Ltac sync_walk :=
  repeat (wp_simpl;
    first [ wp_step
          | match goal with
            | |- post (OrderSync.orders_eq_id _ _) _ _ =>
                apply post_orders_eq_id; [intros ? ? | intros ?]
            | |- post (orders_update _ _ _) _ _ =>
                apply post_orders_update; [intros ? ? | intros ? ? ? | intros ? ?]
            | |- post (match ?x with _ => _ end) _ _ => destruct x eqn:?
            end ]);
  wp_simpl.

(** X9.  What [syncOrderStatus] may do.  It never throws.  It leaves every
    table but [orders] as it was, and the order table either as it was or
    with the status of the rows of the given id rewritten, to paid or to
    pending: never to cancelled, and whatever the status was. *)
Theorem syncOrderStatus_frame :
  forall (e : OrderSync.Env) (orderId : nat) (w : World),
    let r := OrderSync.syncOrderStatus e orderId w in
    result r = Ret tt
    /\ services (world r) = services w /\ clients (world r) = clients w
    /\ invoices (world r) = invoices w /\ notifications (world r) = notifications w
    /\ purchase_audit_log (world r) = purchase_audit_log w
    /\ (orders (world r) = orders w
        \/ exists st, (st = paid \/ st = pending)
             /\ orders (world r) =
                  map (fun o => if Nat.eqb (Order.id o) orderId
                                then Order.set_status st (OrderSync.now e) o else o)
                      (orders w)).
Proof.
  intros e orderId w r.
  change (post (OrderSync.syncOrderStatus e orderId) w
    (fun o w1 =>
       o = Ret tt
       /\ services w1 = services w /\ clients w1 = clients w
       /\ invoices w1 = invoices w /\ notifications w1 = notifications w
       /\ purchase_audit_log w1 = purchase_audit_log w
       /\ (orders w1 = orders w
           \/ exists st, (st = paid \/ st = pending)
                /\ orders w1 =
                     map (fun o => if Nat.eqb (Order.id o) orderId
                                   then Order.set_status st (OrderSync.now e) o else o)
                         (orders w)))).
  unfold OrderSync.syncOrderStatus. sync_walk; repeat (split; [reflexivity|]); auto.
  right. eexists. split; [|reflexivity].
  unfold OrderSync.newStatus_of.
  repeat match goal with |- context [match ?x with _ => _ end] => destruct x end; auto.
Qed.

(** X10.  A paid or cancelled order can be set back to pending.  For an
    order that exists, is linked to an invoice and passes the validation
    trigger, if the provider answers with any status other than [paid]
    (or with none), [syncOrderStatus] sets the order to pending, whatever
    its status was. *)
Theorem syncOrderStatus_sets_pending :
  forall (e : OrderSync.Env) (orderId : nat) (w : World) (order : Order.t)
         (zoho_invoice_id : string) (status : option string),
    filter (fun o => Nat.eqb (Order.id o) orderId) (orders w) = [order] ->
    Order.zoho_invoice_id order = Some zoho_invoice_id ->
    truthy_string zoho_invoice_id = true ->
    validate_order_data w order = RETURN_NEW order ->
    OrderSync.orders_select_error e = None ->
    OrderSync.orders_update_error e = None ->
    OrderSync.fetch_invoice e zoho_invoice_id = OrderSync.OkJson status ->
    status <> Some "paid" ->
    orders (world (OrderSync.syncOrderStatus e orderId w)) =
      map (fun o => if Nat.eqb (Order.id o) orderId
                    then Order.set_status pending (OrderSync.now e) o else o)
          (orders w).
Proof.
  intros e orderId w order zoho_invoice_id status Hone Hinv Htruthy Hval Hsel Hupd
    Hfetch Hstatus.
  assert (Hnew : OrderSync.newStatus_of status = pending).
  { destruct status as [s|]; [|reflexivity]. cbn.
    destruct (String.eqb_spec s "paid") as [->|]; [contradiction | reflexivity]. }
  change (post (OrderSync.syncOrderStatus e orderId) w
    (fun _ w1 => orders w1 =
       map (fun o => if Nat.eqb (Order.id o) orderId
                     then Order.set_status pending (OrderSync.now e) o else o)
           (orders w))).
  unfold OrderSync.syncOrderStatus. wp.
  apply post_orders_eq_id; [intros msg Hmsg; congruence | intros _].
  rewrite Hone. wp. rewrite Hinv, Htruthy, Hfetch, Hnew. wp.
  apply post_orders_update.
  - intros msg Hmsg. congruence.
  - intros msg _. rewrite Hone. cbn [map first_exception].
    rewrite validate_order_data_set_status, Hval. discriminate.
  - intros _ _. wp. reflexivity.
Qed.

Lemma syncOrderStatus_sets_pending_witness :
  map Order.status
    (orders (world (OrderSync.syncOrderStatus Scenario.sync_env 1 (Sample.store_with paid))))
  = [pending].
Proof.
  rewrite (syncOrderStatus_sets_pending Scenario.sync_env 1 (Sample.store_with paid)
             (Sample.order paid) "INV-1" (Some "overdue"));
    try reflexivity.
  discriminate.
Defined.

(** ** The health check of the payment service *)

(** The identifier that the check resolves is not of the UUID shape and is
    no alias: it is not found. *)
Lemma resolveServiceId_testServiceId e w :
  (forall m, serviceMappingCache w = Some m -> m !! PaymentHealth.testServiceId = None) ->
  result (ServiceManager.resolveServiceId e PaymentHealth.testServiceId w) = Ret None.
Proof.
  intros Hcache.
  assert (Hre : ServiceManager.uuidRegex_test PaymentHealth.testServiceId = false)
    by reflexivity.
  pose proof (resolveServiceId_alias_run e _ w Hre) as (mapping & Hm & _ & Hr).
  rewrite Hr. clear Hr.
  pose proof (createServiceMapping_run e w) as Hrun. unfold post in Hrun.
  rewrite Hm in Hrun.
  assert (Hnone : mapping !! PaymentHealth.testServiceId = None).
  { destruct (serviceMappingCache w) as [m|] eqn:Ec.
    - destruct Hrun as [[= ->] _]. by apply Hcache.
    - cbv zeta in Hrun.
      destruct (mapping !! PaymentHealth.testServiceId) as [v|] eqn:Ev; [|reflexivity].
      exfalso.
      destruct (result (ServiceManager.getAllServices e w)) as [l|err].
      + destruct Hrun as [[= ->] _].
        apply fold_add_aliases_lookup in Ev as [Ev | [Hin _]].
        * by rewrite lookup_empty in Ev.
        * assert (Hnot : PaymentHealth.testServiceId ∉ aliases) by compute_done.
          contradiction.
      + destruct Hrun as [[= ->] _]. by rewrite lookup_empty in Ev. }
  unfold Js.get. rewrite Hnone. reflexivity.
Qed.

(** X11.  The health check of the payment service never reports the
    system healthy.  The identifier it resolves to test the resolution has
    a last group of eleven digits, so it has not the UUID shape, and it is
    no alias: whatever the datastore holds and answers, it is not found,
    and the first issue of every report is that the resolution does not
    work.  (The alias map, if cached, has no entry under that identifier:
    the map is only ever written under the aliases.)  The check itself
    never throws. *)
Theorem performHealthCheck_never_healthy :
  forall (e : PaymentHealth.Env) (w : World),
    (forall m, serviceMappingCache w = Some m -> m !! PaymentHealth.testServiceId = None) ->
    exists issues,
      result (PaymentHealth.performHealthCheck e w) =
        Ret {| PaymentHealth.healthy := false;
               PaymentHealth.issues := "Service resolution system not working" :: issues |}.
Proof.
  intros e w Hcache.
  pose proof (resolveServiceId_testServiceId (PaymentHealth.services_env e) w Hcache) as Hr.
  unfold PaymentHealth.performHealthCheck, LocalArray.declare, LocalArray.try_catch, mbind, mret,
    PaymentHealth.L_bind, PaymentHealth.L_ret, LocalArray.bind, LocalArray.ret, LocalArray.lift,
    LocalArray.push, LocalArray.read, PaymentHealth.orders_count, M_ret.
  cbn [fst snd]. rewrite Hr.
  cbn [PaymentHealth.truthy_id quiet says result world console fst snd app].
  destruct (PaymentHealth.orders_count_error e) as [msg|],
           (PaymentHealth.fetch_zoho_integration e) as [msg'|[|]];
    cbn; eexists; reflexivity.
Qed.

Lemma performHealthCheck_never_healthy_witness :
  exists issues,
    result (PaymentHealth.performHealthCheck
              {| PaymentHealth.services_env := Sample.services_ok;
                 PaymentHealth.orders_count_error := None;
                 PaymentHealth.fetch_zoho_integration := PaymentHealth.Responded true |}
              Sample.store) =
      Ret {| PaymentHealth.healthy := false;
             PaymentHealth.issues := "Service resolution system not working" :: issues |}.
Proof.
  apply performHealthCheck_never_healthy. intros m Hm. discriminate Hm.
Defined.

(** ** The invoicing function *)

(** The invoicing function has no datastore: it leaves the world as it is. *)
Lemma unchanged_refl w : unchanged w w.
Proof. reflexivity. Qed.

Lemma unchanged_trans w1 w2 w3 : unchanged w1 w2 -> unchanged w2 w3 -> unchanged w1 w3.
Proof. unfold unchanged. congruence. Qed.

Lemma findZohoCustomer_world zoho token email :
  respects (fun w w' => w' = w) (ZohoIntegration.findZohoCustomer zoho token email).
Proof.
  change (respects unchanged (ZohoIntegration.findZohoCustomer zoho token email)).
  unfold ZohoIntegration.findZohoCustomer.
  assert (H1 := unchanged_refl). assert (H2 := unchanged_trans). frame_steps.
Qed.

Lemma createZohoCustomer_world zoho token customerData :
  respects (fun w w' => w' = w) (ZohoIntegration.createZohoCustomer zoho token customerData).
Proof.
  change (respects unchanged (ZohoIntegration.createZohoCustomer zoho token customerData)).
  unfold ZohoIntegration.createZohoCustomer.
  assert (H1 := unchanged_refl). assert (H2 := unchanged_trans).
  frame_steps; intros; apply findZohoCustomer_world.
Qed.

Lemma handler_world cfg clock zoho event :
  respects (fun w w' => w' = w) (ZohoFunction.handler cfg clock zoho event).
Proof.
  change (respects unchanged (ZohoFunction.handler cfg clock zoho event)).
  unfold ZohoFunction.handler, ZohoFunction.validateZohoConfig,
    ZohoFunction.getZohoAccessToken, ZohoFunction.testZohoConnection,
    ZohoFunction.createZohoInvoice.
  assert (H1 := unchanged_refl). assert (H2 := unchanged_trans).
  frame_steps; intros; apply createZohoCustomer_world.
Qed.

Lemma validateZohoConfig_result cfg w :
  result (ZohoFunction.validateZohoConfig cfg w) =
    match ZohoFunction.missing_settings cfg with
    | [] => Ret tt
    | names => Throw (Error ("Missing Zoho configuration: " ++ String.concat ", " names))
    end.
Proof.
  unfold ZohoFunction.validateZohoConfig, ZohoFunction.missing_settings.
  cbn [List.filter map fst snd].
  destruct (ZohoFunction.present (ZohoFunction.clientId cfg)),
           (ZohoFunction.present (ZohoFunction.clientSecret cfg)),
           (ZohoFunction.present (ZohoFunction.refreshToken cfg)),
           (ZohoFunction.present (ZohoFunction.organizationId cfg)); reflexivity.
Qed.

Lemma post_validateZohoConfig cfg w (Q : outcome unit -> World -> Prop) :
  Q match ZohoFunction.missing_settings cfg with
    | [] => Ret tt
    | names => Throw (Error ("Missing Zoho configuration: " ++ String.concat ", " names))
    end w ->
  post (ZohoFunction.validateZohoConfig cfg) w Q.
Proof.
  unfold post. rewrite validateZohoConfig_result.
  replace (world (ZohoFunction.validateZohoConfig cfg w)) with w; [exact id|].
  unfold ZohoFunction.validateZohoConfig.
  by destruct (_ ++ _).
Qed.

Lemma getZohoAccessToken_world cfg zoho w :
  world (ZohoFunction.getZohoAccessToken cfg zoho w) = w.
Proof.
  change (post (ZohoFunction.getZohoAccessToken cfg zoho) w (fun _ w1 => w1 = w)).
  unfold ZohoFunction.getZohoAccessToken. wp_cases; reflexivity.
Qed.

Lemma post_getZohoAccessToken cfg zoho w (Q : outcome string -> World -> Prop) :
  Q (result (ZohoFunction.getZohoAccessToken cfg zoho w)) w ->
  post (ZohoFunction.getZohoAccessToken cfg zoho) w Q.
Proof. unfold post. by rewrite getZohoAccessToken_world. Qed.

(** The steps of the invoicing function, through its calls. *)
Ltac zoho_walk :=
  repeat (wp_simpl;
    first [ wp_step
          | match goal with
            | |- post (match ?x with _ => _ end) _ _ => destruct x eqn:?
            end
          | wp_call ]);
  wp_simpl.

(** Membership in a list given by its elements. *)
Ltac in_list := repeat first [apply list_elem_of_here | apply list_elem_of_further].

(** X12.  The answers of the invoicing function.  The handler never
    throws and leaves the world as it is; every answer has status 200, 405
    or 500.  A preflight request (OPTIONS) is answered 200 before the
    configuration is looked at.  Status 405 is the answer to a method other
    than OPTIONS, GET and POST, and only when the configuration is complete
    and the provider has given a token: otherwise such a request is
    answered 500, like any other request but a preflight when a setting is
    missing or the token is refused. *)
Theorem zoho_handler_answers :
  forall (cfg : ZohoFunction.Config) (clock : ZohoFunction.Clock) (zoho : ZohoFunction.Api)
         (event : ZohoFunction.Event) (w : World),
    let r := ZohoFunction.handler cfg clock zoho event w in
    world r = w
    /\ exists answer,
         result r = Ret answer
         /\ ZohoFunction.Answer.statusCode answer ∈ [200%Z; 405%Z; 500%Z]
         /\ (ZohoFunction.httpMethod event = "OPTIONS" ->
               ZohoFunction.Answer.statusCode answer = 200%Z)
         /\ (ZohoFunction.Answer.statusCode answer = 405%Z <->
               ZohoFunction.httpMethod event <> "OPTIONS"
               /\ ZohoFunction.httpMethod event <> "GET"
               /\ ZohoFunction.httpMethod event <> "POST"
               /\ ZohoFunction.missing_settings cfg = []
               /\ exists token,
                    result (ZohoFunction.getZohoAccessToken cfg zoho w) = Ret token)
         /\ (ZohoFunction.httpMethod event <> "OPTIONS" ->
             ZohoFunction.missing_settings cfg <> []
             \/ (exists err,
                   result (ZohoFunction.getZohoAccessToken cfg zoho w) = Throw err) ->
             ZohoFunction.Answer.statusCode answer = 500%Z).
Proof.
  intros cfg clock zoho event w r.
  split; [apply (handler_world cfg clock zoho event w)|].
  change (post (ZohoFunction.handler cfg clock zoho event) w
    (fun o _ =>
       exists answer,
         o = Ret answer
         /\ ZohoFunction.Answer.statusCode answer ∈ [200%Z; 405%Z; 500%Z]
         /\ (ZohoFunction.httpMethod event = "OPTIONS" ->
               ZohoFunction.Answer.statusCode answer = 200%Z)
         /\ (ZohoFunction.Answer.statusCode answer = 405%Z <->
               ZohoFunction.httpMethod event <> "OPTIONS"
               /\ ZohoFunction.httpMethod event <> "GET"
               /\ ZohoFunction.httpMethod event <> "POST"
               /\ ZohoFunction.missing_settings cfg = []
               /\ exists token,
                    result (ZohoFunction.getZohoAccessToken cfg zoho w) = Ret token)
         /\ (ZohoFunction.httpMethod event <> "OPTIONS" ->
             ZohoFunction.missing_settings cfg <> []
             \/ (exists err,
                   result (ZohoFunction.getZohoAccessToken cfg zoho w) = Throw err) ->
             ZohoFunction.Answer.statusCode answer = 500%Z))).
  unfold ZohoFunction.handler. wp.
  destruct (String.eqb_spec (ZohoFunction.httpMethod event) "OPTIONS") as [Hopt|Hopt].
  { wp. eexists. split; [reflexivity|]. cbn. split; [in_list|]. split; [done|].
    split; [|intros Hm; contradiction].
    split; [done|]. intros [Hm _]. contradiction. }
  wp. apply post_validateZohoConfig.
  destruct (ZohoFunction.missing_settings cfg) as [|name names] eqn:Hcfg; wp.
  2: { eexists. split; [reflexivity|]. cbn. split; [in_list|]. split; [done|].
       split; [|reflexivity].
       split; [done|]. intros (_ & _ & _ & Hm & _). discriminate. }
  destruct (result (ZohoFunction.getZohoAccessToken cfg zoho w)) as [token|err] eqn:Htok.
  2: { apply post_getZohoAccessToken. rewrite Htok. wp.
       eexists. split; [reflexivity|]. cbn. split; [in_list|]. split; [done|].
       split; [|reflexivity].
       split; [done|]. intros (_ & _ & _ & _ & token & Hm). discriminate. }
  apply post_getZohoAccessToken. rewrite Htok. wp.
  destruct (String.eqb_spec (ZohoFunction.httpMethod event) "GET") as [Hget|Hget].
  { zoho_walk; eexists; (split; [reflexivity|]); cbn; (split; [in_list|]);
      (split; [done|]);
      (split; [|intros _ [Hm | [err' Herr]]; [done | discriminate]]);
      (split; [done|]); intros (_ & Hm & _); contradiction. }
  wp.
  destruct (String.eqb_spec (ZohoFunction.httpMethod event) "POST") as [Hpost|Hpost].
  { zoho_walk; eexists; (split; [reflexivity|]); cbn; (split; [in_list|]);
      (split; [done|]);
      (split; [|intros _ [Hm | [err' Herr]]; [done | discriminate]]);
      (split; [done|]); intros (_ & _ & Hm & _); contradiction. }
  wp. eexists. split; [reflexivity|]. cbn. split; [in_list|]. split; [done|].
  split; [|intros _ [Hm | [err' Herr]]; [done | discriminate]].
  split; [intros _|done]. repeat (split; [assumption|]). split; [reflexivity|]. eauto.
Qed.

(** X13.  An incomplete configuration.  When one of the four settings is
    not set, every request but a preflight is answered 500 with a message
    that names the settings that are missing, in the order of the checks;
    the provider is not called. *)
Theorem zoho_handler_needs_configuration :
  forall (cfg : ZohoFunction.Config) (clock : ZohoFunction.Clock) (zoho : ZohoFunction.Api)
         (event : ZohoFunction.Event) (w : World),
    ZohoFunction.httpMethod event <> "OPTIONS" ->
    ZohoFunction.missing_settings cfg <> [] ->
    result (ZohoFunction.handler cfg clock zoho event w) =
      Ret {| ZohoFunction.Answer.statusCode := 500;
             ZohoFunction.Answer.success := Some false;
             ZohoFunction.Answer.message := None;
             ZohoFunction.Answer.error :=
               Some ("Missing Zoho configuration: "
                     ++ String.concat ", " (ZohoFunction.missing_settings cfg))%string;
             ZohoFunction.Answer.customer := None;
             ZohoFunction.Answer.invoice := None |}.
Proof.
  intros cfg clock zoho event w Hopt Hmissing.
  change (post (ZohoFunction.handler cfg clock zoho event) w
    (fun o _ =>
       o = Ret {| ZohoFunction.Answer.statusCode := 500;
                  ZohoFunction.Answer.success := Some false;
                  ZohoFunction.Answer.message := None;
                  ZohoFunction.Answer.error :=
                    Some ("Missing Zoho configuration: "
                          ++ String.concat ", " (ZohoFunction.missing_settings cfg))%string;
                  ZohoFunction.Answer.customer := None;
                  ZohoFunction.Answer.invoice := None |})).
  unfold ZohoFunction.handler. wp.
  apply String.eqb_neq in Hopt. rewrite Hopt. wp.
  apply post_validateZohoConfig.
  destruct (ZohoFunction.missing_settings cfg); [contradiction|]. wp. reflexivity.
Qed.

Lemma zoho_handler_needs_configuration_witness :
  result (ZohoFunction.handler
            {| ZohoFunction.clientId := Some "1000.ABC";
               ZohoFunction.clientSecret := None;
               ZohoFunction.refreshToken := Some "1000.refresh";
               ZohoFunction.organizationId := Some EmptyString |}
            Scenario.zoho_clock (Scenario.zoho_api []) Scenario.zoho_request Sample.store) =
    Ret {| ZohoFunction.Answer.statusCode := 500;
           ZohoFunction.Answer.success := Some false;
           ZohoFunction.Answer.message := None;
           ZohoFunction.Answer.error :=
             Some "Missing Zoho configuration: ZOHO_CLIENT_SECRET, ZOHO_ORGANIZATION_ID";
           ZohoFunction.Answer.customer := None;
           ZohoFunction.Answer.invoice := None |}.
Proof.
  apply (zoho_handler_needs_configuration
           {| ZohoFunction.clientId := Some "1000.ABC";
              ZohoFunction.clientSecret := None;
              ZohoFunction.refreshToken := Some "1000.refresh";
              ZohoFunction.organizationId := Some EmptyString |});
    discriminate.
Defined.

(** X14.  The connection test.  A GET, once the configuration is complete
    and a token obtained, is answered 200 whether or not the provider's
    interface can be reached: what the test found is told by [success]
    alone, true when the list of contacts was answered, false (with the
    reason as [error]) when it was refused. *)
Theorem zoho_handler_get :
  forall (cfg : ZohoFunction.Config) (clock : ZohoFunction.Clock) (zoho : ZohoFunction.Api)
         (event : ZohoFunction.Event) (w : World) (token : string),
    ZohoFunction.httpMethod event = "GET" ->
    ZohoFunction.missing_settings cfg = [] ->
    result (ZohoFunction.getZohoAccessToken cfg zoho w) = Ret token ->
    exists answer,
      result (ZohoFunction.handler cfg clock zoho event w) = Ret answer
      /\ ZohoFunction.Answer.statusCode answer = 200%Z
      /\ ZohoFunction.Answer.customer answer = None
      /\ ZohoFunction.Answer.invoice answer = None
      /\ match ZohoFunction.list_contacts zoho token with
         | ZohoFunction.Answered _ =>
             ZohoFunction.Answer.success answer = Some true
             /\ ZohoFunction.Answer.error answer = None
         | ZohoFunction.Failed err =>
             ZohoFunction.Answer.success answer = Some false
             /\ exists reason, ZohoFunction.Answer.error answer = Some reason
                 /\ (ZohoFunction.status err <> Some 401%Z ->
                     reason = ZohoFunction.message err)
         end.
Proof.
  intros cfg clock zoho event w token Hget Hcfg Htok.
  change (post (ZohoFunction.handler cfg clock zoho event) w
    (fun o _ =>
       exists answer,
         o = Ret answer
         /\ ZohoFunction.Answer.statusCode answer = 200%Z
         /\ ZohoFunction.Answer.customer answer = None
         /\ ZohoFunction.Answer.invoice answer = None
         /\ match ZohoFunction.list_contacts zoho token with
            | ZohoFunction.Answered _ =>
                ZohoFunction.Answer.success answer = Some true
                /\ ZohoFunction.Answer.error answer = None
            | ZohoFunction.Failed err =>
                ZohoFunction.Answer.success answer = Some false
                /\ exists reason, ZohoFunction.Answer.error answer = Some reason
                    /\ (ZohoFunction.status err <> Some 401%Z ->
                        reason = ZohoFunction.message err)
            end)).
  unfold ZohoFunction.handler. rewrite Hget. cbn [String.eqb Ascii.eqb Bool.eqb]. wp.
  apply post_validateZohoConfig. rewrite Hcfg. wp.
  apply post_getZohoAccessToken. rewrite Htok. wp.
  unfold ZohoFunction.testZohoConnection. wp.
  destruct (ZohoFunction.list_contacts zoho token) as [u|err]; wp.
  - eexists. split; [reflexivity|]. cbn. auto.
  - case_bool_decide as H401; [case_bool_decide|]; wp;
      (eexists; split; [reflexivity|]); cbn; repeat (split; [reflexivity|]);
      (eexists; split; [reflexivity|]); intros Hne;
      first [contradiction | reflexivity].
Qed.

Lemma zoho_handler_get_witness :
  exists answer,
    result (ZohoFunction.handler Scenario.zoho_config Scenario.zoho_clock
              {| ZohoFunction.post_token := fun _ => ZohoFunction.Answered (Some "token");
                 ZohoFunction.list_contacts := fun _ =>
                   ZohoFunction.Failed
                     {| ZohoFunction.status := Some 503%Z; ZohoFunction.code := None;
                        ZohoFunction.message := "Request failed with status code 503" |};
                 ZohoFunction.customers := ZohoIntegration.directory [] "CUST-2";
                 ZohoFunction.post_invoices :=
                   ZohoFunction.post_invoices (Scenario.zoho_api []) |}
              {| ZohoFunction.httpMethod := "GET"; ZohoFunction.body := ZohoFunction.NoBody |}
              Sample.store) = Ret answer
    /\ ZohoFunction.Answer.statusCode answer = 200%Z
    /\ ZohoFunction.Answer.success answer = Some false.
Proof.
  edestruct (zoho_handler_get Scenario.zoho_config Scenario.zoho_clock
              {| ZohoFunction.post_token := fun _ => ZohoFunction.Answered (Some "token");
                 ZohoFunction.list_contacts := fun _ =>
                   ZohoFunction.Failed
                     {| ZohoFunction.status := Some 503%Z; ZohoFunction.code := None;
                        ZohoFunction.message := "Request failed with status code 503" |};
                 ZohoFunction.customers := ZohoIntegration.directory [] "CUST-2";
                 ZohoFunction.post_invoices :=
                   ZohoFunction.post_invoices (Scenario.zoho_api []) |}
              {| ZohoFunction.httpMethod := "GET"; ZohoFunction.body := ZohoFunction.NoBody |}
              Sample.store "token") as (answer & H1 & H2 & _ & _ & H3 & _);
    try reflexivity.
  exists answer. split; [exact H1|]. split; [exact H2 | exact H3].
Defined.




(** ** The webhook receiver: what a payment event needs and what it ignores *)

Lemma post_orders_update_single fault (p : Order.t -> bool) f w
    (Q : outcome (Response.t Order.t) -> World -> Prop) :
  (forall msg, Q (Ret {| Response.data := None; Response.error := Some msg |}) w) ->
  (forall o, fault = None -> filter (fun x => p x) (orders w) = [o] ->
     validate_order_data w (f o) = RETURN_NEW (f o) ->
     Q (Ret {| Response.data := Some (f o); Response.error := None |})
       (set_orders (map (fun x => if p x then f x else x)) w)) ->
  post (orders_update_single fault p f) w Q.
Proof.
  unfold post, orders_update_single. intros H1 H2.
  destruct fault; [apply H1|].
  destruct (first_exception w _) eqn:E; [apply H1|].
  destruct (filter (fun x => p x) (orders w)) as [|o [|o' l]] eqn:F; cbn [map single];
    [apply H1 | | apply H1].
  cbn [map first_exception] in E.
  destruct (validate_order_data w (f o)) as [row|msg] eqn:V; [|discriminate].
  apply validate_order_data_accepts in V as Hrow. destruct Hrow as [-> _].
  by apply H2.
Qed.

Lemma post_sendNotificationEmail e emailData w (Q : outcome unit -> World -> Prop) :
  (forall w1, orders w1 = orders w -> invoices w1 = invoices w ->
              notifications w1 = notifications w -> services w1 = services w ->
              clients w1 = clients w -> Q (Ret tt) w1) ->
  post (ZohoWebhook.sendNotificationEmail e emailData) w Q.
Proof.
  intros H. unfold post.
  destruct (sendNotificationEmail_returns e emailData w) as (Hr & H1 & H2 & H3 & H4 & H5).
  rewrite Hr. by apply H.
Qed.

(** The steps of the payment handler. *)
Ltac payment_walk :=
  repeat (wp_simpl;
    first [ wp_step
          | match goal with
            | |- post (orders_update_single _ _ _) _ _ =>
                apply post_orders_update_single; [intros ? | intros ? ? ? ?]
            | |- post (ZohoWebhook.invoices_insert ?f _) _ _ =>
                unfold ZohoWebhook.invoices_insert at 1; destruct f eqn:?
            | |- post (ZohoWebhook.notifications_insert ?f _) _ _ =>
                unfold ZohoWebhook.notifications_insert at 1; destruct f eqn:?
            | |- post (ZohoWebhook.sendNotificationEmail _ _) _ _ =>
                apply post_sendNotificationEmail; intros ? ? ? ? ? ?
            | |- post (match ?x with _ => _ end) _ _ => destruct x eqn:?
            end ]);
  wp_simpl.

(** What a payment event does, by what the update of the order gives. *)
Lemma handlePaymentReceived_update e d w :
  post (ZohoWebhook.handlePaymentReceived e d) w
    (fun o w1 =>
       let update :=
         orders_update_single (ZohoWebhook.orders_update_error e)
           (ZohoWebhook.has_invoice (ZohoWebhook.Data.invoice_id d))
           (Order.set_status paid (ZohoWebhook.now e)) w in
       orders w1 = orders (world update)
       /\ match result update with
          | Ret resp =>
              match Response.error resp with
              | Some msg => o = Throw (PostgrestError msg) /\ w1 = w
              | None => o = Ret tt
              end
          | Throw _ => False
          end).
Proof.
  cbv zeta. unfold ZohoWebhook.handlePaymentReceived. wp.
  apply (post_run _ _ _ _ eq_refl).
  set (update := orders_update_single _ _ _ w).
  destruct (orders_update_single_returns (ZohoWebhook.orders_update_error e)
              (ZohoWebhook.has_invoice (ZohoWebhook.Data.invoice_id d))
              (Order.set_status paid (ZohoWebhook.now e)) w) as [resp Hresp].
  fold update in Hresp. rewrite Hresp. wp.
  destruct (Response.error resp) as [msg|] eqn:Herr; wp.
  { split; [reflexivity|]. split; [reflexivity|].
    subst update. unfold orders_update_single in *.
    destruct (ZohoWebhook.orders_update_error e); [reflexivity|].
    destruct (first_exception w _); [reflexivity|].
    destruct (map _ _) as [|r [|r' l]]; try reflexivity.
    cbn in Hresp. injection Hresp as <-. discriminate. }
  destruct (Response.data resp) as [order|]; wp; [|auto].
  payment_walk; cbn [orders set_invoices set_notifications] in *;
    (split; [first [assumption | reflexivity] | reflexivity]).
Qed.

Lemma orders_update_single_not_one fault (p : Order.t -> bool) f w :
  length (filter (fun x => p x) (orders w)) <> 1%nat ->
  exists msg,
    orders_update_single fault p f w =
      {| result := Ret {| Response.data := None; Response.error := Some msg |};
         world := w; console := [] |}.
Proof.
  intros Hlen. unfold orders_update_single.
  destruct fault; [eexists; reflexivity|].
  destruct (first_exception w _); [eexists; reflexivity|].
  destruct (filter (fun x => p x) (orders w)) as [|o [|o' l]];
    [eexists; reflexivity | by destruct Hlen | eexists; reflexivity].
Qed.

(** X16.  A payment needs exactly one order.  When the orders linked to
    the invoice of a payment event are not exactly one (none, or several),
    the handler of the event throws the error of the update and changes
    nothing: no order is marked paid, no receipt or notification is written
    and no mail is sent; the webhook is answered 500 with that error. *)
Theorem handlePaymentReceived_needs_one_order :
  forall (e : ZohoWebhook.Env) (d : ZohoWebhook.Data.t) (w : World),
    length (filter (fun x => ZohoWebhook.has_invoice (ZohoWebhook.Data.invoice_id d) x)
              (orders w)) <> 1%nat ->
    exists msg,
      result (ZohoWebhook.handlePaymentReceived e d w) = Throw (PostgrestError msg)
      /\ world (ZohoWebhook.handlePaymentReceived e d w) = w
      /\ let r := ZohoWebhook.handler e
                    {| ZohoWebhook.httpMethod := "POST";
                       ZohoWebhook.body := ZohoWebhook.Parsed
                         {| ZohoWebhook.event_type := Some "invoice_payment_received";
                            ZohoWebhook.data := Some d |} |} w in
         world r = w
         /\ result r = Ret {| ZohoWebhook.HttpResponse.statusCode := 500;
                              ZohoWebhook.HttpResponse.success := Some false;
                              ZohoWebhook.HttpResponse.eventType := None;
                              ZohoWebhook.HttpResponse.error := Some msg |}.
Proof.
  intros e d w Hlen.
  destruct (orders_update_single_not_one (ZohoWebhook.orders_update_error e)
              (ZohoWebhook.has_invoice (ZohoWebhook.Data.invoice_id d))
              (Order.set_status paid (ZohoWebhook.now e)) w Hlen) as [msg Hupd].
  pose proof (handlePaymentReceived_update e d w) as Hrun.
  unfold post in Hrun. cbv zeta in Hrun. rewrite Hupd in Hrun.
  cbn [result world Response.error] in Hrun. destruct Hrun as (_ & Hr & Hw).
  exists msg. split; [exact Hr|]. split; [exact Hw|].
  change (post (ZohoWebhook.handler e
                  {| ZohoWebhook.httpMethod := "POST";
                     ZohoWebhook.body := ZohoWebhook.Parsed
                       {| ZohoWebhook.event_type := Some "invoice_payment_received";
                          ZohoWebhook.data := Some d |} |}) w
            (fun o w1 =>
               w1 = w
               /\ o = Ret {| ZohoWebhook.HttpResponse.statusCode := 500;
                             ZohoWebhook.HttpResponse.success := Some false;
                             ZohoWebhook.HttpResponse.eventType := None;
                             ZohoWebhook.HttpResponse.error := Some msg |})).
  unfold ZohoWebhook.handler.
  cbn [ZohoWebhook.httpMethod ZohoWebhook.body String.eqb Ascii.eqb Bool.eqb negb].
  wp. cbn [ZohoWebhook.event_type ZohoWebhook.data].
  change (truthy_string "invoice_payment_received") with true.
  change (String.eqb "invoice_payment_received" "invoice_payment_received") with true.
  wp. apply (post_run _ _ _ _ Hr). rewrite Hw. wp. split; reflexivity.
Qed.

Lemma handlePaymentReceived_needs_one_order_witness :
  exists msg,
    result (ZohoWebhook.handlePaymentReceived Sample.hook_env Sample.payment_data Sample.store)
      = Throw (PostgrestError msg)
    /\ world (ZohoWebhook.handlePaymentReceived Sample.hook_env Sample.payment_data
                Sample.store) = Sample.store.
Proof.
  destruct (handlePaymentReceived_needs_one_order Sample.hook_env Sample.payment_data
              Sample.store) as (msg & H1 & H2 & _).
  - vm_compute. discriminate.
  - exists msg. split; [exact H1 | exact H2].
Defined.

(** X17.  The amount of a payment is not checked.  What a payment event
    does to the order table, and whether its handler returns or throws,
    depends on the invoice id of the event alone: the total it reports,
    like its invoice number and its date, is compared with nothing, so an
    event that reports any total, or none, settles the order. *)
Theorem handlePaymentReceived_ignores_total :
  forall (e : ZohoWebhook.Env) (d d' : ZohoWebhook.Data.t) (w : World),
    ZohoWebhook.Data.invoice_id d = ZohoWebhook.Data.invoice_id d' ->
    result (ZohoWebhook.handlePaymentReceived e d w)
      = result (ZohoWebhook.handlePaymentReceived e d' w)
    /\ orders (world (ZohoWebhook.handlePaymentReceived e d w))
       = orders (world (ZohoWebhook.handlePaymentReceived e d' w)).
Proof.
  intros e d d' w Hid.
  pose proof (handlePaymentReceived_update e d w) as H1.
  pose proof (handlePaymentReceived_update e d' w) as H2.
  unfold post in H1, H2. cbv zeta in H1, H2. rewrite <- Hid in H2.
  destruct H1 as [Ho1 Hr1], H2 as [Ho2 Hr2].
  split; [|congruence].
  destruct (result (orders_update_single _ _ _ w)) as [resp|err]; [|contradiction].
  destruct (Response.error resp); [destruct Hr1, Hr2|]; congruence.
Qed.

Lemma handlePaymentReceived_ignores_total_witness :
  map Order.status
    (orders (world (ZohoWebhook.handlePaymentReceived Sample.hook_env
                      Scenario.payment_of_nothing (Sample.store_with pending))))
  = [paid].
Proof.
  rewrite (proj2 (handlePaymentReceived_ignores_total Sample.hook_env
                    Scenario.payment_of_nothing Sample.payment_data
                    (Sample.store_with pending) eq_refl)).
  reflexivity.
Defined.

(** X18.  What the webhook answers, and when it writes.  The handler never
    throws, and answers 200, 405 or 500.  A request that is not answered
    200 has changed nothing; and the only requests that change anything are
    POSTs of a payment-received or a status-changed event. *)
Theorem webhook_handler_answers :
  forall (e : ZohoWebhook.Env) (event : ZohoWebhook.Event) (w : World),
    let r := ZohoWebhook.handler e event w in
    exists response,
      result r = Ret response
      /\ ZohoWebhook.HttpResponse.statusCode response ∈ [200%Z; 405%Z; 500%Z]
      /\ (ZohoWebhook.HttpResponse.statusCode response <> 200%Z -> world r = w)
      /\ (world r <> w ->
            ZohoWebhook.httpMethod event = "POST"
            /\ exists eventType payload,
                 ZohoWebhook.body event =
                   ZohoWebhook.Parsed {| ZohoWebhook.event_type := Some eventType;
                                         ZohoWebhook.data := Some payload |}
                 /\ (eventType = "invoice_payment_received"
                     \/ eventType = "invoice_status_changed")).
Proof.
  intros e event w r.
  change (post (ZohoWebhook.handler e event) w
    (fun o w1 =>
       exists response,
         o = Ret response
         /\ ZohoWebhook.HttpResponse.statusCode response ∈ [200%Z; 405%Z; 500%Z]
         /\ (ZohoWebhook.HttpResponse.statusCode response <> 200%Z -> w1 = w)
         /\ (w1 <> w ->
               ZohoWebhook.httpMethod event = "POST"
               /\ exists eventType payload,
                    ZohoWebhook.body event =
                      ZohoWebhook.Parsed {| ZohoWebhook.event_type := Some eventType;
                                            ZohoWebhook.data := Some payload |}
                    /\ (eventType = "invoice_payment_received"
                        \/ eventType = "invoice_status_changed")))).
  unfold ZohoWebhook.handler. wp.
  destruct (String.eqb (ZohoWebhook.httpMethod event) "OPTIONS"); wp.
  { eexists. split; [reflexivity|]. cbn. split; [in_list|]. split; done. }
  destruct (String.eqb_spec (ZohoWebhook.httpMethod event) "POST") as [Hpost|Hpost];
    cbn [negb]; wp.
  2: { eexists. split; [reflexivity|]. cbn. split; [in_list|]. split; done. }
  destruct (ZohoWebhook.body event) as [msg | [[eventType|] [payload|]]]; wp;
    try (eexists; split; [reflexivity|]; cbn; split; [in_list|]; split; done).
  cbn [ZohoWebhook.event_type ZohoWebhook.data].
  destruct (truthy_string eventType); wp;
    [|eexists; split; [reflexivity|]; cbn; split; [in_list|]; split; done].
  destruct (String.eqb_spec eventType "invoice_payment_received") as [->|Hne1].
  { eapply post_conseq; [apply handlePaymentReceived_update|].
    cbv zeta. intros o w1 [_ Hrun].
    destruct (result (orders_update_single _ _ _ w)) as [resp|err]; [|contradiction].
    destruct (Response.error resp) as [msg|].
    - destruct Hrun as [-> ->]. wp.
      eexists. split; [reflexivity|]. cbn. split; [in_list|]. split; done.
    - subst o. wp. eexists. split; [reflexivity|]. cbn. split; [in_list|].
      split; [done|]. intros _. split; [exact Hpost|]. eauto. }
  destruct (String.eqb_spec eventType "invoice_status_changed") as [->|Hne2].
  { pose proof (handleInvoiceStatusChange_run e payload w) as Hrun. cbv zeta in Hrun.
    apply (post_run _ _ _ _ eq_refl).
    destruct (result (orders_update _ _ _ w)) as [[[msg|] rows]|err]; [| |contradiction].
    - destruct Hrun as [-> ->]. wp.
      eexists. split; [reflexivity|]. cbn. split; [in_list|]. split; done.
    - destruct Hrun as [-> _]. wp. eexists. split; [reflexivity|]. cbn. split; [in_list|].
      split; [done|]. intros _. split; [exact Hpost|]. eauto. }
  destruct (String.eqb eventType "invoice_created"); wp;
    eexists; (split; [reflexivity|]); cbn; (split; [in_list|]); split; done.
Qed.

(** ** Blocks that fill a local array: rules *)

Lemma local_post_bind {A B : Type} (m : LocalArray.L A) (k : A -> LocalArray.L B) issues w
    (Q : outcome B -> World -> list string -> Prop) :
  LocalArray.post m issues w
    (fun o w1 issues1 => match o with
                         | Ret a => LocalArray.post (k a) issues1 w1 Q
                         | Throw e => Q (Throw e) w1 issues1
                         end) ->
  LocalArray.post (LocalArray.bind m k) issues w Q.
Proof.
  unfold LocalArray.post, LocalArray.bind. destruct (m issues w) as [r issues1]. cbn [fst snd].
  destruct (result r); [|auto]. destruct (k a issues1 (world r)). auto.
Qed.

Lemma local_post_try_catch {A : Type} (m : LocalArray.L A) (h : Exn -> LocalArray.L A) issues w
    (Q : outcome A -> World -> list string -> Prop) :
  LocalArray.post m issues w
    (fun o w1 issues1 => match o with
                         | Ret a => Q (Ret a) w1 issues1
                         | Throw e => LocalArray.post (h e) issues1 w1 Q
                         end) ->
  LocalArray.post (LocalArray.try_catch m h) issues w Q.
Proof.
  unfold LocalArray.post, LocalArray.try_catch. destruct (m issues w) as [r issues1]. cbn [fst snd].
  destruct (result r) eqn:E; cbn [fst snd]; [rewrite E; auto|].
  destruct (h e issues1 (world r)). auto.
Qed.

Lemma local_post_lift {A : Type} (m : M A) issues w
    (Q : outcome A -> World -> list string -> Prop) :
  post m w (fun o w1 => Q o w1 issues) -> LocalArray.post (LocalArray.lift m) issues w Q.
Proof. auto. Qed.

Lemma local_post_ret {A : Type} (a : A) issues w
    (Q : outcome A -> World -> list string -> Prop) :
  Q (Ret a) w issues -> LocalArray.post (LocalArray.ret a) issues w Q.
Proof. auto. Qed.

Lemma local_post_push issue issues w (Q : outcome unit -> World -> list string -> Prop) :
  Q (Ret tt) w (issues ++ [issue]) -> LocalArray.post (LocalArray.push issue) issues w Q.
Proof. auto. Qed.

Lemma local_post_read issues w (Q : outcome (list string) -> World -> list string -> Prop) :
  Q (Ret issues) w issues -> LocalArray.post LocalArray.read issues w Q.
Proof. auto. Qed.

Lemma post_declare {A : Type} (m : LocalArray.L A) w (Q : outcome A -> World -> Prop) :
  LocalArray.post m [] w (fun o w1 _ => Q o w1) -> post (LocalArray.declare m) w Q.
Proof. auto. Qed.

Ltac local_step :=
  match goal with
  | |- LocalArray.post (LocalArray.bind _ _) _ _ _ => apply local_post_bind
  | |- LocalArray.post (LocalArray.try_catch _ _) _ _ _ => apply local_post_try_catch
  | |- LocalArray.post (LocalArray.ret _) _ _ _ => apply local_post_ret
  | |- LocalArray.post (LocalArray.push _) _ _ _ => apply local_post_push
  | |- LocalArray.post LocalArray.read _ _ _ => apply local_post_read
  | |- LocalArray.post (LocalArray.lift _) _ _ _ => apply local_post_lift
  | |- post (LocalArray.declare _) _ _ => apply post_declare
  | |- post (M_ret _ _) _ _ => apply post_ret
  end.

Ltac local_wp := repeat (cbv beta iota; first [local_step | wp_step]); cbv beta iota.

(** [createServiceMapping] returns a map, and a map that is not empty is
    the cached one afterwards. *)
Lemma createServiceMapping_returns e w :
  post (ServiceManager.createServiceMapping e) w
    (fun o w1 =>
       exists mapping,
         o = Ret mapping /\ (mapping <> ∅ -> serviceMappingCache w1 = Some mapping)).
Proof.
  eapply post_conseq; [apply createServiceMapping_run|]. cbv zeta. intros o w1 H.
  destruct (serviceMappingCache w) as [m|] eqn:Hc.
  - destruct H as [-> ->]. eauto.
  - destruct (result (ServiceManager.getAllServices e w)); destruct H as [-> ->];
      (eexists; split; [reflexivity|]); done.
Qed.

(** X19.  The health check of the service manager never throws, and
    reports the system healthy exactly when it found no issue.  A healthy
    report means that the count query reported no error, that the table of
    services is not empty, and that a map of aliases that is not empty is
    cached when the check ends; so a cached empty map keeps every report
    unhealthy until the cache is cleared. *)
Theorem service_performHealthCheck_report :
  forall (e : ServiceHealth.Env) (w : World),
    let r := ServiceHealth.performHealthCheck e w in
    exists report,
      result r = Ret report
      /\ (PaymentHealth.healthy report = true <-> PaymentHealth.issues report = [])
      /\ (PaymentHealth.healthy report = true ->
          ServiceHealth.services_count_error e = None
          /\ services w <> []
          /\ exists mapping,
               serviceMappingCache (world r) = Some mapping /\ mapping <> ∅).
Proof.
  intros e w r. subst r.
  change (post (ServiceHealth.performHealthCheck e) w
    (fun o w1 =>
       exists report,
         o = Ret report
         /\ (PaymentHealth.healthy report = true <-> PaymentHealth.issues report = [])
         /\ (PaymentHealth.healthy report = true ->
             ServiceHealth.services_count_error e = None
             /\ services w <> []
             /\ exists mapping, serviceMappingCache w1 = Some mapping /\ mapping <> ∅))).
  unfold ServiceHealth.performHealthCheck, ServiceHealth.services_count, mbind, mret,
    ServiceHealth.L_bind, ServiceHealth.L_ret.
  local_wp.
  destruct (ServiceHealth.services_count_error e) as [msg|]; local_wp.
  all: (eapply post_conseq; [apply getAllServices_post|]); intros o w1 [Hl _].
  all: destruct o as [l|err]; [specialize (Hl _ eq_refl); subst l|]; local_wp.
  all: try (destruct (services w) as [|s l] eqn:Hs; local_wp).
  all: try (eapply post_conseq; [apply createServiceMapping_returns|];
            intros o2 w2 (mapping & -> & Hm); local_wp;
            case_bool_decide; local_wp).
  all: eexists; (split; [reflexivity|]); cbn.
  all: try (split; [split; discriminate | discriminate]).
  split; [done|]. intros _. split; [done|]. split; [done|]. eauto.
Qed.

(** ** The log buffer *)

Lemma slice_last_length {A : Type} (n : nat) (l : list A) :
  length (ProductionLogger.slice_last n l) = Nat.min n (length l).
Proof. unfold ProductionLogger.slice_last. rewrite length_skipn. lia. Qed.

Lemma slice_last_all {A : Type} (n : nat) (l : list A) :
  (length l <= n)%nat -> ProductionLogger.slice_last n l = l.
Proof.
  intros H. unfold ProductionLogger.slice_last.
  replace (length l - n)%nat with 0%nat by lia. reflexivity.
Qed.

Lemma slice_last_app {A : Type} (n : nat) (l k : list A) :
  ProductionLogger.slice_last n (ProductionLogger.slice_last n l ++ k)
  = ProductionLogger.slice_last n (l ++ k).
Proof.
  destruct (Nat.le_gt_cases (length l) n) as [Hle|Hgt];
    [by rewrite (slice_last_all n l Hle)|].
  unfold ProductionLogger.slice_last at 1 3.
  rewrite !length_app, slice_last_length.
  replace (Nat.min n (length l) + length k - n)%nat with (length k) by lia.
  unfold ProductionLogger.slice_last.
  replace (length l + length k - n)%nat with (length k + (length l - n))%nat by lia.
  rewrite <- skipn_skipn. f_equal.
  rewrite skipn_app. replace (length l - n - length l)%nat with 0%nat by lia.
  reflexivity.
Qed.

Lemma slice_last_map {A B : Type} (f : A -> B) (n : nat) (l : list A) :
  map f (ProductionLogger.slice_last n l) = ProductionLogger.slice_last n (map f l).
Proof. unfold ProductionLogger.slice_last. by rewrite skipn_map, length_map. Qed.

(** One call: the entry is appended and the buffer cut back. *)
Lemma log_buffer DEV now level message data logs :
  exists logEntry,
    ProductionLogger.LogEntry.message logEntry = message
    /\ fst (ProductionLogger.log DEV now level message data logs)
       = ProductionLogger.slice_last ProductionLogger.capacity (logs ++ [logEntry]).
Proof.
  unfold ProductionLogger.log. cbv zeta. cbn [fst].
  match goal with |- context [logs ++ [?e]] => exists e end.
  split; [reflexivity|].
  destruct (Nat.ltb ProductionLogger.capacity (length _)) eqn:E; [reflexivity|].
  apply Nat.ltb_ge in E. symmetry. apply slice_last_all, E.
Qed.

Lemma logged_messages DEV calls : forall logs,
  map ProductionLogger.LogEntry.message
    (ProductionLogger.slice_last ProductionLogger.capacity
       (ProductionLogger.logged DEV calls logs))
  = ProductionLogger.slice_last ProductionLogger.capacity
      (map ProductionLogger.LogEntry.message logs ++ map ProductionLogger.call_message calls)
  /\ ((length logs <= ProductionLogger.capacity)%nat ->
      (length (ProductionLogger.logged DEV calls logs) <= ProductionLogger.capacity)%nat).
Proof.
  unfold ProductionLogger.logged.
  induction calls as [|c calls IH]; intros logs; cbn [fold_left map].
  - rewrite app_nil_r, slice_last_map. auto.
  - destruct (log_buffer DEV (ProductionLogger.call_now c) (ProductionLogger.call_level c)
                (ProductionLogger.call_message c) (ProductionLogger.call_data c) logs)
      as (logEntry & Hmsg & ->).
    destruct (IH (ProductionLogger.slice_last ProductionLogger.capacity (logs ++ [logEntry])))
      as [IH1 IH2].
    split.
    + rewrite IH1, slice_last_map, slice_last_app, map_app. cbn [map].
      rewrite Hmsg, <- app_assoc. reflexivity.
    + intros _. apply IH2. rewrite slice_last_length. lia.
Qed.

(** X20.  The log buffer keeps the last thousand entries.  From a buffer
    of at most a thousand entries, after any sequence of calls of [log] the
    buffer holds the messages of the last thousand of the entries it held
    and the calls made, in their order, and never more than a thousand
    entries; this is so in a development build and in a production
    build. *)
Theorem log_keeps_last_thousand :
  forall (DEV : bool) (calls : list ProductionLogger.Call) (logs : list ProductionLogger.LogEntry.t),
    (length logs <= 1000)%nat ->
    let after := ProductionLogger.getLogs (ProductionLogger.logged DEV calls logs) in
    map ProductionLogger.LogEntry.message after
    = ProductionLogger.slice_last 1000
        (map ProductionLogger.LogEntry.message logs ++ map ProductionLogger.call_message calls)
    /\ length after = Nat.min 1000 (length logs + length calls).
Proof.
  intros DEV calls logs Hlen after. subst after. unfold ProductionLogger.getLogs.
  change 1000%nat with ProductionLogger.capacity in *.
  destruct (logged_messages DEV calls logs) as [Hmsg Hcap]. specialize (Hcap Hlen).
  rewrite slice_last_all in Hmsg by exact Hcap.
  split; [exact Hmsg|].
  rewrite <- (length_map ProductionLogger.LogEntry.message), Hmsg, slice_last_length, length_app, !length_map.
  reflexivity.
Qed.

Lemma log_keeps_last_thousand_witness :
  map ProductionLogger.LogEntry.message
    (ProductionLogger.getLogs
       (ProductionLogger.logged false
          [ {| ProductionLogger.call_now := 1; ProductionLogger.call_level := "info";
               ProductionLogger.call_message := "Creating payment intent";
               ProductionLogger.call_data := None |};
            {| ProductionLogger.call_now := 2; ProductionLogger.call_level := "error";
               ProductionLogger.call_message := "Payment intent creation failed";
               ProductionLogger.call_data := None |} ]
          (ProductionLogger.clearLogs [])))
  = ["Creating payment intent"; "Payment intent creation failed"].
Proof.
  refine (eq_trans (proj1 (log_keeps_last_thousand false _ _ _)) _).
  - cbn [ProductionLogger.clearLogs length]. lia.
  - reflexivity.
Defined.

(** ** The pricing check of the database *)

